(** * Revocation in smallstep/certificates: ACME revoke handler, SSH revoke
    request validation and the JWS helpers of the ACME revoke tests. *)

From Stdlib Require Import ZArith List String Ascii Bool Lia Permutation.
Import ListNotations.

Local Open Scope Z_scope.
Local Open Scope string_scope.

(* ------------------------------------------------------------------ *)
(** ** Go string helpers *)

(** The double quote character. *)
Definition dq : string := String "034"%char EmptyString.

(** Decimal digits of a [Decimal.uint], most significant first. *)
Fixpoint uint_to_string (u : Decimal.uint) : string :=
  match u with
  | Decimal.Nil => ""
  | Decimal.D0 u => String "0" (uint_to_string u)
  | Decimal.D1 u => String "1" (uint_to_string u)
  | Decimal.D2 u => String "2" (uint_to_string u)
  | Decimal.D3 u => String "3" (uint_to_string u)
  | Decimal.D4 u => String "4" (uint_to_string u)
  | Decimal.D5 u => String "5" (uint_to_string u)
  | Decimal.D6 u => String "6" (uint_to_string u)
  | Decimal.D7 u => String "7" (uint_to_string u)
  | Decimal.D8 u => String "8" (uint_to_string u)
  | Decimal.D9 u => String "9" (uint_to_string u)
  end.

(** [fmt.Sprintf("%d", z)] and [big.Int.String()]: signed decimal. *)
Definition itoa (z : Z) : string :=
  match z with
  | Z0 => "0"
  | Zpos p => uint_to_string (Pos.to_uint p)
  | Zneg p => "-" ++ uint_to_string (Pos.to_uint p)
  end.

(* ------------------------------------------------------------------ *)
(** ** Bytes and [encoding/base64] *)

Abbreviation byte := Byte.byte.

Definition byteZ (b : byte) : Z := Z.of_N (Byte.to_N b).

Definition byte_of_Z (z : Z) : byte :=
  match Byte.of_N (Z.to_N z) with Some b => b | None => Byte.x00 end.

Definition ascii_of_Z (z : Z) : ascii := ascii_of_nat (Z.to_nat z).
Definition Z_of_ascii (c : ascii) : Z := Z.of_nat (nat_of_ascii c).

(** The URL-safe alphabet of [base64.RawURLEncoding]. *)
Definition b64char (i : Z) : ascii :=
  ascii_of_Z
    (if i <? 26 then 65 + i
     else if i <? 52 then 97 + (i - 26)
     else if i <? 62 then 48 + (i - 52)
     else if i =? 62 then 45 else 95)%Z.

Definition b64val (c : ascii) : option Z :=
  let n := Z_of_ascii c in
  if ((65 <=? n) && (n <=? 90))%Z then Some (n - 65)%Z
  else if ((97 <=? n) && (n <=? 122))%Z then Some (n - 71)%Z
  else if ((48 <=? n) && (n <=? 57))%Z then Some (n + 4)%Z
  else if (n =? 45)%Z then Some 62%Z
  else if (n =? 95)%Z then Some 63%Z
  else None.

(** [base64.RawURLEncoding.EncodeToString]: quanta of three bytes, no
    padding on the last one. *)
Fixpoint b64url_encode_list (bs : list byte) : list ascii :=
  match bs with
  | b0 :: b1 :: b2 :: rest =>
      let n := (byteZ b0 * 65536 + byteZ b1 * 256 + byteZ b2)%Z in
      b64char (n / 262144) :: b64char ((n / 4096) mod 64)
        :: b64char ((n / 64) mod 64) :: b64char (n mod 64)
        :: b64url_encode_list rest
  | [b0; b1] =>
      let n := (byteZ b0 * 65536 + byteZ b1 * 256)%Z in
      [b64char (n / 262144); b64char ((n / 4096) mod 64); b64char ((n / 64) mod 64)]
  | [b0] =>
      let n := (byteZ b0 * 65536)%Z in
      [b64char (n / 262144); b64char ((n / 4096) mod 64)]
  | [] => []
  end.

Definition b64url_encode (bs : list byte) : string :=
  string_of_list_ascii (b64url_encode_list bs).

Notation "x <-? m ;; k" := (match m with Some x => k | None => None end)
  (at level 61, m at next level, right associativity).

(** Decoding of full and final quanta; a final quantum of one character is
    a [CorruptInputError]; the unused low bits of a short final quantum are
    not checked (the encoding is not [Strict]). *)
Fixpoint b64url_decode_list (cs : list ascii) : option (list byte) :=
  match cs with
  | [] => Some []
  | c0 :: c1 :: c2 :: c3 :: rest =>
      d0 <-? b64val c0 ;; d1 <-? b64val c1 ;; d2 <-? b64val c2 ;; d3 <-? b64val c3 ;;
      let n := (d0 * 262144 + d1 * 4096 + d2 * 64 + d3)%Z in
      r <-? b64url_decode_list rest ;;
      Some (byte_of_Z (n / 65536) :: byte_of_Z ((n / 256) mod 256)
              :: byte_of_Z (n mod 256) :: r)
  | [c0; c1; c2] =>
      d0 <-? b64val c0 ;; d1 <-? b64val c1 ;; d2 <-? b64val c2 ;;
      let n := (d0 * 262144 + d1 * 4096 + d2 * 64)%Z in
      Some [byte_of_Z (n / 65536); byte_of_Z ((n / 256) mod 256)]
  | [c0; c1] =>
      d0 <-? b64val c0 ;; d1 <-? b64val c1 ;;
      let n := (d0 * 262144 + d1 * 4096)%Z in
      Some [byte_of_Z (n / 65536)]
  | [_] => None
  end.

Definition is_newline (c : ascii) : bool :=
  Ascii.eqb c "010"%char || Ascii.eqb c "013"%char.

(** [base64.RawURLEncoding.DecodeString]: newline characters are skipped. *)
Definition b64url_decode (s : string) : option (list byte) :=
  b64url_decode_list (filter (fun c => negb (is_newline c)) (list_ascii_of_string s)).

(* ------------------------------------------------------------------ *)
(** ** String quoting of [encoding/json] and [net/url] *)

Definition hexdigit (lower : bool) (d : Z) : ascii :=
  ascii_of_Z (if (d <? 10)%Z then 48 + d else (if lower then 87 else 55) + d)%Z.

(** [encoding/json] string contents: quote, backslash, the HTML characters
    [<], [>], [&] and control characters are escaped; other bytes are
    copied (input assumed valid UTF-8). *)
Definition json_escape_char (c : ascii) : string :=
  let n := Z_of_ascii c in
  if (n =? 34)%Z then String "\" dq
  else if (n =? 92)%Z then "\\"
  else if (n =? 10)%Z then "\n"
  else if (n =? 13)%Z then "\r"
  else if (n =? 9)%Z then "\t"
  else if ((n <? 32) || (n =? 60) || (n =? 62) || (n =? 38))%Z then
    String "\" (String "u" (String "0" (String "0"
      (String (hexdigit true (n / 16)) (String (hexdigit true (n mod 16)) EmptyString)))))
  else String c EmptyString.

Fixpoint json_escape (s : string) : string :=
  match s with
  | EmptyString => EmptyString
  | String c s' => json_escape_char c ++ json_escape s'
  end.

Definition json_string (s : string) : string := dq ++ json_escape s ++ dq.

(** [url.PathEscape]: [shouldEscape(c, encodePathSegment)]. *)
Definition path_unescaped (c : ascii) : bool :=
  let n := Z_of_ascii c in
  (((65 <=? n) && (n <=? 90)) || ((97 <=? n) && (n <=? 122)) || ((48 <=? n) && (n <=? 57))
   || (n =? 45) || (n =? 95) || (n =? 46) || (n =? 126)
   || (n =? 36) || (n =? 38) || (n =? 43) || (n =? 58) || (n =? 61) || (n =? 64))%Z.

Fixpoint PathEscape (s : string) : string :=
  match s with
  | EmptyString => EmptyString
  | String c s' =>
      (if path_unescaped c then String c EmptyString
       else String "%" (String (hexdigit false (Z_of_ascii c / 16))
                          (String (hexdigit false (Z_of_ascii c mod 16)) EmptyString)))
        ++ PathEscape s'
  end.

(* ------------------------------------------------------------------ *)
(** ** api/sshRevoke.go *)

Module SSHRevoke.

(** [errs.Error]: an HTTP status and a message. *)
Record Error := { Status : Z; Msg : string }.

Definition BadRequest (msg : string) : Error := {| Status := 400; Msg := msg |}.
Definition NotImplemented (msg : string) : Error := {| Status := 501; Msg := msg |}.

(** [ocsp.Unspecified] and [ocsp.AACompromise]. *)
Definition ocsp_Unspecified : Z := 0.
Definition ocsp_AACompromise : Z := 10.

(** [SSHRevokeRequest]; [ReasonCode] is a Go [int]. *)
Record SSHRevokeRequest := {
  Serial : string;
  OTT : string;
  ReasonCode : Z;
  Reason : string;
  Passive : bool
}.

(** [SSHRevokeRequest.Validate]: [None] is a nil error. *)
Definition Validate (r : SSHRevokeRequest) : option Error :=
  if String.eqb (Serial r) "" then Some (BadRequest "missing serial")
  else if ((ReasonCode r <? ocsp_Unspecified) || (ReasonCode r >? ocsp_AACompromise))%Z
  then Some (BadRequest "reasonCode out of bounds")
  else if negb (Passive r) then Some (NotImplemented "non-passive revocation not implemented")
  else if String.eqb (OTT r) "" then Some (BadRequest "missing ott")
  else None.

End SSHRevoke.

(* ------------------------------------------------------------------ *)
(** ** Keys and certificates *)

(** [elliptic.CurveParams], reduced to the fields the code reads:
    [Params().Name] and [Params().BitSize]. *)
Record CurveParams := { Name : string; BitSize : Z }.

Definition P224 : CurveParams := {| Name := "P-224"; BitSize := 224 |}.
Definition P256 : CurveParams := {| Name := "P-256"; BitSize := 256 |}.
Definition P384 : CurveParams := {| Name := "P-384"; BitSize := 384 |}.
Definition P521 : CurveParams := {| Name := "P-521"; BitSize := 521 |}.

(** [crypto.PublicKey] restricted to the two types the code switches on,
    with their [big.Int] components. *)
Inductive PublicKey :=
| RSAPublicKey (N : Z) (E : Z)
| ECDSAPublicKey (Curve : CurveParams) (X : Z) (Y : Z).

(** [*x509.Certificate], the fields the revoke handler reads. *)
Record X509Certificate := {
  Raw : list Byte.byte;
  SerialNumber : Z;
  Subject : string;            (* [Subject.String()] *)
  CertPublicKey : PublicKey
}.

(* ------------------------------------------------------------------ *)
(** ** acme/api revoke handler *)

Module AcmeRevoke.

(** ACME problem types of [acme/errors.go] used on the revoke path. *)
Inductive ProblemType :=
| ErrorMalformedType
| ErrorUnauthorizedType
| ErrorBadRevocationReasonType
| ErrorAlreadyRevokedType
| ErrorAccountDoesNotExistType
| ErrorServerInternalType.

Definition problemName (t : ProblemType) : string :=
  match t with
  | ErrorMalformedType => "malformed"
  | ErrorUnauthorizedType => "unauthorized"
  | ErrorBadRevocationReasonType => "badRevocationReason"
  | ErrorAlreadyRevokedType => "alreadyRevoked"
  | ErrorAccountDoesNotExistType => "accountDoesNotExist"
  | ErrorServerInternalType => "serverInternal"
  end.

Definition problemStatus (t : ProblemType) : Z :=
  match t with
  | ErrorUnauthorizedType => 403
  | ErrorServerInternalType => 500
  | _ => 400
  end.

Definition problemDetails (t : ProblemType) : string :=
  match t with
  | ErrorMalformedType => "The request message was malformed"
  | ErrorUnauthorizedType => "The client lacks sufficient authorization"
  | ErrorBadRevocationReasonType => "The revocation reason provided is not allowed by the server"
  | ErrorAlreadyRevokedType => "Certificate already revoked"
  | ErrorAccountDoesNotExistType => "Account does not exist"
  | ErrorServerInternalType => "The server experienced an internal error"
  end.

(** [acme.Error]: [Err] is the inner cause kept for the logs. *)
Record Error := { Type' : string; Detail : string; Status : Z; Err : string }.

Definition NewError (t : ProblemType) (msg : string) : Error :=
  {| Type' := "urn:ietf:params:acme:error:" ++ problemName t;
     Detail := problemDetails t;
     Status := problemStatus t;
     Err := msg |}.

Definition NewErrorISE (msg : string) : Error := NewError ErrorServerInternalType msg.

(** The error monad of the handler: every failing step returns its error. *)
Definition result (A : Type) : Type := (Error + A)%type.

Definition bind {A B} (m : result A) (k : A -> result B) : result B :=
  match m with inl e => inl e | inr a => k a end.

Notation "x <- m ;; k" := (bind m (fun x => k))
  (at level 61, m at next level, right associativity).

Definition check (err : option Error) : result unit :=
  match err with Some e => inl e | None => inr tt end.

(** [acme.Account]; [acme.Status] is a string type. *)
Definition StatusValid : string := "valid".
Definition StatusInvalid : string := "invalid".

Record Account := { ID : string; AccStatus : string }.

Definition IsValid (a : Account) : bool := String.eqb (AccStatus a) StatusValid.

(** The stored certificate record ([acme.Certificate]). *)
Record Certificate := { AccountID : string }.

(** Outcome of [db.GetCertificateBySerial]. *)
Inductive DBResult :=
| DBFound (c : Certificate)
| DBNotFound
| DBError (msg : string).

(** The protected header names the signing key either by [kid] or by an
    embedded [jwk]; the two are mutually exclusive. *)
Inductive JWSKey :=
| KeyID (kid : string)
| EmbeddedJWK (jwk : PublicKey).

(** A parsed JWS: its key reference and the outcome of [jws.Verify(key)]. *)
Record JWS := { SigKey : JWSKey; Verifies : PublicKey -> bool }.

(** A provisioner: its name and its [AuthorizeRevoke] hook ([None] is nil). *)
Record Provisioner := { ProvName : string; AuthorizeRevoke : string -> option string }.

(** [revokePayload]: [ReasonCode] is a [*int]. *)
Record revokePayload := { PCertificate : string; PReasonCode : option Z }.

(** [authority.RevokeOptions]. *)
Record RevokeOptions := {
  Serial : string;
  Reason : string;
  ReasonCode : Z;
  PassiveOnly : bool;
  MTLS : bool;
  Crt : option X509Certificate;
  OTT : string;
  ACME : bool
}.

(** Outcome of [authority.Revoke]. *)
Inductive RevokeResult :=
| RevokeOK
| RevokeAlreadyRevoked (msg : string)
| RevokeFailed (msg : string).

(** [reason]: the text of a revocation reason code. *)
Definition reason (reasonCode : Z) : string :=
  match reasonCode with
  | 0 => "unspecified reason"
  | 1 => "key compromised"
  | 2 => "ca compromised"
  | 3 => "affiliation changed"
  | 4 => "superseded"
  | 5 => "cessation of operation"
  | 6 => "certificate hold"
  | 8 => "remove from crl"
  | 9 => "privilege withdrawn"
  | 10 => "aa compromised"
  | _ => "unspecified reason"
  end.

(** [ocsp.Unspecified], [ocsp.ValueUnused] and [ocsp.AACompromise]. *)
Definition ocsp_Unspecified : Z := 0.
Definition ocsp_ValueUnused : Z := 7.
Definition ocsp_AACompromise : Z := 10.

(** Modelled from the spec: [validateReasonCode] (acme/api/revoke.go is not
    part of the sources; §4.F step 6 and [Test_validateReasonCode]). A
    reason code, when present, lies in [0, 10] and is not 7. *)
Definition validateReasonCode (reasonCode : option Z) : option Error :=
  match reasonCode with
  | Some c =>
      if ((c <? ocsp_Unspecified) || (c >? ocsp_AACompromise) || (c =? ocsp_ValueUnused))%Z
      then Some (NewError ErrorBadRevocationReasonType "reasonCode out of bounds")
      else None
  | None => None
  end.

(** Modelled from the spec: [revokeOptions] (§4.F step 9 and end-to-end
    scenarios 1 and 2, as pinned by [Test_revokeOptions]). Without a reason
    code the options keep [ReasonCode = 0] and an empty [Reason]. *)
Definition revokeOptions (serial : string) (certToBeRevoked : X509Certificate)
    (reasonCode : option Z) : RevokeOptions :=
  {| Serial := serial;
     Reason := match reasonCode with Some c => reason c | None => "" end;
     ReasonCode := match reasonCode with Some c => c | None => 0 end;
     PassiveOnly := false;
     MTLS := false;
     Crt := Some certToBeRevoked;
     OTT := "";
     ACME := true |}.

Definition setMTLS (o : RevokeOptions) (m : bool) : RevokeOptions :=
  {| Serial := Serial o; Reason := Reason o; ReasonCode := ReasonCode o;
     PassiveOnly := PassiveOnly o; MTLS := m; Crt := Crt o; OTT := OTT o;
     ACME := ACME o |}.

(** The 403 of §4.F step 5: the detail names the certificate subject. *)
Definition wrapUnauthorizedError (crt : X509Certificate) (msg : string) : Error :=
  let e := NewError ErrorUnauthorizedType msg in
  {| Type' := Type' e;
     Detail := "No authorization provided for name " ++ Subject crt;
     Status := Status e;
     Err := Err e |}.

(** The request context set up by the middleware, and the collaborators
    the handler calls (JSON, x509, the ACME database and the CA). *)
Record RequestEnv := {
  ctxJWS : option JWS;
  ctxProvisioner : option Provisioner;
  ctxPayload : option (list byte);
  ctxAccount : option Account;
  ctxBaseURL : string;
  UnmarshalPayload : list byte -> option revokePayload;
  ParseCertificate : list byte -> option X509Certificate;
  GetCertificateBySerial : string -> DBResult;
  IsRevoked : string -> option bool;          (* [None]: storage error *)
  CARevoke : RevokeOptions -> RevokeResult
}.

Definition require {A} (o : option A) (e : Error) : result A :=
  match o with Some a => inr a | None => inl e end.

(** What steps 1 to 4 of §4.F produce. *)
Record Lookup := {
  lJWS : JWS;
  lProv : Provisioner;
  lPayload : revokePayload;
  lCrt : X509Certificate;
  lDBCert : Certificate
}.

(** Modelled from the spec: steps 1 to 4 of [Handler.RevokeCert] (context
    values, payload, certificate decoding, record lookup). *)
Definition revokeLookup (env : RequestEnv) : result Lookup :=
  jws <- require (ctxJWS env) (NewErrorISE "jws expected in request context") ;;
  prov <- require (ctxProvisioner env) (NewErrorISE "provisioner does not exist") ;;
  payload <- require (ctxPayload env) (NewErrorISE "payload does not exist") ;;
  p <- require (UnmarshalPayload env payload) (NewErrorISE "error unmarshaling payload") ;;
  certBytes <- require (b64url_decode (PCertificate p))
                 (NewError ErrorMalformedType "error base64url decoding payload certificate property") ;;
  _ <- (match certBytes with
        | [] => inl (NewError ErrorMalformedType "error decoding payload certificate property: empty")
        | _ => inr tt
        end) ;;
  crt <- require (ParseCertificate env certBytes) (NewError ErrorMalformedType "error parsing certificate") ;;
  dbCert <- (match GetCertificateBySerial env (itoa (SerialNumber crt)) with
             | DBFound c => inr c
             | DBNotFound =>
                 let e := NewError ErrorMalformedType "No such certificate" in
                 inl {| Type' := Type' e; Detail := Detail e; Status := 404; Err := Err e |}
             | DBError _ => inl (NewErrorISE "error retrieving certificate by serial")
             end) ;;
  inr {| lJWS := jws; lProv := prov; lPayload := p; lCrt := crt; lDBCert := dbCert |}.

(** Modelled from the spec: step 5, authentication of the revoker. The
    result is the [mTLS] flag: [true] on the certificate-key path. *)
Definition authenticate (env : RequestEnv) (l : Lookup) : result bool :=
  match SigKey (lJWS l) with
  | KeyID _ =>
      acc <- require (ctxAccount env) (NewError ErrorAccountDoesNotExistType "account not in context") ;;
      if negb (IsValid acc) then
        inl (wrapUnauthorizedError (lCrt l) ("account '" ++ ID acc ++ "' has status '" ++ AccStatus acc ++ "'"))
      else if negb (String.eqb (ID acc) (AccountID (lDBCert l))) then
        inl (wrapUnauthorizedError (lCrt l) ("account '" ++ ID acc ++ "' is not authorized"))
      else inr false
  | EmbeddedJWK _ =>
      if Verifies (lJWS l) (CertPublicKey (lCrt l)) then inr true
      else inl (wrapUnauthorizedError (lCrt l) "verification of jws using certificate public key failed")
  end.

(** The token handed to [AuthorizeRevoke]: the [kid], if any. *)
Definition revokeToken (j : JWS) : string :=
  match SigKey j with KeyID k => k | EmbeddedJWK _ => "" end.

(** Modelled from the spec: steps 6 to 9 after the lookup. On success the
    result is the [RevokeOptions] the CA committed. *)
Definition revokeCommit (env : RequestEnv) (l : Lookup) : result RevokeOptions :=
  mtls <- authenticate env l ;;
  _ <- check (validateReasonCode (PReasonCode (lPayload l))) ;;
  let serial := itoa (SerialNumber (lCrt l)) in
  revoked <- require (IsRevoked env serial) (NewErrorISE "error checking if certificate is revoked") ;;
  _ <- (if revoked then inl (NewError ErrorAlreadyRevokedType "certificate was already revoked")
        else inr tt) ;;
  _ <- (match AuthorizeRevoke (lProv l) (revokeToken (lJWS l)) with
        | Some _ => inl (NewErrorISE "error authorizing revocation on provisioner")
        | None => inr tt
        end) ;;
  let opts := setMTLS (revokeOptions serial (lCrt l) (PReasonCode (lPayload l))) mtls in
  match CARevoke env opts with
  | RevokeOK => inr opts
  | RevokeAlreadyRevoked msg => inl (NewError ErrorAlreadyRevokedType msg)
  | RevokeFailed _ => inl (NewErrorISE "error revoking certificate")
  end.

Definition revokeCertFlow (env : RequestEnv) : result RevokeOptions :=
  l <- revokeLookup env ;; revokeCommit env l.

(** An [httptest.ResponseRecorder]: status, headers and the sequence of
    [Write] calls on the body. *)
Record ResponseWriter := {
  Code : Z;
  Header : list (string * string);
  Body : list string
}.

Definition NewRecorder : ResponseWriter := {| Code := 200; Header := []; Body := [] |}.

(** The [application/problem+json] body of an ACME error. *)
Definition problemJSON (e : Error) : string :=
  "{" ++ json_string "type" ++ ":" ++ json_string (Type' e)
  ++ "," ++ json_string "detail" ++ ":" ++ json_string (Detail e)
  ++ "," ++ json_string "status" ++ ":" ++ itoa (Status e) ++ "}".

(** [api.WriteError]. *)
Definition WriteError (w : ResponseWriter) (e : Error) : ResponseWriter :=
  {| Code := Status e;
     Header := Header w ++ [("Content-Type", "application/problem+json")];
     Body := Body w ++ [problemJSON e] |}.

(** [link(h.linker.GetLink(ctx, DirectoryLinkType), "index")]. *)
Definition directoryLink (env : RequestEnv) : string :=
  let name := match ctxProvisioner env with Some p => ProvName p | None => "" end in
  "<" ++ ctxBaseURL env ++ "/acme/" ++ PathEscape name ++ "/directory>;rel=" ++ dq ++ "index" ++ dq.

(** Modelled from the spec: [Handler.RevokeCert], §4.F steps 1 to 10. *)
Definition RevokeCert (env : RequestEnv) : ResponseWriter :=
  let w := NewRecorder in
  match revokeCertFlow env with
  | inl e => WriteError w e
  | inr _ =>
      {| Code := Code w;
         Header := Header w ++ [("Link", directoryLink env)];
         Body := Body w ++ [""] |}
  end.

End AcmeRevoke.

(* ------------------------------------------------------------------ *)
(** ** api/sshRevoke.go: the [SSHRevoke] handler *)

Module SSHRevokeAPI.
Import SSHRevoke.

(** [errs.BadRequestErr], [errs.UnauthorizedErr] and [errs.ForbiddenErr]:
    the status of each wrapper, with the message given or, without one, the
    text of the wrapped error. *)
Definition BadRequestErr (err msg : string) : Error := {| Status := 400; Msg := msg |}.
Definition UnauthorizedErr (err : string) : Error := {| Status := 401; Msg := err |}.
Definition ForbiddenErr (err msg : string) : Error := {| Status := 403; Msg := msg |}.

(** [SSHRevokeResponse]. *)
Record SSHRevokeResponse := { RStatus : string }.

(** The two [Authority] methods the handler calls; [None] is a nil error.
    Both receive the request context carrying [provisioner.SSHRevokeMethod]. *)
Record Authority := {
  Authorize : string -> option string;
  Revoke : AcmeRevoke.RevokeOptions -> option string
}.

(** The calls made on the [Authority], in order. *)
Inductive Call :=
| CallAuthorize (ott : string)
| CallRevoke (opts : AcmeRevoke.RevokeOptions).

(** The fields a [logging.ResponseLogger] receives. *)
Inductive LogEntry :=
| LogOTT (ott : string)
| LogSSHRevoke (serial : string) (reasonCode : Z) (reason : string)
    (passiveOnly mTLS ssh : bool).

Inductive ResponseBody :=
| NoBody
| ErrorBody (e : Error)
| JSONBody (r : SSHRevokeResponse).

(** The response writer: status, body, and the fields logged when it is a
    [logging.ResponseLogger] ([IsLogger]). *)
Record ResponseWriter := {
  WCode : Z;
  WBody : ResponseBody;
  WLog : list LogEntry;
  IsLogger : bool
}.

Definition NewRecorder (isLogger : bool) : ResponseWriter :=
  {| WCode := 200; WBody := NoBody; WLog := []; IsLogger := isLogger |}.

(** [WriteError]: the status of the error and its JSON body. *)
Definition WriteError (w : ResponseWriter) (e : Error) : ResponseWriter :=
  {| WCode := Status e; WBody := ErrorBody e; WLog := WLog w; IsLogger := IsLogger w |}.

(** [JSON]: status 200 and the JSON body. *)
Definition JSON (w : ResponseWriter) (v : SSHRevokeResponse) : ResponseWriter :=
  {| WCode := 200; WBody := JSONBody v; WLog := WLog w; IsLogger := IsLogger w |}.

Definition addLog (w : ResponseWriter) (e : LogEntry) : ResponseWriter :=
  if IsLogger w
  then {| WCode := WCode w; WBody := WBody w; WLog := WLog w ++ [e]; IsLogger := IsLogger w |}
  else w.

(** [logOtt]. *)
Definition logOtt (w : ResponseWriter) (token : string) : ResponseWriter :=
  addLog w (LogOTT token).

(** [logSSHRevoke]. *)
Definition logSSHRevoke (w : ResponseWriter) (ri : AcmeRevoke.RevokeOptions) : ResponseWriter :=
  addLog w (LogSSHRevoke (AcmeRevoke.Serial ri) (AcmeRevoke.ReasonCode ri)
              (AcmeRevoke.Reason ri) (AcmeRevoke.PassiveOnly ri) (AcmeRevoke.MTLS ri) true).

(** [opts.OTT = ott]. *)
Definition setOTT (o : AcmeRevoke.RevokeOptions) (ott : string) : AcmeRevoke.RevokeOptions :=
  {| AcmeRevoke.Serial := AcmeRevoke.Serial o; AcmeRevoke.Reason := AcmeRevoke.Reason o;
     AcmeRevoke.ReasonCode := AcmeRevoke.ReasonCode o;
     AcmeRevoke.PassiveOnly := AcmeRevoke.PassiveOnly o; AcmeRevoke.MTLS := AcmeRevoke.MTLS o;
     AcmeRevoke.Crt := AcmeRevoke.Crt o; AcmeRevoke.OTT := ott;
     AcmeRevoke.ACME := AcmeRevoke.ACME o |}.

(** [caHandler.SSHRevoke]: [readJSON] is [ReadJSON(r.Body, &body)] ([None]
    on a decoding error). The result is the response and the calls made on
    the [Authority]. *)
Definition SSHRevokeH (auth : Authority) (readJSON : list byte -> option SSHRevokeRequest)
    (w : ResponseWriter) (reqBody : list byte) : ResponseWriter * list Call :=
  match readJSON reqBody with
  | None => (WriteError w (BadRequestErr "json decoding error" "error reading request body"), [])
  | Some body =>
      match Validate body with
      | Some err => (WriteError w err, [])
      | None =>
          let opts := {| AcmeRevoke.Serial := Serial body; AcmeRevoke.Reason := Reason body;
                         AcmeRevoke.ReasonCode := ReasonCode body;
                         AcmeRevoke.PassiveOnly := Passive body; AcmeRevoke.MTLS := false;
                         AcmeRevoke.Crt := None; AcmeRevoke.OTT := "";
                         AcmeRevoke.ACME := false |} in
          let w := logOtt w (OTT body) in
          match Authorize auth (OTT body) with
          | Some err => (WriteError w (UnauthorizedErr err), [CallAuthorize (OTT body)])
          | None =>
              let opts := setOTT opts (OTT body) in
              match Revoke auth opts with
              | Some err =>
                  (WriteError w (ForbiddenErr err "error revoking ssh certificate"),
                   [CallAuthorize (OTT body); CallRevoke opts])
              | None =>
                  let w := logSSHRevoke w opts in
                  (JSON w {| RStatus := "ok" |}, [CallAuthorize (OTT body); CallRevoke opts])
              end
          end
      end
  end.

End SSHRevokeAPI.

(** Fixtures of the [SSHRevoke] properties: authorities that accept,
    reject the token or fail the revocation, and a passive request. *)

Module SSHRevokeFixtures.
Import SSHRevoke SSHRevokeAPI.

Definition okAuth : Authority := {| Authorize := fun _ => None; Revoke := fun _ => None |}.
Definition denyAuth : Authority :=
  {| Authorize := fun _ => Some "invalid token"; Revoke := fun _ => None |}.
Definition failAuth : Authority :=
  {| Authorize := fun _ => None; Revoke := fun _ => Some "revoke failed" |}.

Definition passiveReq : SSHRevokeRequest :=
  {| Serial := "1234"; OTT := "token"; ReasonCode := 1; Reason := "key compromised";
     Passive := true |}.

(** The handler on a body that decodes to [rq], with a logging writer. *)
Definition run (auth : Authority) (rq : SSHRevokeRequest) : ResponseWriter * list Call :=
  SSHRevokeH auth (fun _ => Some rq) (NewRecorder true) [].

End SSHRevokeFixtures.

(* ------------------------------------------------------------------ *)
(** ** JWS helpers of acme/api/revoke_test.go *)

Module Jose.

Local Open Scope Z_scope.

(** A Go [(T, error)] return: [inl] carries the error text. *)
Definition goresult (A : Type) : Type := (string + A)%type.

Definition gobind {A B} (m : goresult A) (k : A -> goresult B) : goresult B :=
  match m with inl e => inl e | inr a => k a end.

Notation "x <~ m ;; k" := (gobind m (fun x => k))
  (at level 61, m at next level, right associativity).

Definition errUnsupportedKey : string :=
  "unknown key type; only RSA and ECDSA are supported".

(** [k] big-endian bytes of [z mod 256^k]. *)
Fixpoint be_fixed (k : nat) (z : Z) : list byte :=
  match k with
  | O => []
  | S k' => (be_fixed k' (z / 256) ++ [byte_of_Z (z mod 256)])%list
  end.

(** Number of bytes of the minimal big-endian form of [n]. *)
Definition byteLen (n : Z) : nat :=
  if n <=? 0 then O else Z.to_nat (Z.log2 n / 8 + 1).

(** [big.Int.Bytes()]: the absolute value, big-endian, no leading zero. *)
Definition IntBytes (z : Z) : list byte := be_fixed (byteLen (Z.abs z)) (Z.abs z).

(** [new(big.Int).SetBytes(buf)]: big-endian unsigned. *)
Definition SetBytes (bs : list byte) : Z :=
  fold_left (fun acc b => acc * 256 + byteZ b) bs 0.

(** The printable code points above U+00FF, as closed ranges: the letters,
    marks, numbers, punctuation and symbols (general categories L, M, N, P
    and S) of Unicode 14.0. [strconv]'s tables [isPrint16], [isNotPrint16],
    [isPrint32] and [isNotPrint32] hold the same set; each Go release takes
    them from the Unicode version it ships. *)
Definition printRanges : list (Z * Z) := [
  (256, 887); (890, 895); (900, 906); (908, 908); (910, 929); (931, 1327); (1329, 1366);
  (1369, 1418); (1421, 1423); (1425, 1479); (1488, 1514); (1519, 1524); (1542, 1563);
  (1565, 1756); (1758, 1805); (1808, 1866); (1869, 1969); (1984, 2042); (2045, 2093);
  (2096, 2110); (2112, 2139); (2142, 2142); (2144, 2154); (2160, 2190); (2200, 2273);
  (2275, 2435); (2437, 2444); (2447, 2448); (2451, 2472); (2474, 2480); (2482, 2482);
  (2486, 2489); (2492, 2500); (2503, 2504); (2507, 2510); (2519, 2519); (2524, 2525);
  (2527, 2531); (2534, 2558); (2561, 2563); (2565, 2570); (2575, 2576); (2579, 2600);
  (2602, 2608); (2610, 2611); (2613, 2614); (2616, 2617); (2620, 2620); (2622, 2626);
  (2631, 2632); (2635, 2637); (2641, 2641); (2649, 2652); (2654, 2654); (2662, 2678);
  (2689, 2691); (2693, 2701); (2703, 2705); (2707, 2728); (2730, 2736); (2738, 2739);
  (2741, 2745); (2748, 2757); (2759, 2761); (2763, 2765); (2768, 2768); (2784, 2787);
  (2790, 2801); (2809, 2815); (2817, 2819); (2821, 2828); (2831, 2832); (2835, 2856);
  (2858, 2864); (2866, 2867); (2869, 2873); (2876, 2884); (2887, 2888); (2891, 2893);
  (2901, 2903); (2908, 2909); (2911, 2915); (2918, 2935); (2946, 2947); (2949, 2954);
  (2958, 2960); (2962, 2965); (2969, 2970); (2972, 2972); (2974, 2975); (2979, 2980);
  (2984, 2986); (2990, 3001); (3006, 3010); (3014, 3016); (3018, 3021); (3024, 3024);
  (3031, 3031); (3046, 3066); (3072, 3084); (3086, 3088); (3090, 3112); (3114, 3129);
  (3132, 3140); (3142, 3144); (3146, 3149); (3157, 3158); (3160, 3162); (3165, 3165);
  (3168, 3171); (3174, 3183); (3191, 3212); (3214, 3216); (3218, 3240); (3242, 3251);
  (3253, 3257); (3260, 3268); (3270, 3272); (3274, 3277); (3285, 3286); (3293, 3294);
  (3296, 3299); (3302, 3311); (3313, 3314); (3328, 3340); (3342, 3344); (3346, 3396);
  (3398, 3400); (3402, 3407); (3412, 3427); (3430, 3455); (3457, 3459); (3461, 3478);
  (3482, 3505); (3507, 3515); (3517, 3517); (3520, 3526); (3530, 3530); (3535, 3540);
  (3542, 3542); (3544, 3551); (3558, 3567); (3570, 3572); (3585, 3642); (3647, 3675);
  (3713, 3714); (3716, 3716); (3718, 3722); (3724, 3747); (3749, 3749); (3751, 3773);
  (3776, 3780); (3782, 3782); (3784, 3789); (3792, 3801); (3804, 3807); (3840, 3911);
  (3913, 3948); (3953, 3991); (3993, 4028); (4030, 4044); (4046, 4058); (4096, 4293);
  (4295, 4295); (4301, 4301); (4304, 4680); (4682, 4685); (4688, 4694); (4696, 4696);
  (4698, 4701); (4704, 4744); (4746, 4749); (4752, 4784); (4786, 4789); (4792, 4798);
  (4800, 4800); (4802, 4805); (4808, 4822); (4824, 4880); (4882, 4885); (4888, 4954);
  (4957, 4988); (4992, 5017); (5024, 5109); (5112, 5117); (5120, 5759); (5761, 5788);
  (5792, 5880); (5888, 5909); (5919, 5942); (5952, 5971); (5984, 5996); (5998, 6000);
  (6002, 6003); (6016, 6109); (6112, 6121); (6128, 6137); (6144, 6157); (6159, 6169);
  (6176, 6264); (6272, 6314); (6320, 6389); (6400, 6430); (6432, 6443); (6448, 6459);
  (6464, 6464); (6468, 6509); (6512, 6516); (6528, 6571); (6576, 6601); (6608, 6618);
  (6622, 6683); (6686, 6750); (6752, 6780); (6783, 6793); (6800, 6809); (6816, 6829);
  (6832, 6862); (6912, 6988); (6992, 7038); (7040, 7155); (7164, 7223); (7227, 7241);
  (7245, 7304); (7312, 7354); (7357, 7367); (7376, 7418); (7424, 7957); (7960, 7965);
  (7968, 8005); (8008, 8013); (8016, 8023); (8025, 8025); (8027, 8027); (8029, 8029);
  (8031, 8061); (8064, 8116); (8118, 8132); (8134, 8147); (8150, 8155); (8157, 8175);
  (8178, 8180); (8182, 8190); (8208, 8231); (8240, 8286); (8304, 8305); (8308, 8334);
  (8336, 8348); (8352, 8384); (8400, 8432); (8448, 8587); (8592, 9254); (9280, 9290);
  (9312, 11123); (11126, 11157); (11159, 11507); (11513, 11557); (11559, 11559);
  (11565, 11565); (11568, 11623); (11631, 11632); (11647, 11670); (11680, 11686);
  (11688, 11694); (11696, 11702); (11704, 11710); (11712, 11718); (11720, 11726);
  (11728, 11734); (11736, 11742); (11744, 11869); (11904, 11929); (11931, 12019);
  (12032, 12245); (12272, 12283); (12289, 12351); (12353, 12438); (12441, 12543);
  (12549, 12591); (12593, 12686); (12688, 12771); (12784, 12830); (12832, 42124);
  (42128, 42182); (42192, 42539); (42560, 42743); (42752, 42954); (42960, 42961);
  (42963, 42963); (42965, 42969); (42994, 43052); (43056, 43065); (43072, 43127);
  (43136, 43205); (43214, 43225); (43232, 43347); (43359, 43388); (43392, 43469);
  (43471, 43481); (43486, 43518); (43520, 43574); (43584, 43597); (43600, 43609);
  (43612, 43714); (43739, 43766); (43777, 43782); (43785, 43790); (43793, 43798);
  (43808, 43814); (43816, 43822); (43824, 43883); (43888, 44013); (44016, 44025);
  (44032, 55203); (55216, 55238); (55243, 55291); (63744, 64109); (64112, 64217);
  (64256, 64262); (64275, 64279); (64285, 64310); (64312, 64316); (64318, 64318);
  (64320, 64321); (64323, 64324); (64326, 64450); (64467, 64911); (64914, 64967);
  (64975, 64975); (65008, 65049); (65056, 65106); (65108, 65126); (65128, 65131);
  (65136, 65140); (65142, 65276); (65281, 65470); (65474, 65479); (65482, 65487);
  (65490, 65495); (65498, 65500); (65504, 65510); (65512, 65518); (65532, 65533);
  (65536, 65547); (65549, 65574); (65576, 65594); (65596, 65597); (65599, 65613);
  (65616, 65629); (65664, 65786); (65792, 65794); (65799, 65843); (65847, 65934);
  (65936, 65948); (65952, 65952); (66000, 66045); (66176, 66204); (66208, 66256);
  (66272, 66299); (66304, 66339); (66349, 66378); (66384, 66426); (66432, 66461);
  (66463, 66499); (66504, 66517); (66560, 66717); (66720, 66729); (66736, 66771);
  (66776, 66811); (66816, 66855); (66864, 66915); (66927, 66938); (66940, 66954);
  (66956, 66962); (66964, 66965); (66967, 66977); (66979, 66993); (66995, 67001);
  (67003, 67004); (67072, 67382); (67392, 67413); (67424, 67431); (67456, 67461);
  (67463, 67504); (67506, 67514); (67584, 67589); (67592, 67592); (67594, 67637);
  (67639, 67640); (67644, 67644); (67647, 67669); (67671, 67742); (67751, 67759);
  (67808, 67826); (67828, 67829); (67835, 67867); (67871, 67897); (67903, 67903);
  (67968, 68023); (68028, 68047); (68050, 68099); (68101, 68102); (68108, 68115);
  (68117, 68119); (68121, 68149); (68152, 68154); (68159, 68168); (68176, 68184);
  (68192, 68255); (68288, 68326); (68331, 68342); (68352, 68405); (68409, 68437);
  (68440, 68466); (68472, 68497); (68505, 68508); (68521, 68527); (68608, 68680);
  (68736, 68786); (68800, 68850); (68858, 68903); (68912, 68921); (69216, 69246);
  (69248, 69289); (69291, 69293); (69296, 69297); (69376, 69415); (69424, 69465);
  (69488, 69513); (69552, 69579); (69600, 69622); (69632, 69709); (69714, 69749);
  (69759, 69820); (69822, 69826); (69840, 69864); (69872, 69881); (69888, 69940);
  (69942, 69959); (69968, 70006); (70016, 70111); (70113, 70132); (70144, 70161);
  (70163, 70206); (70272, 70278); (70280, 70280); (70282, 70285); (70287, 70301);
  (70303, 70313); (70320, 70378); (70384, 70393); (70400, 70403); (70405, 70412);
  (70415, 70416); (70419, 70440); (70442, 70448); (70450, 70451); (70453, 70457);
  (70459, 70468); (70471, 70472); (70475, 70477); (70480, 70480); (70487, 70487);
  (70493, 70499); (70502, 70508); (70512, 70516); (70656, 70747); (70749, 70753);
  (70784, 70855); (70864, 70873); (71040, 71093); (71096, 71133); (71168, 71236);
  (71248, 71257); (71264, 71276); (71296, 71353); (71360, 71369); (71424, 71450);
  (71453, 71467); (71472, 71494); (71680, 71739); (71840, 71922); (71935, 71942);
  (71945, 71945); (71948, 71955); (71957, 71958); (71960, 71989); (71991, 71992);
  (71995, 72006); (72016, 72025); (72096, 72103); (72106, 72151); (72154, 72164);
  (72192, 72263); (72272, 72354); (72368, 72440); (72704, 72712); (72714, 72758);
  (72760, 72773); (72784, 72812); (72816, 72847); (72850, 72871); (72873, 72886);
  (72960, 72966); (72968, 72969); (72971, 73014); (73018, 73018); (73020, 73021);
  (73023, 73031); (73040, 73049); (73056, 73061); (73063, 73064); (73066, 73102);
  (73104, 73105); (73107, 73112); (73120, 73129); (73440, 73464); (73648, 73648);
  (73664, 73713); (73727, 74649); (74752, 74862); (74864, 74868); (74880, 75075);
  (77712, 77810); (77824, 78894); (82944, 83526); (92160, 92728); (92736, 92766);
  (92768, 92777); (92782, 92862); (92864, 92873); (92880, 92909); (92912, 92917);
  (92928, 92997); (93008, 93017); (93019, 93025); (93027, 93047); (93053, 93071);
  (93760, 93850); (93952, 94026); (94031, 94087); (94095, 94111); (94176, 94180);
  (94192, 94193); (94208, 100343); (100352, 101589); (101632, 101640); (110576, 110579);
  (110581, 110587); (110589, 110590); (110592, 110882); (110928, 110930); (110948, 110951);
  (110960, 111355); (113664, 113770); (113776, 113788); (113792, 113800); (113808, 113817);
  (113820, 113823); (118528, 118573); (118576, 118598); (118608, 118723); (118784, 119029);
  (119040, 119078); (119081, 119154); (119163, 119274); (119296, 119365); (119520, 119539);
  (119552, 119638); (119648, 119672); (119808, 119892); (119894, 119964); (119966, 119967);
  (119970, 119970); (119973, 119974); (119977, 119980); (119982, 119993); (119995, 119995);
  (119997, 120003); (120005, 120069); (120071, 120074); (120077, 120084); (120086, 120092);
  (120094, 120121); (120123, 120126); (120128, 120132); (120134, 120134); (120138, 120144);
  (120146, 120485); (120488, 120779); (120782, 121483); (121499, 121503); (121505, 121519);
  (122624, 122654); (122880, 122886); (122888, 122904); (122907, 122913); (122915, 122916);
  (122918, 122922); (123136, 123180); (123184, 123197); (123200, 123209); (123214, 123215);
  (123536, 123566); (123584, 123641); (123647, 123647); (124896, 124902); (124904, 124907);
  (124909, 124910); (124912, 124926); (124928, 125124); (125127, 125142); (125184, 125259);
  (125264, 125273); (125278, 125279); (126065, 126132); (126209, 126269); (126464, 126467);
  (126469, 126495); (126497, 126498); (126500, 126500); (126503, 126503); (126505, 126514);
  (126516, 126519); (126521, 126521); (126523, 126523); (126530, 126530); (126535, 126535);
  (126537, 126537); (126539, 126539); (126541, 126543); (126545, 126546); (126548, 126548);
  (126551, 126551); (126553, 126553); (126555, 126555); (126557, 126557); (126559, 126559);
  (126561, 126562); (126564, 126564); (126567, 126570); (126572, 126578); (126580, 126583);
  (126585, 126588); (126590, 126590); (126592, 126601); (126603, 126619); (126625, 126627);
  (126629, 126633); (126635, 126651); (126704, 126705); (126976, 127019); (127024, 127123);
  (127136, 127150); (127153, 127167); (127169, 127183); (127185, 127221); (127232, 127405);
  (127462, 127490); (127504, 127547); (127552, 127560); (127568, 127569); (127584, 127589);
  (127744, 128727); (128733, 128748); (128752, 128764); (128768, 128883); (128896, 128984);
  (128992, 129003); (129008, 129008); (129024, 129035); (129040, 129095); (129104, 129113);
  (129120, 129159); (129168, 129197); (129200, 129201); (129280, 129619); (129632, 129645);
  (129648, 129652); (129656, 129660); (129664, 129670); (129680, 129708); (129712, 129722);
  (129728, 129733); (129744, 129753); (129760, 129767); (129776, 129782); (129792, 129938);
  (129940, 129994); (130032, 130041); (131072, 173791); (173824, 177976); (177984, 178205);
  (178208, 183969); (183984, 191456); (194560, 195101); (196608, 201546); (917760, 917999)].

(** [strconv.IsPrint]: the Latin-1 fast path of the source, then the tables. *)
Definition IsPrint (r : Z) : bool :=
  if (r <=? 255)%Z then
    if ((32 <=? r) && (r <=? 126))%Z then true
    else if ((161 <=? r) && (r <=? 255))%Z then negb (r =? 173)%Z
    else false
  else existsb (fun lh => ((fst lh <=? r) && (r <=? snd lh))%Z) printRanges.

(** [utf8.RuneError]. *)
Definition RuneError : Z := 65533.

(** [utf8.ValidRune]. *)
Definition ValidRune (r : Z) : bool :=
  (((0 <=? r) && (r <? 55296)) || ((57343 <? r) && (r <=? 1114111)))%Z.

(** [utf8.DecodeRuneInString]: the rune at the front of [cs] and its width.
    The second byte of a sequence is checked against the range its first
    byte allows (no overlong form, no surrogate, nothing above U+10FFFF),
    the later ones against 0x80..0xBF; an invalid or truncated sequence
    gives [(RuneError, 1)] and the empty input [(RuneError, 0)]. *)
Definition decodeRune (cs : list ascii) : Z * nat :=
  match cs with
  | [] => (RuneError, 0%nat)
  | c0 :: rest =>
      let b0 := Z_of_ascii c0 in
      let inr_ lo hi c := ((lo <=? Z_of_ascii c) && (Z_of_ascii c <=? hi))%Z in
      if (b0 <? 128)%Z then (b0, 1%nat)
      else if ((194 <=? b0) && (b0 <=? 223))%Z then
        match rest with
        | c1 :: _ =>
            if inr_ 128 191 c1 then ((b0 - 192) * 64 + (Z_of_ascii c1 - 128), 2%nat)%Z
            else (RuneError, 1%nat)
        | [] => (RuneError, 1%nat)
        end
      else if ((224 <=? b0) && (b0 <=? 239))%Z then
        let lo := if (b0 =? 224)%Z then 160 else 128 in
        let hi := if (b0 =? 237)%Z then 159 else 191 in
        match rest with
        | c1 :: c2 :: _ =>
            if inr_ lo hi c1 && inr_ 128 191 c2
            then ((b0 - 224) * 4096 + (Z_of_ascii c1 - 128) * 64 + (Z_of_ascii c2 - 128),
                  3%nat)%Z
            else (RuneError, 1%nat)
        | _ => (RuneError, 1%nat)
        end
      else if ((240 <=? b0) && (b0 <=? 244))%Z then
        let lo := if (b0 =? 240)%Z then 144 else 128 in
        let hi := if (b0 =? 244)%Z then 143 else 191 in
        match rest with
        | c1 :: c2 :: c3 :: _ =>
            if inr_ lo hi c1 && inr_ 128 191 c2 && inr_ 128 191 c3
            then ((b0 - 240) * 262144 + (Z_of_ascii c1 - 128) * 4096
                  + (Z_of_ascii c2 - 128) * 64 + (Z_of_ascii c3 - 128), 4%nat)%Z
            else (RuneError, 1%nat)
        | _ => (RuneError, 1%nat)
        end
      else (RuneError, 1%nat)
  end.

(** [utf8.AppendRune]: the UTF-8 bytes of [r]; a surrogate or a value
    outside the code space is written as [RuneError]. [ascii_of_Z] keeps
    the low eight bits, as Go's [byte(...)] conversions do. *)
Definition AppendRune (r : Z) : list ascii :=
  if ((0 <=? r) && (r <=? 127))%Z then [ascii_of_Z r]
  else if ((0 <=? r) && (r <=? 2047))%Z then
    [ascii_of_Z (Z.lor 192 (Z.shiftr r 6)); ascii_of_Z (Z.lor 128 (Z.land r 63))]
  else
    let r := if ((1114111 <? r) || ((55296 <=? r) && (r <=? 57343)) || (r <? 0))%Z
             then RuneError else r in
    if (r <=? 65535)%Z then
      [ascii_of_Z (Z.lor 224 (Z.shiftr r 12)); ascii_of_Z (Z.lor 128 (Z.land (Z.shiftr r 6) 63));
       ascii_of_Z (Z.lor 128 (Z.land r 63))]
    else
      [ascii_of_Z (Z.lor 240 (Z.shiftr r 18)); ascii_of_Z (Z.lor 128 (Z.land (Z.shiftr r 12) 63));
       ascii_of_Z (Z.lor 128 (Z.land (Z.shiftr r 6) 63)); ascii_of_Z (Z.lor 128 (Z.land r 63))].

(** Hex digit [r >> s & 0xF] of [lowerhex]. *)
Definition hexAt (r s : Z) : ascii := hexdigit true (Z.land (Z.shiftr r s) 15).

(** [\xNN] of the byte [b]. *)
Definition hexByte (b : Z) : string :=
  String "\" (String "x" (String (hexdigit true (Z.shiftr b 4))
                            (String (hexdigit true (Z.land b 15)) EmptyString))).

(** [appendEscapedRune] of [strconv] for [Quote] (double quote as the quote, not ASCII-only,
    not graphic-only). *)
Definition appendEscapedRune (r : Z) : string :=
  if ((r =? 34) || (r =? 92))%Z then String "\" (string_of_list_ascii (AppendRune r))
  else if IsPrint r then string_of_list_ascii (AppendRune r)
  else if (r =? 7)%Z then "\a"
  else if (r =? 8)%Z then "\b"
  else if (r =? 12)%Z then "\f"
  else if (r =? 10)%Z then "\n"
  else if (r =? 13)%Z then "\r"
  else if (r =? 9)%Z then "\t"
  else if (r =? 11)%Z then "\v"
  else if ((r <? 32) || (r =? 127))%Z then hexByte r
  else
    let r := if ValidRune r then r else RuneError in
    if (r <? 65536)%Z then
      String "\" (String "u" (String (hexAt r 12) (String (hexAt r 8)
        (String (hexAt r 4) (String (hexAt r 0) EmptyString)))))
    else
      String "\" (String "U" (String (hexAt r 28) (String (hexAt r 24)
        (String (hexAt r 20) (String (hexAt r 16) (String (hexAt r 12) (String (hexAt r 8)
        (String (hexAt r 4) (String (hexAt r 0) EmptyString))))))))).

(** The loop of [appendQuotedWith]: one rune at a time; a byte that is not
    part of valid UTF-8 is written [\xNN]. [fuel] is the input length. *)
Fixpoint quote_runes (fuel : nat) (cs : list ascii) : string :=
  match fuel, cs with
  | S f, c :: _ =>
      let '(r, width) := decodeRune cs in
      if (Nat.eqb width 1 && (r =? RuneError)%Z)%bool
      then hexByte (Z_of_ascii c) ++ quote_runes f (skipn 1 cs)
      else appendEscapedRune r ++ quote_runes f (skipn width cs)
  | _, _ => EmptyString
  end.

Definition quote_body (s : string) : string :=
  let cs := list_ascii_of_string s in quote_runes (List.length cs) cs.

(** [fmt.Sprintf("%q", s)], that is [strconv.Quote(s)]. *)
Definition Quote (s : string) : string := dq ++ quote_body s ++ dq.

(** A literal JSON member name followed by a colon: [\"k\":]. *)
Definition fld (k : string) : string := dq ++ k ++ dq ++ ":".

(** [jwkEncode]. *)
Definition jwkEncode (pub : PublicKey) : goresult string :=
  match pub with
  | RSAPublicKey n e =>
      inr ("{" ++ fld "e" ++ Quote (b64url_encode (IntBytes e))
             ++ "," ++ fld "kty" ++ dq ++ "RSA" ++ dq
             ++ "," ++ fld "n" ++ Quote (b64url_encode (IntBytes n)) ++ "}")
  | ECDSAPublicKey p x y =>
      let n := Z.quot (BitSize p) 8 in
      let n := if negb (Z.rem (BitSize p) 8 =? 0) then n + 1 else n in
      let xb := IntBytes x in
      let xb := if n >? Z.of_nat (List.length xb)
                then (repeat Byte.x00 (Z.to_nat (n - Z.of_nat (List.length xb))) ++ xb)%list else xb in
      let yb := IntBytes y in
      let yb := if n >? Z.of_nat (List.length yb)
                then (repeat Byte.x00 (Z.to_nat (n - Z.of_nat (List.length yb))) ++ yb)%list else yb in
      inr ("{" ++ fld "crv" ++ Quote (Name p)
             ++ "," ++ fld "kty" ++ dq ++ "EC" ++ dq
             ++ "," ++ fld "x" ++ Quote (b64url_encode xb)
             ++ "," ++ fld "y" ++ Quote (b64url_encode yb) ++ "}")
  end.

(** [crypto.Hash]: the values [jwsHasher] can return. *)
Inductive Hash := NoHash | SHA256 | SHA384 | SHA512.

Definition Available (h : Hash) : bool :=
  match h with NoHash => false | _ => true end.

(** [jwsHasher]. *)
Definition jwsHasher (pub : PublicKey) : string * Hash :=
  match pub with
  | RSAPublicKey _ _ => ("RS256", SHA256)
  | ECDSAPublicKey p _ _ =>
      if String.eqb (Name p) "P-256" then ("ES256", SHA256)
      else if String.eqb (Name p) "P-384" then ("ES384", SHA384)
      else if String.eqb (Name p) "P-521" then ("ES512", SHA512)
      else ("", NoHash)
  end.

(** [*rsa.PrivateKey] and [*ecdsa.PrivateKey], the signers the helpers
    are called with. *)
Inductive PrivateKey :=
| RSAPrivateKey (N E D : Z)
| ECDSAPrivateKey (Curve : CurveParams) (X Y D : Z).

(** [key.Public()]. *)
Definition Public (k : PrivateKey) : PublicKey :=
  match k with
  | RSAPrivateKey n e _ => RSAPublicKey n e
  | ECDSAPrivateKey c x y _ => ECDSAPublicKey c x y
  end.

(** [copy(dst[off:], src)]: the slice expression panics unless
    [0 <= off <= len(dst)]; [copy] moves [min(len(dst)-off, len(src))]
    bytes. *)
Definition copyAt (dst : list byte) (off : Z) (src : list byte) : goresult (list byte) :=
  if ((off <? 0) || (off >? Z.of_nat (List.length dst)))%Z
  then inl "panic: runtime error: slice bounds out of range"
  else
    let o := Z.to_nat off in
    let m := Nat.min (List.length dst - o) (List.length src) in
    inr (firstn o dst ++ firstn m src ++ skipn (o + m) dst)%list.

Section Encoder.

(** The type of the claim sets passed as [interface{}]. *)
Variable Claimset : Type.
(** [sha.New()], [Write] and [Sum(nil)]: the digest of a message. *)
Variable hashSum : Hash -> list byte -> list byte.
(** [ecdsa.Sign(rand.Reader, key, digest)]: [(r, s)], or [None] on error. *)
Variable ecdsaSign : PrivateKey -> list byte -> option (Z * Z).
(** [key.Sign(rand.Reader, digest, hash)] of an RSA key. *)
Variable rsaSign : PrivateKey -> list byte -> Hash -> option (list byte).
(** [json.Marshal(claimset)]. *)
Variable jsonMarshal : Claimset -> option (list byte).

(** [jwsSign]. *)
Definition jwsSign (key : PrivateKey) (hash : Hash) (digest : list byte)
    : goresult (list byte) :=
  match key with
  | ECDSAPrivateKey p _ _ _ =>
      match ecdsaSign key digest with
      | None => inl "ecdsa: signing failed"
      | Some (r, s) =>
          let rb := IntBytes r in
          let sb := IntBytes s in
          let size := Z.quot (BitSize p) 8 in
          let size := if (Z.rem size 8 >? 0)%Z then size + 1 else size in
          if (size * 2 <? 0)%Z then inl "panic: runtime error: makeslice: len out of range"
          else
            let sig := repeat Byte.x00 (Z.to_nat (size * 2)) in
            sig <~ copyAt sig (size - Z.of_nat (List.length rb)) rb ;;
            sig <~ copyAt sig (size * 2 - Z.of_nat (List.length sb)) sb ;;
            inr sig
      end
  | RSAPrivateKey _ _ _ =>
      match rsaSign key digest hash with
      | None => inl "rsa: signing failed"
      | Some sig => inr sig
      end
  end.

(** [jwsHead]; [kid] is [noKeyID] when it is empty. *)
Definition jwsHead (alg nonce u kid : string) (key : PrivateKey) : goresult string :=
  let phead := "{" ++ fld "alg" ++ Quote alg in
  phead <~ (if String.eqb kid "" then
              jwk <~ jwkEncode (Public key) ;;
              inr (phead ++ "," ++ fld "jwk" ++ jwk)
            else inr (phead ++ "," ++ fld "kid" ++ Quote kid)) ;;
  let phead := if String.eqb nonce "" then phead
               else phead ++ "," ++ fld "nonce" ++ Quote nonce in
  let phead := phead ++ "," ++ fld "url" ++ Quote u ++ "}" in
  inr (b64url_encode (list_byte_of_string phead)).

(** [jwsFinal]: [json.Marshal] of the three-field struct. *)
Definition jwsFinal (sha : Hash) (sig : list byte) (phead payload : string)
    : goresult (list byte) :=
  inr (list_byte_of_string
         ("{" ++ fld "protected" ++ json_string phead
              ++ "," ++ fld "payload" ++ json_string payload
              ++ "," ++ fld "signature" ++ json_string (b64url_encode sig) ++ "}")).

(** [jwsEncodeJSON]; a nil [claimset] is [None]. *)
Definition jwsEncodeJSON (claimset : option Claimset) (key : PrivateKey)
    (kid nonce u : string) : goresult (list byte) :=
  let '(alg, sha) := jwsHasher (Public key) in
  if String.eqb alg "" || negb (Available sha) then inl errUnsupportedKey
  else
    phead <~ jwsHead alg nonce u kid key ;;
    payload <~ match claimset with
               | None => inr ""
               | Some cs =>
                   match jsonMarshal cs with
                   | None => inl "json: unsupported value"
                   | Some b => inr (b64url_encode b)
                   end
               end ;;
    let payloadToSign := list_byte_of_string (phead ++ "." ++ payload) in
    let digest := hashSum sha payloadToSign in
    sig <~ jwsSign key sha digest ;;
    jwsFinal sha sig phead payload.

End Encoder.

(** *** The verifier: [jose.ParseJWS] and [Verify] of go-jose *)

(** JSON values as far as a JWS and its protected header use them: strings
    and objects; any other JSON value is rejected. *)
#[warnings="-register-all"]
Inductive JSON :=
| JString (s : string)
| JObject (members : list (string * JSON)).

Definition is_ws (c : ascii) : bool :=
  let n := Z_of_ascii c in ((n =? 32) || (n =? 9) || (n =? 10) || (n =? 13))%Z.

Fixpoint skip_ws (cs : list ascii) : list ascii :=
  match cs with
  | c :: r => if is_ws c then skip_ws r else cs
  | [] => []
  end.

Definition hexval (c : ascii) : option Z :=
  let n := Z_of_ascii c in
  if ((48 <=? n) && (n <=? 57))%Z then Some (n - 48)%Z
  else if ((97 <=? n) && (n <=? 102))%Z then Some (n - 87)%Z
  else if ((65 <=? n) && (n <=? 70))%Z then Some (n - 55)%Z
  else None.

(** UTF-8 bytes of a code point of at most four hex digits. *)
Definition utf8 (cp : Z) : list ascii :=
  if (cp <? 128)%Z then [ascii_of_Z cp]
  else if (cp <? 2048)%Z then [ascii_of_Z (192 + cp / 64); ascii_of_Z (128 + cp mod 64)]
  else [ascii_of_Z (224 + cp / 4096); ascii_of_Z (128 + (cp / 64) mod 64);
        ascii_of_Z (128 + cp mod 64)].

(** The single-character escapes of JSON. *)
Definition unescape (m : Z) : option ascii :=
  if (m =? 34)%Z then Some "034"%char
  else if (m =? 92)%Z then Some "092"%char
  else if (m =? 47)%Z then Some "/"%char
  else if (m =? 98)%Z then Some "008"%char
  else if (m =? 102)%Z then Some "012"%char
  else if (m =? 110)%Z then Some "010"%char
  else if (m =? 114)%Z then Some "013"%char
  else if (m =? 116)%Z then Some "009"%char
  else None.

(** The contents of a JSON string after its opening quote, up to and
    including the closing one: the decoded bytes and the rest of the input.
    A raw control character or an unknown escape is an error. *)
Fixpoint pstr (cs : list ascii) : option (list ascii * list ascii) :=
  match cs with
  | [] => None
  | c :: rest =>
      let n := Z_of_ascii c in
      if (n =? 34)%Z then Some ([], rest)
      else if (n =? 92)%Z then
        match rest with
        | [] => None
        | e :: rest' =>
            if (Z_of_ascii e =? 117)%Z then
              match rest' with
              | h1 :: h2 :: h3 :: h4 :: rest'' =>
                  match hexval h1, hexval h2, hexval h3, hexval h4, pstr rest'' with
                  | Some d1, Some d2, Some d3, Some d4, Some (s, r) =>
                      Some ((utf8 (d1 * 4096 + d2 * 256 + d3 * 16 + d4) ++ s)%list, r)
                  | _, _, _, _, _ => None
                  end
              | _ => None
              end
            else
              match unescape (Z_of_ascii e), pstr rest' with
              | Some d, Some (s, r) => Some (d :: s, r)
              | _, _ => None
              end
        end
      else if (n <? 32)%Z then None
      else
        match pstr rest with
        | Some (s, r) => Some (c :: s, r)
        | None => None
        end
  end.

(** A JSON value and a JSON object's members; [fuel] bounds the nesting
    depth and the number of members. *)
Fixpoint pvalue (fuel : nat) (cs : list ascii) : option (JSON * list ascii) :=
  match fuel with
  | O => None
  | S f =>
      match skip_ws cs with
      | c :: rest =>
          if Ascii.eqb c "034"%char then
            match pstr rest with
            | Some (s, r) => Some (JString (string_of_list_ascii s), r)
            | None => None
            end
          else if Ascii.eqb c "{"%char then
            match skip_ws rest with
            | c' :: r' =>
                if Ascii.eqb c' "}"%char then Some (JObject [], r')
                else match pmembers f rest with
                     | Some (ms, r) => Some (JObject ms, r)
                     | None => None
                     end
            | [] => None
            end
          else None
      | [] => None
      end
  end
with pmembers (fuel : nat) (cs : list ascii) : option (list (string * JSON) * list ascii) :=
  match fuel with
  | O => None
  | S f =>
      match skip_ws cs with
      | c :: rest =>
          if Ascii.eqb c "034"%char then
            match pstr rest with
            | Some (k, r1) =>
                match skip_ws r1 with
                | c1 :: r2 =>
                    if Ascii.eqb c1 ":"%char then
                      match pvalue f r2 with
                      | Some (v, r3) =>
                          match skip_ws r3 with
                          | c3 :: r4 =>
                              if Ascii.eqb c3 ","%char then
                                match pmembers f r4 with
                                | Some (ms, r5) => Some ((string_of_list_ascii k, v) :: ms, r5)
                                | None => None
                                end
                              else if Ascii.eqb c3 "}"%char
                              then Some ([(string_of_list_ascii k, v)], r4)
                              else None
                          | [] => None
                          end
                      | None => None
                      end
                    else None
                | [] => None
                end
            | None => None
            end
          else None
      | [] => None
      end
  end.

(** [json.Unmarshal] of a whole document: trailing data is an error. Each
    level of nesting and each member consumes at least one character, so
    the input length bounds the fuel needed. *)
Definition parseJSON (s : string) : option JSON :=
  let cs := list_ascii_of_string s in
  match pvalue (S (List.length cs)) cs with
  | Some (v, rest) => match skip_ws rest with [] => Some v | _ => None end
  | None => None
  end.

(** A member of an object; of duplicate names the last one wins. *)
Definition member (k : string) (j : JSON) : option JSON :=
  match j with
  | JObject ms =>
      fold_left (fun acc kv => if String.eqb (fst kv) k then Some (snd kv) else acc) ms None
  | JString _ => None
  end.

Definition stringMember (k : string) (j : JSON) : option string :=
  match member k j with Some (JString s) => Some s | _ => None end.



Section Verifier.

Variable hashSum : Hash -> list byte -> list byte.
(** [ecdsa.Verify(pub, digest, r, s)]. *)
Variable ecdsaVerify : PublicKey -> list byte -> Z -> Z -> bool.
(** [rsa.VerifyPKCS1v15(pub, hash, digest, sig)] succeeding. *)
Variable rsaVerify : PublicKey -> Hash -> list byte -> list byte -> bool.


End Verifier.

End Jose.

(** *** Vocabulary of the JWS properties *)

Module JoseVocab.
Import Jose.

Local Open Scope list_scope.
Local Open Scope Z_scope.

Definition in_alphabet (c : ascii) : bool :=
  match b64val c with Some _ => true | None => false end.

Definition sigSize (p : CurveParams) : Z :=
  let size := Z.quot (BitSize p) 8 in
  if (Z.rem size 8 >? 0)%Z then size + 1 else size.

(** A rune that [strconv.Quote] writes in a form JSON reads back as that
    rune: raw, or as a backslash before a double quote or a backslash, or as
    one of the escapes [\b], [\t], [\n], [\f], [\r] and [\uXXXX]. The others are U+0000 to U+0007 and U+000E to U+001F
    and U+007F ([\xNN] or [\a]), U+000B ([\v]), and a non-printable rune
    above U+FFFF ([\UXXXXXXXX]). *)
Definition json_rune (r : Z) : bool :=
  negb (r <? 8) && negb (r =? 11) && negb ((14 <=? r) && (r <? 32)) && negb (r =? 127)
  && ((r <? 65536) || IsPrint r).

(** The runes of [cs], read as [quote_runes] reads them, are all valid UTF-8
    and [json_rune]s. *)
Fixpoint quotable_runes (fuel : nat) (cs : list ascii) : bool :=
  match fuel, cs with
  | S f, _ :: _ =>
      let '(r, width) := decodeRune cs in
      negb (Nat.eqb width 1 && (r =? RuneError)) && json_rune r
      && quotable_runes f (skipn width cs)
  | _, _ => true
  end.

Definition quotable (s : string) : bool :=
  let cs := list_ascii_of_string s in quotable_runes (List.length cs) cs.

(** [t] is the text of the JSON value [v], read with fuel [f] or more
    whatever follows. *)
Definition parses (f : nat) (t : list ascii) (v : JSON) : Prop :=
  forall f' tail, (f <= f')%nat -> pvalue f' (t ++ tail) = Some (v, tail).

(** Object members as text: a key, the text of the value and the value. *)
Fixpoint render_members (ms : list (list ascii * list ascii * JSON)) : list ascii :=
  match ms with
  | [] => []
  | (k, t, _) :: ms' =>
      "034"%char :: k ++ "034"%char :: ":"%char :: t
        ++ match ms' with [] => [] | _ => ","%char :: render_members ms' end
  end.

Definition plain_key (k : list ascii) : Prop :=
  forall tail, pstr (k ++ "034"%char :: tail) = Some (k, tail).

Definition member_ok (fv : nat) (m : list ascii * list ascii * JSON) : Prop :=
  let '(k, t, v) := m in plain_key k /\ parses fv t v.

Definition members_of (ms : list (list ascii * list ascii * JSON)) : list (string * JSON) :=
  map (fun m => let '(k, _, v) := m in (string_of_list_ascii k, v)) ms.

Definition qmember (k v : string) : list ascii * list ascii * JSON :=
  (list_ascii_of_string k, list_ascii_of_string (Quote v), JString v).

Definition smember (k v : string) : list ascii * list ascii * JSON :=
  (list_ascii_of_string k, list_ascii_of_string (json_string v), JString v).

Definition curve_eqb (a b : CurveParams) : bool :=
  String.eqb (Name a) (Name b) && Z.eqb (BitSize a) (BitSize b).

Definition supportedKey (k : PrivateKey) : bool :=
  match k with
  | RSAPrivateKey _ _ _ => true
  | ECDSAPrivateKey c _ _ _ => existsb (curve_eqb c) [P256; P384; P521]
  end.

(** Reading a JWK: the members of its JSON object, in whatever order they
    come, as RFC 7517 and RFC 7518 (section 6) read them. [kty] selects the
    key type; an EC key has the curve name [crv] (one of the three named
    curves) and the coordinates [x] and [y]; an RSA key has the modulus [n]
    and the exponent [e]. Each number is the big-endian value of the bytes
    its base64url text decodes to, whatever their number. *)
Definition b64Int (s : string) : option Z := option_map SetBytes (b64url_decode s).

Definition curveByName (nm : string) : option CurveParams :=
  find (fun c => String.eqb (Name c) nm) [P256; P384; P521].

Definition jwkPublic (ms : list (string * JSON)) : option PublicKey :=
  let j := JObject ms in
  match stringMember "kty" j with
  | Some kty =>
      if String.eqb kty "EC" then
        match stringMember "crv" j, stringMember "x" j, stringMember "y" j with
        | Some crv, Some xs, Some ys =>
            match curveByName crv, b64Int xs, b64Int ys with
            | Some c, Some x, Some y => Some (ECDSAPublicKey c x y)
            | _, _, _ => None
            end
        | _, _, _ => None
        end
      else if String.eqb kty "RSA" then
        match stringMember "n" j, stringMember "e" j with
        | Some ns, Some es =>
            match b64Int ns, b64Int es with
            | Some n, Some e => Some (RSAPublicKey n e)
            | _, _ => None
            end
        | _, _ => None
        end
      else None
  | None => None
  end.

(** The RFC 7638 thumbprint of a JWK: the hash of the [jwkEncode] text of
    the key it denotes (the use the source comment of [jwkEncode] names). *)
Definition thumbprint (sha256 : list byte -> list byte) (ms : list (string * JSON))
    : option (list byte) :=
  match jwkPublic ms with
  | Some pub =>
      match jwkEncode pub with
      | inr j => Some (sha256 (list_byte_of_string j))
      | inl _ => None
      end
  | None => None
  end.



End JoseVocab.

(** *** Fixtures of the JWS properties: a P-256 key and stand-ins for the
    primitives that sign and verify consistently. *)

Module JoseFixtures.
Import Jose.

Local Open Scope Z_scope.

Definition hashSum (h : Hash) (b : list byte) : list byte := b.

Definition ecdsaSign (k : PrivateKey) (digest : list byte) : option (Z * Z) :=
  match k with
  | ECDSAPrivateKey c _ _ _ => if 17 <=? BitSize c then Some (1, 70000) else None
  | RSAPrivateKey _ _ _ => None
  end.


Definition rsaSign (k : PrivateKey) (digest : list byte) (h : Hash) : option (list byte) :=
  Some digest.


Definition jsonMarshal (b : list byte) : option (list byte) := Some b.

Definition key : PrivateKey := ECDSAPrivateKey P256 1 2 3.

Definition payload : list byte := list_byte_of_string "{}".

Definition url : string := "https://ca.example/acme/revoke-cert".

(** The JWS of [payload] under [key] with nonce [nonce]. *)
Definition jws (nonce : string) : list byte :=
  match jwsEncodeJSON (list byte) hashSum ecdsaSign rsaSign jsonMarshal
          (Some payload) key "" nonce url with
  | inr j => j
  | inl _ => []
  end.

End JoseFixtures.

(* ------------------------------------------------------------------ *)
(** ** Fixtures: the request of [TestHandler_RevokeCert] *)

Module Fixtures.
Import AcmeRevoke.

Definition testCert : X509Certificate :=
  {| Raw := [Byte.x30; Byte.x82; Byte.x01];
     SerialNumber := 1234;
     Subject := "CN=Test ACME Revoke Certificate";
     CertPublicKey := ECDSAPublicKey P256 1 2 |}.

Definition prov : Provisioner := {| ProvName := "testprov"; AuthorizeRevoke := fun _ => None |}.

(** A request carrying [key] in its header, [acc] in the context and a
    payload with reason code [rc]; the certificate's record belongs to
    ["accountID"] and every collaborator succeeds. *)
Definition testEnv (acc : option Account) (key : JWSKey) (verifies : bool)
    (rc : option Z) : RequestEnv :=
  {| ctxJWS := Some {| SigKey := key; Verifies := fun _ => verifies |};
     ctxProvisioner := Some prov;
     ctxPayload := Some [];
     ctxAccount := acc;
     ctxBaseURL := "https://test.ca.smallstep.com";
     UnmarshalPayload := fun _ =>
       Some {| PCertificate := b64url_encode (Raw testCert); PReasonCode := rc |};
     ParseCertificate := fun _ => Some testCert;
     GetCertificateBySerial := fun s =>
       if String.eqb s "1234" then DBFound {| AccountID := "accountID" |} else DBNotFound;
     IsRevoked := fun _ => Some false;
     CARevoke := fun _ => RevokeOK |}.

Definition validAccount : Account := {| ID := "accountID"; AccStatus := StatusValid |}.
Definition invalidAccount : Account := {| ID := "accountID"; AccStatus := StatusInvalid |}.

End Fixtures.

(* ================================================================== *)
(** * Theorems *)

Module AcmeRevokeProofs.
Import AcmeRevoke.

Ltac bind_cases :=
  repeat match goal with
  | H : context [match ?x with _ => _ end] |- _ => destruct x eqn:?
  | |- context [match ?x with _ => _ end] => destruct x eqn:?
  end.

Lemma revokeCertFlow_inl env e :
  revokeCertFlow env = inl e -> RevokeCert env = WriteError NewRecorder e.
Proof. intros H. unfold RevokeCert. rewrite H. reflexivity. Qed.

Lemma authenticate_kid_account env l k acc :
  SigKey (lJWS l) = KeyID k -> ctxAccount env = Some acc ->
  authenticate env l =
    if negb (IsValid acc) then
      inl (wrapUnauthorizedError (lCrt l) ("account '" ++ ID acc ++ "' has status '" ++ AccStatus acc ++ "'"))
    else if negb (String.eqb (ID acc) (AccountID (lDBCert l))) then
      inl (wrapUnauthorizedError (lCrt l) ("account '" ++ ID acc ++ "' is not authorized"))
    else inr false.
Proof. intros Hk Ha. unfold authenticate. rewrite Hk, Ha. reflexivity. Qed.

Lemma revokeCertFlow_authenticate_inl env l e :
  revokeLookup env = inr l -> authenticate env l = inl e -> revokeCertFlow env = inl e.
Proof.
  intros Hl Ha. unfold revokeCertFlow. rewrite Hl. simpl.
  unfold revokeCommit. rewrite Ha. reflexivity.
Qed.

(** C1 (amended). After a successful revocation the committed options
    carry [ACME = true]; with a reason code [c] in the payload they carry
    [c] and its table text [reason c]; without one they carry code 0 and
    an empty reason. *)
Theorem revoke_committed_reason env opts :
  revokeCertFlow env = inr opts ->
  ACME opts = true /\ CARevoke env opts = RevokeOK /\
  exists l, revokeLookup env = inr l /\
    match PReasonCode (lPayload l) with
    | Some c => ReasonCode opts = c /\ Reason opts = reason c
    | None => ReasonCode opts = 0 /\ Reason opts = ""
    end.
Proof.
  unfold revokeCertFlow. destruct (revokeLookup env) as [e|l] eqn:Hl; simpl; [discriminate|].
  unfold revokeCommit, bind, check, require. intros H. bind_cases; try discriminate.
  all: injection H as <-.
  all: repeat split; try assumption.
  all: exists l; split; [reflexivity|].
  all: simpl; destruct (PReasonCode (lPayload l)); auto.
Qed.

Lemma revoke_committed_reason_witness :
  exists opts,
    revokeCertFlow (Fixtures.testEnv (Some Fixtures.validAccount) (KeyID "bar") true (Some 1))
    = inr opts
    /\ ACME opts = true /\ ReasonCode opts = 1 /\ Reason opts = reason 1.
Proof.
  assert (H : exists opts,
    revokeCertFlow (Fixtures.testEnv (Some Fixtures.validAccount) (KeyID "bar") true (Some 1))
    = inr opts) by (eexists; reflexivity).
  destruct H as [opts H]. exists opts. split; [exact H|].
  destruct (revoke_committed_reason _ _ H) as [Ha [_ [l [Hl Hr]]]].
  split; [exact Ha|].
  injection Hl as <-. exact Hr.
Defined.

(** C1: the claim's last clause fails. A payload without [reasonCode]
    commits an empty reason, not ["unspecified reason"]. *)
Lemma revoke_no_reasoncode_reason_empty :
  exists opts,
    revokeCertFlow (Fixtures.testEnv (Some Fixtures.validAccount) (KeyID "bar") true None) = inr opts
    /\ Reason opts = "" /\ Reason opts <> "unspecified reason".
Proof.
  eexists; split; [reflexivity|]. split; [reflexivity|]. simpl. discriminate.
Qed.

(** C2. Once the request reaches authentication: with a [kid] and an
    account in the context that is not valid or does not own the
    certificate record, or with a [jwk] whose signature does not verify
    under the certificate's public key, the handler answers 403
    [unauthorized] with detail ["No authorization provided for name "]
    followed by the certificate subject; on the [jwk] path the inner cause
    is ["verification of jws using certificate public key failed"]. *)
Theorem revoke_unauthorized env l :
  revokeLookup env = inr l ->
  (exists k acc, SigKey (lJWS l) = KeyID k /\ ctxAccount env = Some acc /\
     (IsValid acc = false \/ ID acc <> AccountID (lDBCert l)))
  \/ (exists jwk, SigKey (lJWS l) = EmbeddedJWK jwk /\
        Verifies (lJWS l) (CertPublicKey (lCrt l)) = false) ->
  exists e, revokeCertFlow env = inl e /\ RevokeCert env = WriteError NewRecorder e /\
    Code (RevokeCert env) = 403 /\
    Type' e = "urn:ietf:params:acme:error:unauthorized" /\
    Detail e = "No authorization provided for name " ++ Subject (lCrt l) /\
    (forall jwk, SigKey (lJWS l) = EmbeddedJWK jwk ->
       Err e = "verification of jws using certificate public key failed").
Proof.
  intros Hl Hfail.
  assert (Hauth : exists msg,
             authenticate env l = inl (wrapUnauthorizedError (lCrt l) msg) /\
             (forall jwk, SigKey (lJWS l) = EmbeddedJWK jwk ->
                msg = "verification of jws using certificate public key failed")).
  { destruct Hfail as [[k [acc [Hk [Ha Hc]]]] | [jwk [Hk Hv]]].
    - rewrite (authenticate_kid_account env l k acc Hk Ha).
      destruct (IsValid acc) eqn:Hvalid; simpl.
      + destruct Hc as [Hc | Hc]; [discriminate|].
        destruct (String.eqb_spec (ID acc) (AccountID (lDBCert l))) as [Heq|_];
          [contradiction|]; simpl.
        eexists; split; [reflexivity|]. intros jwk Hj. congruence.
      + eexists; split; [reflexivity|]. intros jwk Hj. congruence.
    - unfold authenticate. rewrite Hk, Hv.
      eexists; split; [reflexivity|]. reflexivity. }
  destruct Hauth as [msg [Ha Hmsg]].
  pose proof (revokeCertFlow_authenticate_inl env l _ Hl Ha) as Hf.
  exists (wrapUnauthorizedError (lCrt l) msg).
  repeat split; auto.
  - apply revokeCertFlow_inl; exact Hf.
  - rewrite (revokeCertFlow_inl env _ Hf). reflexivity.
Qed.

Lemma revoke_unauthorized_witness :
  Code (RevokeCert (Fixtures.testEnv (Some Fixtures.invalidAccount) (KeyID "bar") true None)) = 403.
Proof.
  destruct (revoke_unauthorized
              (Fixtures.testEnv (Some Fixtures.invalidAccount) (KeyID "bar") true None)
              {| lJWS := {| SigKey := KeyID "bar"; Verifies := fun _ => true |};
                 lProv := Fixtures.prov;
                 lPayload := {| PCertificate := b64url_encode (Raw Fixtures.testCert);
                                PReasonCode := None |};
                 lCrt := Fixtures.testCert;
                 lDBCert := {| AccountID := "accountID" |} |})
    as [e [_ [_ [H _]]]].
  - reflexivity.
  - left. exists "bar", Fixtures.invalidAccount. repeat split. left. reflexivity.
  - exact H.
Defined.

(** C3. Once the request reaches authentication: a [kid] with no account
    in the context (absent or nil) gives 400 [accountDoesNotExist], not
    403 [unauthorized]. *)
Theorem revoke_kid_no_account env l k :
  revokeLookup env = inr l -> SigKey (lJWS l) = KeyID k -> ctxAccount env = None ->
  revokeCertFlow env = inl (NewError ErrorAccountDoesNotExistType "account not in context") /\
  Code (RevokeCert env) = 400 /\
  Type' (NewError ErrorAccountDoesNotExistType "account not in context")
    = "urn:ietf:params:acme:error:accountDoesNotExist".
Proof.
  intros Hl Hk Ha.
  assert (Hf : revokeCertFlow env = inl (NewError ErrorAccountDoesNotExistType "account not in context")).
  { apply (revokeCertFlow_authenticate_inl env l); [exact Hl|].
    unfold authenticate. rewrite Hk, Ha. reflexivity. }
  split; [exact Hf|]. split; [|reflexivity].
  rewrite (revokeCertFlow_inl env _ Hf). reflexivity.
Qed.

Lemma revoke_kid_no_account_witness :
  Code (RevokeCert (Fixtures.testEnv None (KeyID "bar") true None)) = 400.
Proof.
  destruct (revoke_kid_no_account
              (Fixtures.testEnv None (KeyID "bar") true None)
              {| lJWS := {| SigKey := KeyID "bar"; Verifies := fun _ => true |};
                 lProv := Fixtures.prov;
                 lPayload := {| PCertificate := b64url_encode (Raw Fixtures.testCert);
                                PReasonCode := None |};
                 lCrt := Fixtures.testCert;
                 lDBCert := {| AccountID := "accountID" |} |}
              "bar" eq_refl eq_refl eq_refl) as [_ [H _]].
  exact H.
Defined.

Lemma revokeCertFlow_after_authenticate env l m :
  revokeLookup env = inr l -> authenticate env l = inr m ->
  revokeCertFlow env =
    bind (check (validateReasonCode (PReasonCode (lPayload l))))
      (fun _ => let serial := itoa (SerialNumber (lCrt l)) in
        revoked <- require (IsRevoked env serial) (NewErrorISE "error checking if certificate is revoked") ;;
        _ <- (if revoked then inl (NewError ErrorAlreadyRevokedType "certificate was already revoked")
              else inr tt) ;;
        _ <- (match AuthorizeRevoke (lProv l) (revokeToken (lJWS l)) with
              | Some _ => inl (NewErrorISE "error authorizing revocation on provisioner")
              | None => inr tt
              end) ;;
        let opts := setMTLS (revokeOptions serial (lCrt l) (PReasonCode (lPayload l))) m in
        match CARevoke env opts with
        | RevokeOK => inr opts
        | RevokeAlreadyRevoked msg => inl (NewError ErrorAlreadyRevokedType msg)
        | RevokeFailed _ => inl (NewErrorISE "error revoking certificate")
        end).
Proof.
  intros Hl Ha. unfold revokeCertFlow. rewrite Hl. simpl.
  unfold revokeCommit. rewrite Ha. reflexivity.
Qed.

(** C4. A present reason code is accepted exactly when it lies in [0, 10]
    and is not 7; once the request has passed authentication, any other
    code gives 400 [badRevocationReason] with detail ["The revocation
    reason provided is not allowed by the server"]. *)
Theorem revoke_reason_code_validation (c : Z) :
  (validateReasonCode (Some c) = None <-> (0 <= c <= 10 /\ c <> 7)%Z) /\
  (~ (0 <= c <= 10 /\ c <> 7)%Z ->
   forall env l m,
     revokeLookup env = inr l -> authenticate env l = inr m ->
     PReasonCode (lPayload l) = Some c ->
     revokeCertFlow env = inl (NewError ErrorBadRevocationReasonType "reasonCode out of bounds") /\
     Code (RevokeCert env) = 400 /\
     Type' (NewError ErrorBadRevocationReasonType "reasonCode out of bounds")
       = "urn:ietf:params:acme:error:badRevocationReason" /\
     Detail (NewError ErrorBadRevocationReasonType "reasonCode out of bounds")
       = "The revocation reason provided is not allowed by the server").
Proof.
  assert (Hv : validateReasonCode (Some c) = None <-> (0 <= c <= 10 /\ c <> 7)%Z).
  { unfold validateReasonCode, ocsp_Unspecified, ocsp_AACompromise, ocsp_ValueUnused.
    destruct (c <? 0)%Z eqn:H1; destruct (c >? 10)%Z eqn:H2; destruct (c =? 7)%Z eqn:H3;
      simpl; split; intros H; try discriminate; try reflexivity;
      rewrite ?Z.ltb_lt, ?Z.ltb_ge, ?Z.gtb_lt, ?Z.gtb_ltb, ?Z.ltb_ge, ?Z.eqb_eq, ?Z.eqb_neq in *;
      lia. }
  split; [exact Hv|].
  intros Hbad env l m Hl Ha Hc.
  assert (Hn : validateReasonCode (Some c) = Some (NewError ErrorBadRevocationReasonType "reasonCode out of bounds")).
  { destruct (validateReasonCode (Some c)) eqn:E.
    - revert E. unfold validateReasonCode.
      destruct (_ || _ || _); congruence.
    - exfalso. apply Hbad, Hv. reflexivity. }
  assert (Hf : revokeCertFlow env = inl (NewError ErrorBadRevocationReasonType "reasonCode out of bounds")).
  { rewrite (revokeCertFlow_after_authenticate env l m Hl Ha), Hc, Hn. reflexivity. }
  split; [exact Hf|]. split; [|split; reflexivity].
  rewrite (revokeCertFlow_inl env _ Hf). reflexivity.
Qed.

Lemma revoke_reason_code_validation_witness :
  Code (RevokeCert (Fixtures.testEnv (Some Fixtures.validAccount) (KeyID "bar") true (Some 7))) = 400.
Proof.
  destruct (proj2 (revoke_reason_code_validation 7) ltac:(lia)
              (Fixtures.testEnv (Some Fixtures.validAccount) (KeyID "bar") true (Some 7))
              {| lJWS := {| SigKey := KeyID "bar"; Verifies := fun _ => true |};
                 lProv := Fixtures.prov;
                 lPayload := {| PCertificate := b64url_encode (Raw Fixtures.testCert);
                                PReasonCode := Some 7 |};
                 lCrt := Fixtures.testCert;
                 lDBCert := {| AccountID := "accountID" |} |}
              false eq_refl eq_refl eq_refl) as [_ [H _]].
  exact H.
Defined.

Lemma revokeLookup_provisioner env l :
  revokeLookup env = inr l -> ctxProvisioner env = Some (lProv l).
Proof.
  unfold revokeLookup, bind, require. intros H. bind_cases; try discriminate.
  injection H as <-. simpl. congruence.
Qed.

Lemma bind_inl {A B} (m : result A) (k : A -> result B) e :
  bind m k = inl e -> m = inl e \/ exists a, m = inr a /\ k a = inl e.
Proof. destruct m as [e'|a]; simpl; intros H; [left; congruence | right; exists a; auto]. Qed.

Ltac err_cases :=
  repeat match goal with
  | H : bind _ _ = inl _ |- _ => apply bind_inl in H; destruct H as [H | [? [_ H]]]
  | H : revokeLookup _ = inl _ |- _ => unfold revokeLookup in H
  | H : revokeCommit _ _ = inl _ |- _ => unfold revokeCommit in H
  | H : authenticate _ _ = inl _ |- _ => unfold authenticate in H
  | H : require ?o _ = inl _ |- _ => unfold require in H; destruct o; [discriminate H | injection H as <-]
  | H : check ?o = inl _ |- _ =>
      unfold check in H; destruct o eqn:?; [injection H as <- | discriminate H]
  | H : validateReasonCode ?c = Some _ |- _ =>
      unfold validateReasonCode in H; destruct c; [destruct (_ || _ || _)|]; try discriminate H;
      injection H as <-
  | H : inl _ = inl _ |- _ => injection H as <-
  | H : inr _ = inl _ |- _ => discriminate H
  | H : (if ?b then _ else _) = inl _ |- _ => destruct b
  | H : (match ?x with _ => _ end) = inl _ |- _ => destruct x
  end.

Lemma revokeCertFlow_error_status env e :
  revokeCertFlow env = inl e -> (400 <= Status e <= 500)%Z.
Proof.
  unfold revokeCertFlow. intros H. err_cases; cbv zeta in *; err_cases; simpl; lia.
Qed.

(** C8. Every request is answered in exactly one of two ways: when all
    checks pass, status 200 with the single header
    [Link: <{baseURL}/acme/{provisioner}/directory>;rel="index"] and an
    empty body; otherwise the error's status (400 to 500) with
    [Content-Type: application/problem+json] and one problem document as
    the whole body. *)
Theorem revoke_response_framing env :
  (exists opts prov,
     revokeCertFlow env = inr opts /\ ctxProvisioner env = Some prov /\
     RevokeCert env =
       {| Code := 200;
          Header := [("Link", "<" ++ ctxBaseURL env ++ "/acme/" ++ PathEscape (ProvName prov)
                              ++ "/directory>;rel=" ++ dq ++ "index" ++ dq)];
          Body := [""] |})
  \/
  (exists e,
     revokeCertFlow env = inl e /\ (400 <= Status e <= 500)%Z /\
     RevokeCert env =
       {| Code := Status e;
          Header := [("Content-Type", "application/problem+json")];
          Body := [problemJSON e] |}).
Proof.
  destruct (revokeCertFlow env) as [e|opts] eqn:Hf.
  - right. exists e. split; [reflexivity|]. split; [exact (revokeCertFlow_error_status env e Hf)|].
    unfold RevokeCert. rewrite Hf. reflexivity.
  - left. unfold revokeCertFlow in Hf.
    destruct (revokeLookup env) as [e|l] eqn:Hl; [discriminate|].
    exists opts, (lProv l). split; [reflexivity|].
    split; [exact (revokeLookup_provisioner env l Hl)|].
    unfold RevokeCert, directoryLink. unfold revokeCertFlow. rewrite Hl. simpl in Hf |- *.
    rewrite Hf. rewrite (revokeLookup_provisioner env l Hl). reflexivity.
Qed.

End AcmeRevokeProofs.

Module SSHRevokeProofs.
Import SSHRevoke.

Ltac validate_cases :=
  unfold Validate, ocsp_Unspecified, ocsp_AACompromise;
  repeat match goal with
  | |- context [String.eqb ?a ?b] => destruct (String.eqb_spec a b)
  | |- context [(?a <? ?b)%Z] => destruct (Z.ltb_spec a b)
  | |- context [(?a >? ?b)%Z] => rewrite (Z.gtb_ltb a b); destruct (Z.ltb_spec b a)
  | |- context [negb ?b] => is_var b; destruct b
  end; simpl.

(** The request with no serial, no token and [passive = false]. *)
Definition emptyRequest : SSHRevokeRequest :=
  {| Serial := ""; OTT := ""; ReasonCode := 0; Reason := ""; Passive := false |}.

(** C9: the claim fails. [passive = false] is answered 400, not 501, when
    the serial is missing. *)
Lemma Validate_nonpassive_missing_serial :
  Validate emptyRequest = Some (BadRequest "missing serial") /\
  Status (BadRequest "missing serial") = 400 /\
  Validate emptyRequest <> Some (NotImplemented "non-passive revocation not implemented").
Proof. split; [reflexivity|]. split; [reflexivity|]. discriminate. Qed.

(** C9 (amended). [Validate] returns nil exactly when the serial is
    non-empty, [0 <= reasonCode <= 10], [passive] is true and the token is
    non-empty; otherwise it returns the error of the first failing check
    in the order serial (400), reason code (400), passive (501), token
    (400). *)
Theorem Validate_spec r :
  (Validate r = None <->
     Serial r <> "" /\ (0 <= ReasonCode r <= 10)%Z /\ Passive r = true /\ OTT r <> "") /\
  (Serial r = "" -> Validate r = Some (BadRequest "missing serial")) /\
  (Serial r <> "" -> ~ (0 <= ReasonCode r <= 10)%Z ->
     Validate r = Some (BadRequest "reasonCode out of bounds")) /\
  (Serial r <> "" -> (0 <= ReasonCode r <= 10)%Z -> Passive r = false ->
     Validate r = Some (NotImplemented "non-passive revocation not implemented")) /\
  (Serial r <> "" -> (0 <= ReasonCode r <= 10)%Z -> Passive r = true -> OTT r = "" ->
     Validate r = Some (BadRequest "missing ott")).
Proof.
  destruct r as [serial ott rc rsn passive]; simpl.
  destruct passive; validate_cases; destruct (String.eqb_spec ott "");
    cbn [Serial OTT ReasonCode Reason Passive] in *;
    intuition (try discriminate; try congruence; try lia).
Qed.

Lemma Validate_spec_witness :
  Validate {| Serial := "1"; OTT := ""; ReasonCode := 0; Reason := ""; Passive := false |}
  = Some (NotImplemented "non-passive revocation not implemented").
Proof.
  apply (proj1 (proj2 (proj2 (proj2
    (Validate_spec {| Serial := "1"; OTT := ""; ReasonCode := 0; Reason := ""; Passive := false |})))));
    simpl; [discriminate | lia | reflexivity].
Defined.

(** C10: the checks run in the order serial, reason code, passive, token:
    an empty serial gives 400 ["missing serial"] whatever the other fields; with a serial, an out-of-bounds reason code gives 400
    whatever [passive] and the token; with a serial and an in-bounds code,
    [passive = false] gives 501 whatever the token, in particular when it
    is empty. *)
Theorem Validate_check_order :
  (forall r, Serial r = "" -> Validate r = Some (BadRequest "missing serial")) /\
  (forall r, Serial r <> "" -> ~ (0 <= ReasonCode r <= 10)%Z ->
     Validate r = Some (BadRequest "reasonCode out of bounds")) /\
  (forall r, Serial r <> "" -> (0 <= ReasonCode r <= 10)%Z -> Passive r = false ->
     Validate r = Some (NotImplemented "non-passive revocation not implemented")).
Proof.
  repeat split; intros [serial ott rc rsn passive]; simpl; intros;
    subst; validate_cases; cbn [Serial OTT ReasonCode Reason Passive] in *;
    try congruence; try lia; reflexivity.
Qed.

Lemma Validate_check_order_witness :
  Validate {| Serial := "1"; OTT := ""; ReasonCode := 3; Reason := ""; Passive := false |}
  = Some (NotImplemented "non-passive revocation not implemented").
Proof.
  apply (proj2 (proj2 Validate_check_order)); simpl; [discriminate | lia | reflexivity].
Defined.

End SSHRevokeProofs.

Module JoseProofs.
Import Jose JoseVocab.

Local Open Scope string_scope.
Local Open Scope list_scope.
Local Open Scope Z_scope.

Lemma byteZ_range b : 0 <= byteZ b < 256.
Proof. unfold byteZ. pose proof (Byte.to_N_bounded b). lia. Qed.

Lemma byte_of_byteZ b : byte_of_Z (byteZ b) = b.
Proof. unfold byte_of_Z, byteZ. rewrite N2Z.id, Byte.of_to_N. reflexivity. Qed.

Lemma byteZ_of_Z z : 0 <= z < 256 -> byteZ (byte_of_Z z) = z.
Proof.
  intros Hz. unfold byte_of_Z, byteZ.
  destruct (Byte.of_N (Z.to_N z)) eqn:E.
  - apply Byte.to_of_N in E. rewrite E. lia.
  - apply Byte.of_N_None_iff in E. lia.
Qed.

Lemma b64char_val i : 0 <= i < 64 -> b64val (b64char i) = Some i.
Proof.
  intros Hi.
  assert (Hc : forallb (fun n => match b64val (b64char (Z.of_nat n)) with
                                 | Some j => j =? Z.of_nat n | None => false end)
                       (seq 0 64) = true) by (vm_compute; reflexivity).
  rewrite forallb_forall in Hc. specialize (Hc (Z.to_nat i)).
  rewrite in_seq, Z2Nat.id in Hc by lia.
  destruct (b64val (b64char i)); [|discriminate Hc; lia].
  apply Z.eqb_eq in Hc; [congruence | lia].
Qed.
Lemma ar1 a : 0 <= a < 256 ->
  let n := a * 65536 in
  (n / 262144 * 262144 + (n / 4096) mod 64 * 4096) / 65536 = a.
Proof. intros H n. subst n. (Z.to_euclidean_division_equations; lia). Qed.

Lemma ar2 a b : 0 <= a < 256 -> 0 <= b < 256 ->
  let n := a * 65536 + b * 256 in
  let m := n / 262144 * 262144 + (n / 4096) mod 64 * 4096 + (n / 64) mod 64 * 64 in
  m / 65536 = a /\ (m / 256) mod 256 = b.
Proof. intros H1 H2 n m. subst n m. (split; Z.to_euclidean_division_equations; lia). Qed.

Lemma ar3 a b c : 0 <= a < 256 -> 0 <= b < 256 -> 0 <= c < 256 ->
  let n := a * 65536 + b * 256 + c in
  let m := n / 262144 * 262144 + (n / 4096) mod 64 * 4096 + (n / 64) mod 64 * 64 + n mod 64 in
  m / 65536 = a /\ (m / 256) mod 256 = b /\ m mod 256 = c.
Proof. intros H1 H2 H3 n m. subst n m. (repeat split; Z.to_euclidean_division_equations; lia). Qed.

Ltac brange := repeat match goal with
  | b : byte |- _ => let H := fresh in pose proof (byteZ_range b) as H; revert H; clear b
  end; intros.

Lemma b64_decode_encode_list bs : b64url_decode_list (b64url_encode_list bs) = Some bs.
Proof.
  revert bs. fix IH 1. intros [|b0 [|b1 [|b2 rest]]].
  - reflexivity.
  - pose proof (byteZ_range b0).
    cbn [b64url_encode_list b64url_decode_list].
    rewrite !b64char_val by (Z.to_euclidean_division_equations; lia).
    rewrite (ar1 (byteZ b0)) by lia. rewrite byte_of_byteZ. reflexivity.
  - pose proof (byteZ_range b0). pose proof (byteZ_range b1).
    cbn [b64url_encode_list b64url_decode_list].
    rewrite !b64char_val by (Z.to_euclidean_division_equations; lia).
    destruct (ar2 (byteZ b0) (byteZ b1)) as [E1 E2]; try lia.
    cbv zeta in E1, E2. rewrite E1, E2, !byte_of_byteZ. reflexivity.
  - pose proof (byteZ_range b0). pose proof (byteZ_range b1). pose proof (byteZ_range b2).
    cbn [b64url_encode_list b64url_decode_list].
    rewrite !b64char_val by (Z.to_euclidean_division_equations; lia).
    rewrite IH.
    destruct (ar3 (byteZ b0) (byteZ b1) (byteZ b2)) as [E1 [E2 E3]]; try lia.
    cbv zeta in E1, E2, E3. rewrite E1, E2, E3, !byte_of_byteZ. reflexivity.
Qed.

Lemma b64char_in_alphabet i : 0 <= i < 64 -> in_alphabet (b64char i) = true.
Proof. intros H. unfold in_alphabet. rewrite b64char_val by exact H. reflexivity. Qed.

Lemma b64_encode_list_alphabet bs : forallb in_alphabet (b64url_encode_list bs) = true.
Proof.
  revert bs. fix IH 1. intros [|b0 [|b1 [|b2 rest]]].
  - reflexivity.
  - pose proof (byteZ_range b0). cbn [b64url_encode_list forallb].
    rewrite !b64char_in_alphabet by (Z.to_euclidean_division_equations; lia). reflexivity.
  - pose proof (byteZ_range b0). pose proof (byteZ_range b1). cbn [b64url_encode_list forallb].
    rewrite !b64char_in_alphabet by (Z.to_euclidean_division_equations; lia). reflexivity.
  - pose proof (byteZ_range b0). pose proof (byteZ_range b1). pose proof (byteZ_range b2).
    cbn [b64url_encode_list forallb].
    rewrite !b64char_in_alphabet by (Z.to_euclidean_division_equations; lia).
    rewrite IH. reflexivity.
Qed.

Lemma in_alphabet_not_newline c : in_alphabet c = true -> is_newline c = false.
Proof. destruct c as [[] [] [] [] [] [] [] []]; vm_compute; congruence. Qed.

Lemma filter_alphabet l :
  forallb in_alphabet l = true -> filter (fun c => negb (is_newline c)) l = l.
Proof.
  induction l as [|c l IH]; cbn; [reflexivity|].
  intros H. apply andb_prop in H as [H1 H2].
  rewrite (in_alphabet_not_newline c H1). cbn. rewrite IH by exact H2. reflexivity.
Qed.

Lemma b64_decode_encode bs : b64url_decode (b64url_encode bs) = Some bs.
Proof.
  unfold b64url_decode, b64url_encode.
  rewrite list_ascii_of_string_of_list_ascii, filter_alphabet
    by apply b64_encode_list_alphabet.
  apply b64_decode_encode_list.
Qed.

Lemma pow256_succ k : 256 ^ Z.of_nat (S k) = 256 * 256 ^ Z.of_nat k.
Proof. rewrite Nat2Z.inj_succ, Z.pow_succ_r by lia. reflexivity. Qed.

Lemma pow256_pos k : 0 < 256 ^ Z.of_nat k.
Proof. apply Z.pow_pos_nonneg; lia. Qed.

Lemma SetBytes_snoc l b : SetBytes (l ++ [b]) = SetBytes l * 256 + byteZ b.
Proof. unfold SetBytes. rewrite fold_left_app. reflexivity. Qed.

Lemma SetBytes_be_fixed k z : 0 <= z -> SetBytes (be_fixed k z) = z mod 256 ^ Z.of_nat k.
Proof.
  revert z. induction k as [|k IH]; intros z Hz.
  - cbn. rewrite Z.mod_1_r. reflexivity.
  - cbn [be_fixed]. rewrite SetBytes_snoc, IH by (apply Z.div_pos; lia).
    rewrite byteZ_of_Z by (apply Z.mod_pos_bound; lia).
    rewrite pow256_succ, Z.rem_mul_r by (pose proof (pow256_pos k); lia). lia.
Qed.

Lemma be_fixed_length k z : List.length (be_fixed k z) = k.
Proof.
  revert z. induction k as [|k IH]; intros z; cbn; [reflexivity|].
  rewrite length_app, IH. cbn. lia.
Qed.

Lemma repeat_snoc (A : Type) (x : A) m : repeat x m ++ [x] = repeat x (S m).
Proof.
  induction m as [|m IH]; cbn; [reflexivity|]. rewrite IH. reflexivity.
Qed.

Lemma be_fixed_zero m : be_fixed m 0 = repeat Byte.x00 m.
Proof.
  induction m as [|m IH]; cbn; [reflexivity|].
  rewrite IH. apply repeat_snoc.
Qed.

Lemma be_fixed_extend k z m :
  0 <= z < 256 ^ Z.of_nat k -> be_fixed (m + k) z = repeat Byte.x00 m ++ be_fixed k z.
Proof.
  revert z. induction k as [|k IH]; intros z Hz.
  - cbn in Hz. assert (z = 0) by lia. subst. rewrite Nat.add_0_r, be_fixed_zero, app_nil_r.
    reflexivity.
  - rewrite Nat.add_succ_r. cbn [be_fixed]. rewrite pow256_succ in Hz.
    rewrite IH, app_assoc; [reflexivity|].
    split; [apply Z.div_pos; lia|]. apply Z.div_lt_upper_bound; lia.
Qed.

Lemma byteLen_le n k : 0 <= n < 256 ^ Z.of_nat k -> (byteLen n <= k)%nat.
Proof.
  intros Hn. unfold byteLen. destruct (n <=? 0) eqn:E; [lia|].
  apply Z.leb_gt in E.
  assert (H2 : n < 2 ^ (8 * Z.of_nat k)) by
    (rewrite Z.pow_mul_r by lia; exact (proj2 Hn)).
  apply Z.log2_lt_pow2 in H2; [|lia].
  pose proof (Z.log2_nonneg n).
  assert (Z.log2 n / 8 < Z.of_nat k) by (apply Z.div_lt_upper_bound; lia).
  lia.
Qed.

Lemma byteLen_bound n : 0 <= n -> n < 256 ^ Z.of_nat (byteLen n).
Proof.
  intros Hn. unfold byteLen. destruct (n <=? 0) eqn:E.
  - apply Z.leb_le in E. cbn. lia.
  - apply Z.leb_gt in E. pose proof (Z.log2_nonneg n).
    assert (0 <= Z.log2 n / 8) by (apply Z.div_pos; lia).
    rewrite Z2Nat.id by lia.
    replace 256 with (2 ^ 8) by reflexivity. rewrite <- Z.pow_mul_r by lia.
    apply Z.log2_lt_pow2; [lia|].
    pose proof (Z.mul_div_le (Z.log2 n) 8). pose proof (Z.mod_pos_bound (Z.log2 n) 8).
    pose proof (Z.div_mod (Z.log2 n) 8). lia.
Qed.

Lemma IntBytes_pad z k :
  0 <= z < 256 ^ Z.of_nat k ->
  repeat Byte.x00 (k - List.length (IntBytes z)) ++ IntBytes z = be_fixed k z.
Proof.
  intros Hz. unfold IntBytes. rewrite Z.abs_eq by lia.
  rewrite be_fixed_length.
  pose proof (byteLen_le z k Hz).
  rewrite <- be_fixed_extend by (split; [lia|apply byteLen_bound; lia]).
  f_equal. lia.
Qed.

Lemma SetBytes_zeros m l : SetBytes (repeat Byte.x00 m ++ l) = SetBytes l.
Proof.
  unfold SetBytes. rewrite fold_left_app.
  replace (fold_left (fun acc b => acc * 256 + byteZ b) (repeat Byte.x00 m) 0) with 0; [reflexivity|].
  induction m as [|m IH]; cbn; [reflexivity|]. exact IH.
Qed.

Lemma skipn_len_app (A : Type) (l1 l2 : list A) n :
  skipn (List.length l1 + n) (l1 ++ l2) = skipn n l2.
Proof. induction l1 as [|x l1 IH]; cbn; [reflexivity|exact IH]. Qed.

Lemma firstn_len_app (A : Type) (l1 l2 : list A) : firstn (List.length l1) (l1 ++ l2) = l1.
Proof. induction l1 as [|x l1 IH]; cbn; [reflexivity|now rewrite IH]. Qed.

Lemma firstn_skipn_len (A : Type) (l1 l2 : list A) n :
  List.length l1 = n -> firstn n (l1 ++ l2) = l1 /\ skipn n (l1 ++ l2) = l2.
Proof.
  intros <-. split; [apply firstn_len_app|].
  rewrite <- (Nat.add_0_r (List.length l1)), skipn_len_app. reflexivity.
Qed.

Lemma copyAt_pad pre k src post :
  (List.length src <= k)%nat ->
  copyAt (pre ++ repeat Byte.x00 k ++ post)
         (Z.of_nat (List.length pre + k - List.length src)) src
  = inr (pre ++ repeat Byte.x00 (k - List.length src) ++ src ++ post).
Proof.
  intros Hk. set (ls := List.length src).
  assert (Hd : pre ++ repeat Byte.x00 k ++ post
               = (pre ++ repeat Byte.x00 (k - ls)) ++ repeat Byte.x00 ls ++ post).
  { replace k with ((k - ls) + ls)%nat at 1 by lia.
    rewrite repeat_app, <- !app_assoc. reflexivity. }
  rewrite Hd. unfold copyAt.
  assert (Ha : List.length (pre ++ repeat Byte.x00 (k - ls)) = (List.length pre + k - ls)%nat)
    by (rewrite length_app, repeat_length; lia).
  rewrite !length_app, !repeat_length. fold ls.
  replace ((Z.of_nat (List.length pre + k - ls) <? 0)
           || (Z.of_nat (List.length pre + k - ls)
                 >? Z.of_nat (List.length pre + (k - ls) + (ls + List.length post))))%Z
    with false by (symmetry; apply orb_false_iff; split; [apply Z.ltb_ge | rewrite Z.gtb_ltb; apply Z.ltb_ge]; lia).
  rewrite Nat2Z.id.
  replace (Nat.min (List.length pre + (k - ls) + (ls + List.length post) - (List.length pre + k - ls)) ls)
    with ls by lia.
  rewrite <- Ha, firstn_len_app, (firstn_all2 (n:=ls) src) by (unfold ls; lia).
  replace (List.length (pre ++ repeat Byte.x00 (k - ls)) + ls)%nat
    with (List.length (pre ++ repeat Byte.x00 (k - ls)) + (List.length (repeat Byte.x00 ls) + 0))%nat
    by (rewrite repeat_length; lia).
  rewrite skipn_len_app, skipn_len_app. cbn [skipn]. rewrite <- !app_assoc. reflexivity.
Qed.

Lemma jwsSign_ecdsa ecdsaSign rsaSign p X Y D hash digest r s :
  0 <= sigSize p ->
  ecdsaSign (ECDSAPrivateKey p X Y D) digest = Some (r, s) ->
  0 <= r < 256 ^ sigSize p -> 0 <= s < 256 ^ sigSize p ->
  jwsSign ecdsaSign rsaSign (ECDSAPrivateKey p X Y D) hash digest
  = inr (be_fixed (Z.to_nat (sigSize p)) r ++ be_fixed (Z.to_nat (sigSize p)) s).
Proof.
  intros Hsz Hsig Hr Hs. unfold jwsSign. rewrite Hsig. fold (sigSize p).
  cbv zeta. set (n := Z.to_nat (sigSize p)).
  assert (Hn : sigSize p = Z.of_nat n) by (unfold n; rewrite Z2Nat.id; lia).
  rewrite Hn in Hr, Hs |- *.
  replace (Z.of_nat n * 2 <? 0)%Z with false by (symmetry; apply Z.ltb_ge; lia).
  pose proof (byteLen_le _ _ Hr) as Lr. pose proof (byteLen_le _ _ Hs) as Ls.
  assert (Er : List.length (IntBytes r) = byteLen r)
    by (unfold IntBytes; rewrite Z.abs_eq by lia; apply be_fixed_length).
  assert (Es : List.length (IntBytes s) = byteLen s)
    by (unfold IntBytes; rewrite Z.abs_eq by lia; apply be_fixed_length).
  replace (Z.to_nat (Z.of_nat n * 2)) with (n + n)%nat by lia.
  rewrite repeat_app.
  change (repeat Byte.x00 n ++ repeat Byte.x00 n)
    with ([] ++ repeat Byte.x00 n ++ repeat Byte.x00 n).
  replace (Z.of_nat n - Z.of_nat (List.length (IntBytes r)))
    with (Z.of_nat (List.length (@nil byte) + n - List.length (IntBytes r))) by (cbn; lia).
  rewrite copyAt_pad by lia. cbn [gobind app].
  rewrite app_assoc, IntBytes_pad by exact Hr.
  replace (Z.of_nat n * 2 - Z.of_nat (List.length (IntBytes s)))
    with (Z.of_nat (List.length (be_fixed n r) + n - List.length (IntBytes s)))
    by (rewrite be_fixed_length; lia).
  rewrite <- (app_nil_r (repeat Byte.x00 n)).
  rewrite copyAt_pad by lia. cbn [gobind].
  rewrite app_nil_r, IntBytes_pad by exact Hs. reflexivity.
Qed.

Lemma list_ascii_of_string_app s t :
  list_ascii_of_string (s ++ t) = (list_ascii_of_string s ++ list_ascii_of_string t)%list.
Proof. induction s as [|c s IH]; cbn; [reflexivity|now rewrite IH]. Qed.

Lemma pstr_json_escape_char c tail :
  pstr (list_ascii_of_string (json_escape_char c) ++ tail)
  = match pstr tail with Some (s, r) => Some (c :: s, r) | None => None end.
Proof. destruct c as [[] [] [] [] [] [] [] []]; reflexivity. Qed.

Lemma pstr_json_escape s tail :
  pstr (list_ascii_of_string (json_escape s) ++ tail)
  = match pstr tail with
    | Some (x, r) => Some (list_ascii_of_string s ++ x, r)
    | None => None
    end.
Proof.
  induction s as [|c s IH]; cbn [json_escape list_ascii_of_string].
  - cbn. destruct (pstr tail) as [[x r]|]; reflexivity.
  - rewrite list_ascii_of_string_app, <- app_assoc, pstr_json_escape_char, IH.
    destruct (pstr tail) as [[x r]|]; reflexivity.
Qed.

(** **** UTF-8 and [strconv.Quote] *)

Lemma Z_of_ascii_range c : 0 <= Z_of_ascii c < 256.
Proof. unfold Z_of_ascii. pose proof (nat_ascii_bounded c). lia. Qed.

Lemma Z_of_ascii_of_Z z : 0 <= z < 256 -> Z_of_ascii (ascii_of_Z z) = z.
Proof.
  intros H. unfold Z_of_ascii, ascii_of_Z. rewrite nat_ascii_embedding by lia. lia.
Qed.

Lemma ascii_of_Z_of_ascii c : ascii_of_Z (Z_of_ascii c) = c.
Proof. unfold Z_of_ascii, ascii_of_Z. rewrite Nat2Z.id. apply ascii_nat_embedding. Qed.

Lemma ValidRune_iff r :
  ValidRune r = true <-> (0 <= r < 55296 \/ 57343 < r <= 1114111).
Proof.
  unfold ValidRune. rewrite orb_true_iff, !andb_true_iff, !Z.leb_le, !Z.ltb_lt. lia.
Qed.

(** An OR with a high part clear in the low [k] bits is an addition. *)
Lemma lor_lead a m k z : a = m * 2 ^ k -> 0 <= k -> 0 <= z < 2 ^ k -> Z.lor a z = a + z.
Proof.
  intros -> Hk Hz.
  assert (L : Z.land (m * 2 ^ k) z = 0).
  { apply Z.bits_inj'. intros i Hi. rewrite Z.land_spec, Z.bits_0.
    destruct (Z.lt_ge_cases i k) as [Hik|Hik].
    - rewrite <- Z.shiftl_mul_pow2 by lia. rewrite Z.shiftl_spec_low by lia. reflexivity.
    - rewrite <- (Z.mod_small z (2 ^ k)) by lia. rewrite Z.mod_pow2_bits_high by lia.
      apply andb_false_r. }
  rewrite <- Z.lxor_lor by exact L. symmetry. apply Z.add_nocarry_lxor, L.
Qed.

Lemma shiftr_div r n : 0 <= n -> Z.shiftr r n = r / 2 ^ n.
Proof. intros Hn. apply Z.shiftr_div_pow2, Hn. Qed.

Lemma land_low x n : 0 <= n -> Z.land x (2 ^ n - 1) = x mod 2 ^ n.
Proof.
  intros Hn. replace (2 ^ n - 1) with (Z.ones n) by (rewrite Z.ones_equiv; lia).
  apply Z.land_ones, Hn.
Qed.

Lemma land63 x : Z.land x 63 = x mod 64.
Proof. apply (land_low x 6). lia. Qed.

Lemma land15 x : Z.land x 15 = x mod 16.
Proof. apply (land_low x 4). lia. Qed.

Lemma AppendRune_1 r : 0 <= r <= 127 -> AppendRune r = [ascii_of_Z r].
Proof.
  intros H. unfold AppendRune.
  replace ((0 <=? r) && (r <=? 127)) with true
    by (symmetry; apply andb_true_iff; rewrite !Z.leb_le; lia).
  reflexivity.
Qed.

Lemma AppendRune_2 r :
  128 <= r < 2048 -> AppendRune r = [ascii_of_Z (192 + r / 64); ascii_of_Z (128 + r mod 64)].
Proof.
  intros H. unfold AppendRune.
  replace ((0 <=? r) && (r <=? 127)) with false
    by (symmetry; apply andb_false_iff; right; apply Z.leb_gt; lia).
  replace ((0 <=? r) && (r <=? 2047)) with true
    by (symmetry; apply andb_true_iff; rewrite !Z.leb_le; lia).
  rewrite shiftr_div, land63 by lia. change (2 ^ 6) with 64.
  assert (0 <= r / 64 < 32) by (Z.to_euclidean_division_equations; lia).
  assert (0 <= r mod 64 < 64) by (apply Z.mod_pos_bound; lia).
  rewrite (lor_lead 192 6 5), (lor_lead 128 2 6) by (reflexivity || lia).
  reflexivity.
Qed.

Lemma AppendRune_3 r :
  ValidRune r = true -> 2048 <= r < 65536 ->
  AppendRune r = [ascii_of_Z (224 + r / 4096); ascii_of_Z (128 + (r / 64) mod 64);
                  ascii_of_Z (128 + r mod 64)].
Proof.
  intros Hv H. apply ValidRune_iff in Hv. unfold AppendRune.
  replace ((0 <=? r) && (r <=? 127)) with false
    by (symmetry; apply andb_false_iff; right; apply Z.leb_gt; lia).
  replace ((0 <=? r) && (r <=? 2047)) with false
    by (symmetry; apply andb_false_iff; right; apply Z.leb_gt; lia).
  replace ((1114111 <? r) || ((55296 <=? r) && (r <=? 57343)) || (r <? 0)) with false
    by (symmetry; rewrite !orb_false_iff, andb_false_iff, Z.ltb_ge, Z.ltb_ge, !Z.leb_gt; lia).
  replace (r <=? 65535) with true by (symmetry; apply Z.leb_le; lia).
  rewrite !shiftr_div, !land63 by lia. change (2 ^ 12) with 4096. change (2 ^ 6) with 64.
  assert (0 <= r / 4096 < 16) by (Z.to_euclidean_division_equations; lia).
  assert (0 <= (r / 64) mod 64 < 64) by (apply Z.mod_pos_bound; lia).
  assert (0 <= r mod 64 < 64) by (apply Z.mod_pos_bound; lia).
  rewrite (lor_lead 224 14 4), !(lor_lead 128 2 6) by (reflexivity || lia).
  reflexivity.
Qed.

Lemma AppendRune_4 r :
  65536 <= r <= 1114111 ->
  AppendRune r = [ascii_of_Z (240 + r / 262144); ascii_of_Z (128 + (r / 4096) mod 64);
                  ascii_of_Z (128 + (r / 64) mod 64); ascii_of_Z (128 + r mod 64)].
Proof.
  intros H. unfold AppendRune.
  replace ((0 <=? r) && (r <=? 127)) with false
    by (symmetry; apply andb_false_iff; right; apply Z.leb_gt; lia).
  replace ((0 <=? r) && (r <=? 2047)) with false
    by (symmetry; apply andb_false_iff; right; apply Z.leb_gt; lia).
  replace ((1114111 <? r) || ((55296 <=? r) && (r <=? 57343)) || (r <? 0)) with false
    by (symmetry; rewrite !orb_false_iff, andb_false_iff, Z.ltb_ge, Z.ltb_ge, !Z.leb_gt; lia).
  replace (r <=? 65535) with false by (symmetry; apply Z.leb_gt; lia).
  rewrite !shiftr_div, !land63 by lia.
  change (2 ^ 18) with 262144. change (2 ^ 12) with 4096. change (2 ^ 6) with 64.
  assert (0 <= r / 262144 < 8) by (Z.to_euclidean_division_equations; lia).
  assert (0 <= (r / 4096) mod 64 < 64) by (apply Z.mod_pos_bound; lia).
  assert (0 <= (r / 64) mod 64 < 64) by (apply Z.mod_pos_bound; lia).
  assert (0 <= r mod 64 < 64) by (apply Z.mod_pos_bound; lia).
  rewrite (lor_lead 240 30 3), !(lor_lead 128 2 6) by (reflexivity || lia).
  reflexivity.
Qed.

Lemma AppendRune_nil r : AppendRune r <> [].
Proof. unfold AppendRune. repeat (destruct (_ : bool)); discriminate. Qed.

Ltac asc c := rewrite <- (ascii_of_Z_of_ascii c) at 1; f_equal.

(** A valid sequence at the front of the input is the encoding of the rune
    [decodeRune] reads. *)
Lemma decodeRune_valid c0 rest r w :
  decodeRune (c0 :: rest) = (r, w) -> ~ (w = 1%nat /\ r = RuneError) ->
  ValidRune r = true /\
  exists post, c0 :: rest = AppendRune r ++ post /\ List.length (AppendRune r) = w.
Proof.
  pose proof (Z_of_ascii_range c0) as R0.
  unfold decodeRune. cbv beta zeta.
  destruct (Z.ltb_spec (Z_of_ascii c0) 128) as [L0|L0].
  { intros H _. injection H as <- <-. split; [apply ValidRune_iff; lia|].
    exists rest. rewrite AppendRune_1 by lia. rewrite ascii_of_Z_of_ascii. split; reflexivity. }
  destruct ((194 <=? Z_of_ascii c0) && (Z_of_ascii c0 <=? 223)) eqn:E2.
  { apply andb_true_iff in E2 as [E2a E2b]. apply Z.leb_le in E2a, E2b.
    destruct rest as [|c1 rest]; [intros H Hn; injection H as <- <-; tauto|].
    pose proof (Z_of_ascii_range c1) as R1.
    destruct ((128 <=? Z_of_ascii c1) && (Z_of_ascii c1 <=? 191)) eqn:E3;
      [|intros H Hn; injection H as <- <-; tauto].
    apply andb_true_iff in E3 as [E3a E3b]. apply Z.leb_le in E3a, E3b.
    intros H _. injection H as <- <-. split; [apply ValidRune_iff; lia|].
    exists rest. rewrite AppendRune_2 by lia. split; [|reflexivity].
    cbn [app]. f_equal; [asc c0 | f_equal; asc c1];
      Z.to_euclidean_division_equations; lia. }
  destruct ((224 <=? Z_of_ascii c0) && (Z_of_ascii c0 <=? 239)) eqn:E4.
  { apply andb_true_iff in E4 as [E4a E4b]. apply Z.leb_le in E4a, E4b.
    destruct rest as [|c1 [|c2 rest]]; [intros H Hn; injection H as <- <-; tauto
                                       | intros H Hn; injection H as <- <-; tauto|].
    pose proof (Z_of_ascii_range c1) as R1. pose proof (Z_of_ascii_range c2) as R2.
    match goal with |- (if ?b then _ else _) = _ -> _ => destruct b eqn:E5 end;
      [|intros H Hn; injection H as <- <-; tauto].
    apply andb_true_iff in E5 as [E5 E6]. apply andb_true_iff in E5 as [E5a E5b].
    apply andb_true_iff in E6 as [E6a E6b]. apply Z.leb_le in E5a, E5b, E6a, E6b.
    intros H _. injection H as <- <-.
    assert (V : 2048 <= (Z_of_ascii c0 - 224) * 4096 + (Z_of_ascii c1 - 128) * 64
                        + (Z_of_ascii c2 - 128) < 65536
                /\ ValidRune ((Z_of_ascii c0 - 224) * 4096 + (Z_of_ascii c1 - 128) * 64
                              + (Z_of_ascii c2 - 128)) = true).
    { rewrite ValidRune_iff. revert E5a E5b.
      destruct (Z.eqb_spec (Z_of_ascii c0) 224), (Z.eqb_spec (Z_of_ascii c0) 237); intros; lia. }
    assert (B1 : 128 <= Z_of_ascii c1 <= 191)
      by (revert E5a E5b; destruct (Z_of_ascii c0 =? 224), (Z_of_ascii c0 =? 237); intros; lia).
    destruct V as [V1 V2]. split; [exact V2|].
    exists rest. rewrite AppendRune_3 by assumption. split; [|reflexivity].
    cbn [app]. f_equal; [asc c0 | f_equal; [asc c1 | f_equal; asc c2]];
      Z.to_euclidean_division_equations; lia. }
  destruct ((240 <=? Z_of_ascii c0) && (Z_of_ascii c0 <=? 244)) eqn:E7;
    [|intros H Hn; injection H as <- <-; tauto].
  apply andb_true_iff in E7 as [E7a E7b]. apply Z.leb_le in E7a, E7b.
  destruct rest as [|c1 [|c2 [|c3 rest]]];
    [intros H Hn; injection H as <- <-; tauto | intros H Hn; injection H as <- <-; tauto
    | intros H Hn; injection H as <- <-; tauto |].
  pose proof (Z_of_ascii_range c1) as R1. pose proof (Z_of_ascii_range c2) as R2.
  pose proof (Z_of_ascii_range c3) as R3.
  match goal with |- (if ?b then _ else _) = _ -> _ => destruct b eqn:E5 end;
    [|intros H Hn; injection H as <- <-; tauto].
  apply andb_true_iff in E5 as [E5 E8]. apply andb_true_iff in E5 as [E5 E6].
  apply andb_true_iff in E5 as [E5a E5b]. apply andb_true_iff in E6 as [E6a E6b].
  apply andb_true_iff in E8 as [E8a E8b]. apply Z.leb_le in E5a, E5b, E6a, E6b, E8a, E8b.
  intros H _. injection H as <- <-.
  assert (V : 65536 <= (Z_of_ascii c0 - 240) * 262144 + (Z_of_ascii c1 - 128) * 4096
                       + (Z_of_ascii c2 - 128) * 64 + (Z_of_ascii c3 - 128) <= 1114111)
    by (revert E5a E5b;
        destruct (Z.eqb_spec (Z_of_ascii c0) 240), (Z.eqb_spec (Z_of_ascii c0) 244); intros; lia).
  assert (B1 : 128 <= Z_of_ascii c1 <= 191)
    by (revert E5a E5b; destruct (Z_of_ascii c0 =? 240), (Z_of_ascii c0 =? 244); intros; lia).
  split; [apply ValidRune_iff; lia|].
  exists rest. rewrite AppendRune_4 by exact V. split; [|reflexivity].
  cbn [app]. f_equal; [asc c0 | f_equal; [asc c1 | f_equal; [asc c2 | f_equal; asc c3]]];
    Z.to_euclidean_division_equations; lia.
Qed.

Lemma AppendRune_high r :
  ValidRune r = true -> 128 <= r -> Forall (fun c => 128 <= Z_of_ascii c) (AppendRune r).
Proof.
  intros Hv Hr. pose proof Hv as Hv'. apply ValidRune_iff in Hv'.
  destruct (Z.lt_ge_cases r 2048).
  - rewrite AppendRune_2 by lia.
    repeat constructor; rewrite Z_of_ascii_of_Z; Z.to_euclidean_division_equations; lia.
  - destruct (Z.lt_ge_cases r 65536).
    + rewrite AppendRune_3 by (assumption || lia).
      repeat constructor; rewrite Z_of_ascii_of_Z; Z.to_euclidean_division_equations; lia.
    + rewrite AppendRune_4 by lia.
      repeat constructor; rewrite Z_of_ascii_of_Z; Z.to_euclidean_division_equations; lia.
Qed.

Lemma utf8_AppendRune r : ValidRune r = true -> 128 <= r < 65536 -> utf8 r = AppendRune r.
Proof.
  intros Hv Hr. unfold utf8.
  replace (r <? 128) with false by (symmetry; apply Z.ltb_ge; lia).
  destruct (Z.ltb_spec r 2048).
  - rewrite AppendRune_2 by lia. reflexivity.
  - rewrite AppendRune_3 by (assumption || lia). reflexivity.
Qed.

Lemma pstr_high l tail :
  Forall (fun c => 128 <= Z_of_ascii c) l ->
  pstr (l ++ tail) = match pstr tail with Some (x, r) => Some (l ++ x, r) | None => None end.
Proof.
  induction 1 as [|c l Hc Hl IH]; cbn [app].
  - destruct (pstr tail) as [[x r]|]; reflexivity.
  - cbn [pstr].
    replace (Z_of_ascii c =? 34) with false by (symmetry; apply Z.eqb_neq; lia).
    replace (Z_of_ascii c =? 92) with false by (symmetry; apply Z.eqb_neq; lia).
    replace (Z_of_ascii c <? 32) with false by (symmetry; apply Z.ltb_ge; lia).
    rewrite IH. destruct (pstr tail) as [[x r]|]; reflexivity.
Qed.

Lemma hexval_hexdigit d : 0 <= d < 16 -> hexval (hexdigit true d) = Some d.
Proof.
  intros H. assert (E : exists n, (n < 16)%nat /\ d = Z.of_nat n) by (exists (Z.to_nat d); lia).
  destruct E as [n [Hn ->]].
  do 16 (destruct n as [|n]; [reflexivity|]). lia.
Qed.

Lemma hexval_hexAt r s : 0 <= s -> hexval (hexAt r s) = Some ((r / 2 ^ s) mod 16).
Proof.
  intros Hs. unfold hexAt. rewrite land15, shiftr_div by exact Hs.
  apply hexval_hexdigit, Z.mod_pos_bound. lia.
Qed.

Lemma pstr_u h1 h2 h3 h4 tail :
  pstr ("092"%char :: "u"%char :: h1 :: h2 :: h3 :: h4 :: tail)
  = match hexval h1, hexval h2, hexval h3, hexval h4, pstr tail with
    | Some d1, Some d2, Some d3, Some d4, Some (s, r) =>
        Some ((utf8 (d1 * 4096 + d2 * 256 + d3 * 16 + d4) ++ s)%list, r)
    | _, _, _, _, _ => None
    end.
Proof. reflexivity. Qed.

Lemma pstr_escape_ascii r tail :
  0 <= r < 128 -> json_rune r = true ->
  pstr (list_ascii_of_string (appendEscapedRune r) ++ tail)
  = match pstr tail with Some (x, rr) => Some (AppendRune r ++ x, rr) | None => None end.
Proof.
  intros Hr Hj.
  assert (E : exists n, (n < 128)%nat /\ r = Z.of_nat n) by (exists (Z.to_nat r); lia).
  destruct E as [n [Hn ->]].
  do 128 (destruct n as [|n]; [ (vm_compute in Hj; discriminate Hj) || reflexivity |]).
  lia.
Qed.

Lemma pstr_escape_high r tail :
  ValidRune r = true -> 128 <= r -> json_rune r = true ->
  pstr (list_ascii_of_string (appendEscapedRune r) ++ tail)
  = match pstr tail with Some (x, rr) => Some (AppendRune r ++ x, rr) | None => None end.
Proof.
  intros Hv Hr Hj. unfold appendEscapedRune.
  replace ((r =? 34) || (r =? 92)) with false
    by (symmetry; apply orb_false_iff; split; apply Z.eqb_neq; lia).
  destruct (IsPrint r) eqn:Hp.
  { rewrite list_ascii_of_string_of_list_ascii. apply pstr_high, AppendRune_high; assumption. }
  assert (Hs : r < 65536).
  { unfold json_rune in Hj. rewrite Hp, orb_false_r in Hj.
    apply andb_true_iff in Hj as [_ Hj]. apply Z.ltb_lt, Hj. }
  replace (r =? 7) with false by (symmetry; apply Z.eqb_neq; lia).
  replace (r =? 8) with false by (symmetry; apply Z.eqb_neq; lia).
  replace (r =? 12) with false by (symmetry; apply Z.eqb_neq; lia).
  replace (r =? 10) with false by (symmetry; apply Z.eqb_neq; lia).
  replace (r =? 13) with false by (symmetry; apply Z.eqb_neq; lia).
  replace (r =? 9) with false by (symmetry; apply Z.eqb_neq; lia).
  replace (r =? 11) with false by (symmetry; apply Z.eqb_neq; lia).
  replace ((r <? 32) || (r =? 127)) with false
    by (symmetry; apply orb_false_iff; split; [apply Z.ltb_ge | apply Z.eqb_neq]; lia).
  rewrite Hv. replace (r <? 65536) with true by (symmetry; apply Z.ltb_lt, Hs).
  cbn [list_ascii_of_string app]. rewrite pstr_u.
  rewrite !hexval_hexAt by lia. cbn beta iota.
  change (2 ^ 12) with 4096. change (2 ^ 8) with 256. change (2 ^ 4) with 16.
  change (2 ^ 0) with 1. rewrite Z.div_1_r.
  replace ((r / 4096) mod 16 * 4096 + (r / 256) mod 16 * 256 + (r / 16) mod 16 * 16 + r mod 16)
    with r by (Z.to_euclidean_division_equations; lia).
  rewrite utf8_AppendRune by (assumption || lia). reflexivity.
Qed.

Lemma pstr_escape r tail :
  ValidRune r = true -> json_rune r = true ->
  pstr (list_ascii_of_string (appendEscapedRune r) ++ tail)
  = match pstr tail with Some (x, rr) => Some (AppendRune r ++ x, rr) | None => None end.
Proof.
  intros Hv Hj. pose proof Hv as Hv'. apply ValidRune_iff in Hv'.
  destruct (Z.lt_ge_cases r 128).
  - apply pstr_escape_ascii; [lia | exact Hj].
  - apply pstr_escape_high; assumption.
Qed.

Lemma pstr_quote_runes fuel cs tail :
  (List.length cs <= fuel)%nat -> quotable_runes fuel cs = true ->
  pstr (list_ascii_of_string (quote_runes fuel cs) ++ tail)
  = match pstr tail with Some (x, r) => Some (cs ++ x, r) | None => None end.
Proof.
  revert cs. induction fuel as [|f IH]; intros cs Hl Hq.
  - destruct cs; [|cbn in Hl; lia]. cbn. destruct (pstr tail) as [[x r]|]; reflexivity.
  - destruct cs as [|c0 rest].
    { cbn. destruct (pstr tail) as [[x r]|]; reflexivity. }
    cbn [quote_runes quotable_runes] in *.
    destruct (decodeRune (c0 :: rest)) as [r w] eqn:Ed.
    apply andb_true_iff in Hq as [Hq Hrest]. apply andb_true_iff in Hq as [Hne Hj].
    assert (Hn : ~ (w = 1%nat /\ r = RuneError)) by (intros [-> ->]; discriminate Hne).
    destruct (decodeRune_valid _ _ _ _ Ed Hn) as [Hv [post [Hcs Hw]]].
    apply negb_true_iff in Hne. rewrite Hne.
    rewrite Hcs in Hrest, Hl |- *. rewrite <- Hw, skipn_app, skipn_all, Nat.sub_diag in Hrest |- *.
    cbn [app skipn] in Hrest |- *.
    assert (Hp : (List.length post <= f)%nat).
    { rewrite length_app in Hl. pose proof (AppendRune_nil r).
      destruct (AppendRune r); [contradiction|]. cbn in Hl. lia. }
    rewrite list_ascii_of_string_app, <- app_assoc, pstr_escape, IH by assumption.
    destruct (pstr tail) as [[x rr]|]; [rewrite app_assoc|]; reflexivity.
Qed.

Lemma pstr_quote_body s tail :
  quotable s = true ->
  pstr (list_ascii_of_string (quote_body s) ++ tail)
  = match pstr tail with
    | Some (x, r) => Some (list_ascii_of_string s ++ x, r)
    | None => None
    end.
Proof. intros Hq. apply pstr_quote_runes; [lia | exact Hq]. Qed.

Lemma pstr_dq tail : pstr ("034"%char :: tail) = Some ([], tail).
Proof. reflexivity. Qed.

Lemma skip_ws_nonws c l : is_ws c = false -> skip_ws (c :: l) = c :: l.
Proof. intros H. cbn [skip_ws]. rewrite H. reflexivity. Qed.

Lemma parses_mono f g t v : (f <= g)%nat -> parses f t v -> parses g t v.
Proof. intros Hfg H f' tail Hf. apply H. lia. Qed.

Lemma parses_json_string s :
  parses 1 (list_ascii_of_string (json_string s)) (JString s).
Proof.
  intros f' tail Hf. destruct f' as [|f]; [lia|].
  unfold json_string. rewrite !list_ascii_of_string_app, <- !app_assoc.
  cbn [pvalue dq list_ascii_of_string app].
  rewrite skip_ws_nonws by reflexivity. simpl.
  rewrite pstr_json_escape, pstr_dq, app_nil_r, string_of_list_ascii_of_string.
  reflexivity.
Qed.

Lemma parses_Quote s :
  quotable s = true -> parses 1 (list_ascii_of_string (Quote s)) (JString s).
Proof.
  intros Hq f' tail Hf. destruct f' as [|f]; [lia|].
  unfold Quote. rewrite !list_ascii_of_string_app, <- !app_assoc.
  cbn [pvalue dq list_ascii_of_string app].
  rewrite skip_ws_nonws by reflexivity. simpl.
  rewrite pstr_quote_body by exact Hq. rewrite pstr_dq, app_nil_r, string_of_list_ascii_of_string.
  reflexivity.
Qed.

Lemma pmembers_render ms fv f tail :
  ms <> [] -> Forall (member_ok fv) ms -> (List.length ms + fv <= f)%nat ->
  pmembers f (render_members ms ++ "}"%char :: tail) = Some (members_of ms, tail).
Proof.
  revert f. induction ms as [|[[k t] v] ms IH]; intros f Hne Hok Hf; [congruence|].
  destruct f as [|f]; [cbn in Hf; lia|].
  inversion Hok as [|? ? Hm Hrest]; subst. destruct Hm as [Hk Ht].
  cbn [render_members]. rewrite <- app_comm_cons.
  cbn [pmembers]. rewrite skip_ws_nonws by reflexivity.
  rewrite <- app_assoc. cbn [app]. rewrite Hk.
  rewrite skip_ws_nonws by reflexivity. simpl (Ascii.eqb _ _). cbv iota beta.
  destruct ms as [|m ms'].
  - rewrite app_nil_r, (Ht f ("}"%char :: tail)) by (cbn in Hf; lia).
    rewrite skip_ws_nonws by reflexivity. reflexivity.
  - rewrite <- app_assoc, (Ht f _) by (cbn in Hf; lia).
    rewrite <- app_comm_cons, skip_ws_nonws by reflexivity. simpl (Ascii.eqb _ _). cbv iota beta.
    rewrite IH by (try discriminate; auto; cbn in Hf |- *; lia). reflexivity.
Qed.

Lemma parses_object ms fv f0 :
  ms <> [] -> Forall (member_ok fv) ms -> (S (List.length ms + fv) <= f0)%nat ->
  parses f0 ("{"%char :: render_members ms ++ ["}"%char]) (JObject (members_of ms)).
Proof.
  intros Hne Hok Hf0 f' tail Hf. destruct f' as [|f]; [lia|].
  assert (HR : exists R', render_members ms = "034"%char :: R')
    by (destruct ms as [|[[k t] v] ms']; [congruence | eexists; reflexivity]).
  destruct HR as [R' HR].
  pose proof (pmembers_render ms fv f tail Hne Hok ltac:(lia)) as P.
  rewrite HR in P |- *. cbn [app] in P |- *. rewrite <- app_assoc. cbn [app].
  cbn [pvalue]. rewrite skip_ws_nonws by reflexivity. cbv [Ascii.eqb Bool.eqb andb].
  rewrite skip_ws_nonws by reflexivity. cbv [Ascii.eqb Bool.eqb andb].
  rewrite P. reflexivity.
Qed.

Lemma parseJSON_parses f t v :
  parses f t v -> (f <= S (List.length t))%nat -> parseJSON (string_of_list_ascii t) = Some v.
Proof.
  intros Hp Hf. unfold parseJSON. rewrite list_ascii_of_string_of_list_ascii.
  rewrite <- (app_nil_r t) at 2. rewrite Hp by exact Hf. reflexivity.
Qed.

(** A base64url character is one byte that [%q] copies. *)
Lemma alphabet_rune c rest :
  in_alphabet c = true ->
  decodeRune (c :: rest) = (Z_of_ascii c, 1%nat)
  /\ appendEscapedRune (Z_of_ascii c) = String c EmptyString
  /\ json_rune (Z_of_ascii c) = true
  /\ (Z_of_ascii c =? RuneError) = false.
Proof.
  destruct c as [[] [] [] [] [] [] [] []]; intros H;
    (vm_compute in H; discriminate H) || (split; [reflexivity | split; [reflexivity | split; reflexivity]]).
Qed.

Lemma quotable_runes_alphabet fuel cs :
  forallb in_alphabet cs = true -> quotable_runes fuel cs = true.
Proof.
  revert cs. induction fuel as [|f IH]; intros [|c cs] H; try reflexivity.
  cbn [forallb] in H. apply andb_prop in H as [H1 H2].
  destruct (alphabet_rune c cs H1) as (D & _ & J & E).
  cbn [quotable_runes]. rewrite D, J, E. cbn. apply IH, H2.
Qed.

Lemma quotable_b64 bs : quotable (b64url_encode bs) = true.
Proof.
  unfold quotable, b64url_encode. rewrite list_ascii_of_string_of_list_ascii.
  apply quotable_runes_alphabet, b64_encode_list_alphabet.
Qed.

Lemma qmember_ok fv k v :
  (1 <= fv)%nat -> plain_key (list_ascii_of_string k) -> quotable v = true ->
  member_ok fv (qmember k v).
Proof.
  intros Hf Hk Hq. split; [exact Hk|].
  apply (parses_mono 1); [exact Hf|]. apply parses_Quote, Hq.
Qed.

Ltac plain := intros ?; reflexivity.

Lemma jwkEncode_EC_text c x y s :
  jwkEncode (ECDSAPublicKey c x y) = inr s ->
  exists xb yb,
    list_ascii_of_string s
    = "{"%char :: render_members [qmember "crv" (Name c); qmember "kty" "EC";
                                 qmember "x" (b64url_encode xb); qmember "y" (b64url_encode yb)]
            ++ ["}"%char].
Proof.
  unfold jwkEncode. cbv zeta. intros H. injection H as <-.
  eexists; eexists.
  cbn [render_members qmember]. unfold Quote, dq. change (quote_body "EC"%string) with "EC"%string.
  repeat (rewrite ?list_ascii_of_string_app; cbn [list_ascii_of_string app]).
  repeat (rewrite <- !app_assoc; cbn [app]). reflexivity.
Qed.

Ltac norm_text :=
  unfold Quote, dq;
  repeat (rewrite ?list_ascii_of_string_app; cbn [list_ascii_of_string app]);
  repeat (rewrite <- !app_assoc; cbn [app]).

Lemma render_members_length ms :
  (3 * List.length ms <= List.length (render_members ms))%nat.
Proof.
  induction ms as [|[[k t] v] ms IH]; [cbn; lia|].
  change (render_members ((k, t, v) :: ms))
    with ("034"%char :: k ++ "034"%char :: ":"%char :: t
            ++ match ms with [] => [] | _ => ","%char :: render_members ms end).
  cbn [List.length]. rewrite !length_app. cbn [List.length].
  destruct ms as [|m ms']; rewrite ?length_app; cbn [List.length] in *; lia.
Qed.

Lemma parseJSON_object s ms fv :
  list_ascii_of_string s = "{"%char :: render_members ms ++ ["}"%char] ->
  ms <> [] -> Forall (member_ok fv) ms -> (fv <= 2 + 2 * List.length ms)%nat ->
  parseJSON s = Some (JObject (members_of ms)).
Proof.
  intros Hs Hne Hok Hfv. rewrite <- (string_of_list_ascii_of_string s), Hs.
  apply (parseJSON_parses (S (List.length ms + fv))).
  - apply (parses_object _ fv); auto.
  - pose proof (render_members_length ms). cbn [List.length]. rewrite length_app. cbn. lia.
Qed.

Lemma jwk_parses pub s :
  (match pub with ECDSAPublicKey c _ _ => quotable (Name c) = true | _ => True end) ->
  jwkEncode pub = inr s -> exists v, parses 6 (list_ascii_of_string s) v.
Proof.
  destruct pub as [n e | c x y]; intros Hq H.
  - unfold jwkEncode in H. injection H as <-.
    exists (JObject (members_of [qmember "e" (b64url_encode (IntBytes e)); qmember "kty" "RSA";
                                 qmember "n" (b64url_encode (IntBytes n))])).
    match goal with |- parses _ ?t _ =>
      replace t with ("{"%char :: render_members
                        [qmember "e" (b64url_encode (IntBytes e)); qmember "kty" "RSA";
                         qmember "n" (b64url_encode (IntBytes n))] ++ ["}"%char]) end.
    + apply (parses_object _ 1); [discriminate| |cbn; lia].
      repeat constructor; try (intros ?; reflexivity);
        (apply (parses_mono 1); [lia| apply parses_Quote; try apply quotable_b64; reflexivity]).
    + cbn [render_members qmember]. change (quote_body "RSA"%string) with "RSA"%string.
      norm_text. reflexivity.
  - apply jwkEncode_EC_text in H as (xb & yb & ->).
    eexists. apply (parses_object _ 1); [discriminate| |cbn; lia].
    repeat constructor; try (intros ?; reflexivity);
      (apply (parses_mono 1); [lia| apply parses_Quote; try apply quotable_b64; try exact Hq; reflexivity]).
Qed.

Ltac qmembers_ok :=
  repeat match goal with
  | |- Forall _ [] => constructor
  | |- Forall _ (_ :: _) => constructor
  | |- member_ok ?fv (qmember _ _) =>
      apply qmember_ok; [lia | intros ?; reflexivity | assumption ]
  | |- member_ok ?fv (_, _, _) => split; [intros ?; reflexivity | assumption]
  end.


Lemma jwsFinal_parse sha sig phead payload jws :
  jwsFinal sha sig phead payload = inr jws ->
  parseJSON (string_of_list_byte jws)
  = Some (JObject [("protected", JString phead); ("payload", JString payload);
                   ("signature", JString (b64url_encode sig))]).
Proof.
  unfold jwsFinal. intros H. injection H as <-. rewrite string_of_list_byte_of_string.
  apply (parseJSON_object _ [smember "protected" phead; smember "payload" payload;
                             smember "signature" (b64url_encode sig)] 1).
  - cbn [render_members smember]. unfold json_string. norm_text. reflexivity.
  - discriminate.
  - repeat constructor; try (intros ?; reflexivity); apply parses_json_string.
  - cbn; lia.
Qed.

Lemma supported_curve c : existsb (curve_eqb c) [P256; P384; P521] = true ->
  c = P256 \/ c = P384 \/ c = P521.
Proof.
  destruct c as [nm b]. unfold curve_eqb. cbn.
  intros H. repeat (apply orb_prop in H as [H|H]); try discriminate;
    apply andb_prop in H as [H1 H2]; apply String.eqb_eq in H1; apply Z.eqb_eq in H2; subst;
    auto.
Qed.

Section RoundTrip.

Variable Claimset : Type.
Variable hashSum : Hash -> list byte -> list byte.
Variable ecdsaSign : PrivateKey -> list byte -> option (Z * Z).
Variable ecdsaVerify : PublicKey -> list byte -> Z -> Z -> bool.
Variable rsaSign : PrivateKey -> list byte -> Hash -> option (list byte).
Variable rsaVerify : PublicKey -> Hash -> list byte -> list byte -> bool.
Variable jsonMarshal : Claimset -> option (list byte).

Hypothesis ecdsa_range : forall c x y d digest r s,
  ecdsaSign (ECDSAPrivateKey c x y d) digest = Some (r, s) ->
  0 <= r < 2 ^ BitSize c /\ 0 <= s < 2 ^ BitSize c.
Hypothesis ecdsa_ok : forall k digest r s,
  ecdsaSign k digest = Some (r, s) -> ecdsaVerify (Public k) digest r s = true.
Hypothesis rsa_ok : forall k digest h sig,
  rsaSign k digest h = Some sig -> rsaVerify (Public k) h digest sig = true.






End RoundTrip.



(** [jwsSign] pads R and S to [size] bytes, where [size] is [bitSize / 8]
    plus one when [size % 8 > 0] (not when [bitSize % 8 > 0]). Called
    directly on P-224, which [jwsEncodeJSON] rejects, this is 29 bytes, so
    the signature has 58 bytes rather than [2 * ceil(224 / 8) = 56]. *)
Theorem jwsSign_P224_length ecdsaSign rsaSign x y d hash digest r s :
  ecdsaSign (ECDSAPrivateKey P224 x y d) digest = Some (r, s) ->
  0 <= r < 2 ^ BitSize P224 -> 0 <= s < 2 ^ BitSize P224 ->
  exists sig,
    jwsSign ecdsaSign rsaSign (ECDSAPrivateKey P224 x y d) hash digest = inr sig
    /\ List.length sig = 58%nat
    /\ 2 * ((BitSize P224 + 7) / 8) = 56.
Proof.
  intros Hsig Hr Hs.
  assert (Hp : 2 ^ BitSize P224 <= 256 ^ sigSize P224) by (vm_compute; congruence).
  exists (be_fixed (Z.to_nat (sigSize P224)) r ++ be_fixed (Z.to_nat (sigSize P224)) s).
  split; [apply jwsSign_ecdsa; [vm_compute; congruence | exact Hsig | lia | lia]|].
  rewrite length_app, !be_fixed_length. split; reflexivity.
Qed.

Lemma jwsSign_P224_length_witness :
  exists sig,
    jwsSign JoseFixtures.ecdsaSign JoseFixtures.rsaSign (ECDSAPrivateKey P224 1 2 3)
      SHA256 [] = inr sig
    /\ List.length sig = 58%nat
    /\ 2 * ((BitSize P224 + 7) / 8) = 56.
Proof.
  apply (jwsSign_P224_length JoseFixtures.ecdsaSign JoseFixtures.rsaSign 1 2 3 SHA256 []
           1 70000); [reflexivity | vm_compute; split; congruence
                                  | vm_compute; split; congruence].
Defined.

(** Base64url text has no character that [%q] escapes. *)
Lemma quote_runes_alphabet fuel cs :
  (List.length cs <= fuel)%nat -> forallb in_alphabet cs = true ->
  quote_runes fuel cs = string_of_list_ascii cs.
Proof.
  revert cs. induction fuel as [|f IH]; intros [|c cs] Hl H; try reflexivity.
  - cbn in Hl. lia.
  - cbn [forallb] in H. apply andb_prop in H as [H1 H2].
    destruct (alphabet_rune c cs H1) as (D & A & _ & E).
    cbn [quote_runes]. rewrite D, E. cbn [Nat.eqb andb skipn]. rewrite A, IH.
    + reflexivity.
    + cbn in Hl. lia.
    + exact H2.
Qed.

Lemma quote_body_alphabet s :
  forallb in_alphabet (list_ascii_of_string s) = true -> quote_body s = s.
Proof.
  intros H. unfold quote_body. rewrite quote_runes_alphabet by (lia || exact H).
  apply string_of_list_ascii_of_string.
Qed.

Lemma b64_alphabet bs : forallb in_alphabet (list_ascii_of_string (b64url_encode bs)) = true.
Proof.
  unfold b64url_encode. rewrite list_ascii_of_string_of_list_ascii.
  apply b64_encode_list_alphabet.
Qed.

Lemma Quote_b64 bs : Quote (b64url_encode bs) = (dq ++ b64url_encode bs ++ dq)%string.
Proof. unfold Quote. rewrite quote_body_alphabet by apply b64_alphabet. reflexivity. Qed.

Lemma ec_size b : 0 <= b ->
  (if negb (Z.rem b 8 =? 0) then Z.quot b 8 + 1 else Z.quot b 8) = (b + 7) / 8.
Proof.
  intros Hb. rewrite Z.rem_mod_nonneg, Z.quot_div_nonneg by lia.
  destruct (Z.eqb_spec (b mod 8) 0); cbn; Z.to_euclidean_division_equations; lia.
Qed.

Lemma pow2_le_256 b : 0 <= b -> 2 ^ b <= 256 ^ ((b + 7) / 8).
Proof.
  intros Hb. change 256 with (2 ^ 8).
  rewrite <- Z.pow_mul_r by (try lia; apply Z.div_pos; lia).
  apply Z.pow_le_mono_r; [lia | Z.to_euclidean_division_equations; lia].
Qed.

Lemma pad_coord n z : 0 <= n -> 0 <= z < 256 ^ n ->
  (if n >? Z.of_nat (List.length (IntBytes z))
   then repeat Byte.x00 (Z.to_nat (n - Z.of_nat (List.length (IntBytes z)))) ++ IntBytes z
   else IntBytes z) = be_fixed (Z.to_nat n) z.
Proof.
  intros Hn Hz. set (k := Z.to_nat n).
  assert (Hk : n = Z.of_nat k) by (unfold k; lia). rewrite Hk in Hz |- *.
  assert (El : List.length (IntBytes z) = byteLen z)
    by (unfold IntBytes; rewrite Z.abs_eq by lia; apply be_fixed_length).
  pose proof (byteLen_le _ _ Hz) as Hl.
  destruct (Z.of_nat k >? Z.of_nat (List.length (IntBytes z))) eqn:E.
  - replace (Z.to_nat (Z.of_nat k - Z.of_nat (List.length (IntBytes z))))
      with (k - List.length (IntBytes z))%nat by lia.
    apply IntBytes_pad; exact Hz.
  - rewrite Z.gtb_ltb in E. apply Z.ltb_ge in E.
    rewrite <- (IntBytes_pad z k Hz).
    replace (k - List.length (IntBytes z))%nat with O by lia. reflexivity.
Qed.

Lemma SetBytes_IntBytes z : SetBytes (IntBytes z) = Z.abs z.
Proof.
  unfold IntBytes. rewrite SetBytes_be_fixed by lia.
  apply Z.mod_small. split; [lia|]. apply byteLen_bound. lia.
Qed.

(** The text of [jwkEncode] on keys whose coordinates fit the curve. *)
Lemma jwkEncode_text c x y n e :
  0 <= BitSize c -> 0 <= x < 2 ^ BitSize c -> 0 <= y < 2 ^ BitSize c ->
  let k := Z.to_nat ((BitSize c + 7) / 8) in
  jwkEncode (ECDSAPublicKey c x y)
  = inr ("{" ++ fld "crv" ++ Quote (Name c) ++ "," ++ fld "kty" ++ dq ++ "EC" ++ dq
         ++ "," ++ fld "x" ++ (dq ++ b64url_encode (be_fixed k x) ++ dq)
         ++ "," ++ fld "y" ++ (dq ++ b64url_encode (be_fixed k y) ++ dq) ++ "}")%string
  /\ List.length (be_fixed k x) = k /\ SetBytes (be_fixed k x) = x
  /\ List.length (be_fixed k y) = k /\ SetBytes (be_fixed k y) = y
  /\ jwkEncode (RSAPublicKey n e)
     = inr ("{" ++ fld "e" ++ (dq ++ b64url_encode (IntBytes e) ++ dq)
            ++ "," ++ fld "kty" ++ dq ++ "RSA" ++ dq
            ++ "," ++ fld "n" ++ (dq ++ b64url_encode (IntBytes n) ++ dq) ++ "}")%string
  /\ SetBytes (IntBytes e) = Z.abs e /\ SetBytes (IntBytes n) = Z.abs n
  /\ (forall bs, forallb in_alphabet (list_ascii_of_string (b64url_encode bs)) = true
                 /\ b64url_decode (b64url_encode bs) = Some bs)
  /\ in_alphabet "=" = false.
Proof.
  intros Hb Hx Hy k.
  pose proof (pow2_le_256 _ Hb) as Hp.
  assert (Hn : 0 <= (BitSize c + 7) / 8) by (apply Z.div_pos; lia).
  assert (Hk : Z.of_nat k = (BitSize c + 7) / 8) by (unfold k; lia).
  assert (Sx : SetBytes (be_fixed k x) = x)
    by (rewrite SetBytes_be_fixed, Hk by lia; apply Z.mod_small; lia).
  assert (Sy : SetBytes (be_fixed k y) = y)
    by (rewrite SetBytes_be_fixed, Hk by lia; apply Z.mod_small; lia).
  split.
  - unfold jwkEncode. cbv zeta. rewrite ec_size by exact Hb.
    rewrite !pad_coord by lia. rewrite !Quote_b64. reflexivity.
  - rewrite !be_fixed_length. split; [reflexivity|]. split; [exact Sx|].
    split; [reflexivity|]. split; [exact Sy|].
    split; [unfold jwkEncode; rewrite !Quote_b64; reflexivity|].
    split; [apply SetBytes_IntBytes|]. split; [apply SetBytes_IntBytes|].
    split; [|reflexivity].
    intros bs. split; [apply b64_alphabet | apply b64_decode_encode].
Qed.

(** [jwkEncode] never fails on the two key types, so neither does [jwsHead]. *)
Lemma jwkEncode_ok pub : exists j, jwkEncode pub = inr j.
Proof. destruct pub; eexists; reflexivity. Qed.

Lemma jwsHead_ok alg nonce u kid key : exists ph, jwsHead alg nonce u kid key = inr ph.
Proof.
  unfold jwsHead. destruct (jwkEncode_ok (Public key)) as [j Ej].
  destruct (String.eqb kid ""); cbn [gobind]; [rewrite Ej; cbn [gobind]|];
    eexists; reflexivity.
Qed.

Lemma member_fold_notin (ms : list (string * JSON)) k acc :
  ~ In k (map fst ms) ->
  fold_left (fun acc kv => if String.eqb (fst kv) k then Some (snd kv) else acc) ms acc = acc.
Proof.
  revert acc. induction ms as [|[k' v'] ms IH]; intros acc H; [reflexivity|].
  cbn in H |- *. destruct (String.eqb_spec k' k); [subst; tauto|]. apply IH. tauto.
Qed.

Lemma member_fold_in (ms : list (string * JSON)) k v acc :
  NoDup (map fst ms) -> In (k, v) ms ->
  fold_left (fun acc kv => if String.eqb (fst kv) k then Some (snd kv) else acc) ms acc = Some v.
Proof.
  revert acc. induction ms as [|[k' v'] ms IH]; intros acc Hd H; [destruct H|].
  cbn in Hd |- *. inversion Hd as [|? ? Hn Hd']; subst. destruct H as [H|H].
  - injection H as -> ->. rewrite String.eqb_refl. apply member_fold_notin. exact Hn.
  - apply IH; assumption.
Qed.

Lemma member_perm ms1 ms2 k :
  NoDup (map fst ms1) -> Permutation ms1 ms2 -> member k (JObject ms1) = member k (JObject ms2).
Proof.
  intros Hd Hp. assert (Hd2 : NoDup (map fst ms2))
    by (apply (Permutation_NoDup (Permutation_map fst Hp)); exact Hd).
  unfold member. destruct (in_dec string_dec k (map fst ms1)) as [Hi|Hi].
  - apply in_map_iff in Hi as ([k' v] & Hk & Hi). cbn in Hk. subst k'.
    rewrite !(member_fold_in _ k v) by (assumption || exact (Permutation_in _ Hp Hi)).
    reflexivity.
  - rewrite !member_fold_notin; [reflexivity| |exact Hi].
    intros Hi2. apply Hi. exact (Permutation_in _ (Permutation_map fst (Permutation_sym Hp)) Hi2).
Qed.

Lemma jwkPublic_perm ms1 ms2 :
  NoDup (map fst ms1) -> Permutation ms1 ms2 -> jwkPublic ms1 = jwkPublic ms2.
Proof.
  intros Hd Hp. unfold jwkPublic, stringMember. rewrite !(member_perm ms1 ms2) by assumption.
  reflexivity.
Qed.

Lemma jwk_EC_parse c xb yb : quotable (Name c) = true ->
  parseJSON ("{" ++ fld "crv" ++ Quote (Name c) ++ "," ++ fld "kty" ++ dq ++ "EC" ++ dq
         ++ "," ++ fld "x" ++ (dq ++ b64url_encode xb ++ dq)
         ++ "," ++ fld "y" ++ (dq ++ b64url_encode yb ++ dq) ++ "}")%string
  = Some (JObject [("crv", JString (Name c)); ("kty", JString "EC");
                   ("x", JString (b64url_encode xb)); ("y", JString (b64url_encode yb))]).
Proof.
  intros Hq. rewrite <- !Quote_b64.
  rewrite (parseJSON_object _ [qmember "crv" (Name c); qmember "kty" "EC";
                               qmember "x" (b64url_encode xb); qmember "y" (b64url_encode yb)] 1);
    [reflexivity| |discriminate| |cbn; lia].
  - cbn [render_members qmember]. change (quote_body "EC"%string) with "EC"%string.
    norm_text. reflexivity.
  - repeat constructor; try (intros ?; reflexivity);
      (apply (parses_mono 1); [lia| apply parses_Quote; try apply quotable_b64; try exact Hq; reflexivity]).
Qed.

Lemma jwk_RSA_parse eb nb :
  parseJSON ("{" ++ fld "e" ++ (dq ++ b64url_encode eb ++ dq)
            ++ "," ++ fld "kty" ++ dq ++ "RSA" ++ dq
            ++ "," ++ fld "n" ++ (dq ++ b64url_encode nb ++ dq) ++ "}")%string
  = Some (JObject [("e", JString (b64url_encode eb)); ("kty", JString "RSA");
                   ("n", JString (b64url_encode nb))]).
Proof.
  rewrite <- !Quote_b64.
  rewrite (parseJSON_object _ [qmember "e" (b64url_encode eb); qmember "kty" "RSA";
                               qmember "n" (b64url_encode nb)] 1);
    [reflexivity| |discriminate| |cbn; lia].
  - cbn [render_members qmember]. change (quote_body "RSA"%string) with "RSA"%string.
    norm_text. reflexivity.
  - repeat constructor; try (intros ?; reflexivity);
      (apply (parses_mono 1); [lia| apply parses_Quote; try apply quotable_b64; reflexivity]).
Qed.

Lemma jwkPublic_EC c xb yb :
  In c [P256; P384; P521] ->
  jwkPublic [("crv", JString (Name c)); ("kty", JString "EC");
             ("x", JString (b64url_encode xb)); ("y", JString (b64url_encode yb))]
  = Some (ECDSAPublicKey c (SetBytes xb) (SetBytes yb)).
Proof.
  intros Hc. destruct Hc as [<- | [<- | [<- | []]]];
    unfold jwkPublic, b64Int; cbn -[b64url_decode b64url_encode SetBytes];
    rewrite !b64_decode_encode; reflexivity.
Qed.

Lemma jwkPublic_RSA eb nb :
  jwkPublic [("e", JString (b64url_encode eb)); ("kty", JString "RSA");
             ("n", JString (b64url_encode nb))]
  = Some (RSAPublicKey (SetBytes nb) (SetBytes eb)).
Proof.
  unfold jwkPublic, b64Int. cbn -[b64url_decode b64url_encode SetBytes].
  rewrite !b64_decode_encode. reflexivity.
Qed.

(** C7: [jwkEncode] writes the members in the order of RFC 7638: for EC
    [crv], [kty], [x], [y], with [x] and [y] the coordinates big-endian on
    exactly [ceil(bitSize / 8)] bytes; for RSA [e], [kty], [n], with the
    minimal big-endian bytes of [e] and [n]. Every value is base64url text
    without padding, which decodes back to its bytes. The text reads back,
    as a JWK, as the key it encodes. A JWK read in any order of its members
    denotes the same key and has the same thumbprint, and the thumbprint of
    any JWK is the hash of the [jwkEncode] text of the key it denotes: two
    JWKs of one key have the same thumbprint. *)
Theorem jwkEncode_canonical c x y n e :
  0 <= BitSize c -> 0 <= x < 2 ^ BitSize c -> 0 <= y < 2 ^ BitSize c ->
  let k := Z.to_nat ((BitSize c + 7) / 8) in
  jwkEncode (ECDSAPublicKey c x y)
  = inr ("{" ++ fld "crv" ++ Quote (Name c) ++ "," ++ fld "kty" ++ dq ++ "EC" ++ dq
         ++ "," ++ fld "x" ++ (dq ++ b64url_encode (be_fixed k x) ++ dq)
         ++ "," ++ fld "y" ++ (dq ++ b64url_encode (be_fixed k y) ++ dq) ++ "}")%string
  /\ List.length (be_fixed k x) = k /\ SetBytes (be_fixed k x) = x
  /\ List.length (be_fixed k y) = k /\ SetBytes (be_fixed k y) = y
  /\ jwkEncode (RSAPublicKey n e)
     = inr ("{" ++ fld "e" ++ (dq ++ b64url_encode (IntBytes e) ++ dq)
            ++ "," ++ fld "kty" ++ dq ++ "RSA" ++ dq
            ++ "," ++ fld "n" ++ (dq ++ b64url_encode (IntBytes n) ++ dq) ++ "}")%string
  /\ SetBytes (IntBytes e) = Z.abs e /\ SetBytes (IntBytes n) = Z.abs n
  /\ (forall bs, forallb in_alphabet (list_ascii_of_string (b64url_encode bs)) = true
                 /\ b64url_decode (b64url_encode bs) = Some bs)
  /\ in_alphabet "=" = false
  /\ (In c [P256; P384; P521] -> forall s, jwkEncode (ECDSAPublicKey c x y) = inr s ->
        let ms := [("crv", JString (Name c)); ("kty", JString "EC");
                   ("x", JString (b64url_encode (be_fixed k x)));
                   ("y", JString (b64url_encode (be_fixed k y)))] in
        parseJSON s = Some (JObject ms) /\ jwkPublic ms = Some (ECDSAPublicKey c x y))
  /\ (0 <= n -> 0 <= e -> forall s, jwkEncode (RSAPublicKey n e) = inr s ->
        let ms := [("e", JString (b64url_encode (IntBytes e))); ("kty", JString "RSA");
                   ("n", JString (b64url_encode (IntBytes n)))] in
        parseJSON s = Some (JObject ms) /\ jwkPublic ms = Some (RSAPublicKey n e))
  /\ (forall sha256 ms1 ms2, NoDup (map fst ms1) -> Permutation ms1 ms2 ->
        jwkPublic ms1 = jwkPublic ms2 /\ thumbprint sha256 ms1 = thumbprint sha256 ms2)
  /\ (forall sha256 ms pub, jwkPublic ms = Some pub ->
        exists j, jwkEncode pub = inr j /\ thumbprint sha256 ms = Some (sha256 (list_byte_of_string j)))
  /\ (forall sha256 ms1 ms2 pub, jwkPublic ms1 = Some pub -> jwkPublic ms2 = Some pub ->
        thumbprint sha256 ms1 = thumbprint sha256 ms2).
Proof.
  intros Hb Hx Hy k.
  destruct (jwkEncode_text c x y n e Hb Hx Hy) as (Ec & Lx & Sx & Ly & Sy & Er & Se & Sn & Hab & Heq).
  fold k in Ec, Lx, Sx, Ly, Sy.
  do 10 (split; [assumption|]).
  split; [|split; [|split; [|split]]].
  - intros Hc s Hs. rewrite Ec in Hs. injection Hs as <-. cbv zeta. split.
    + apply jwk_EC_parse. destruct Hc as [<- | [<- | [<- | []]]]; reflexivity.
    + rewrite jwkPublic_EC, Sx, Sy by exact Hc. reflexivity.
  - intros Hn He s Hs. rewrite Er in Hs. injection Hs as <-. cbv zeta. split.
    + apply jwk_RSA_parse.
    + rewrite jwkPublic_RSA, Se, Sn, !Z.abs_eq by assumption. reflexivity.
  - intros sha256 ms1 ms2 Hd Hp. assert (E : jwkPublic ms1 = jwkPublic ms2)
      by (apply jwkPublic_perm; assumption).
    split; [exact E|]. unfold thumbprint. rewrite E. reflexivity.
  - intros sha256 ms pub Hpub. destruct (jwkEncode_ok pub) as [j Ej].
    exists j. split; [exact Ej|]. unfold thumbprint. rewrite Hpub, Ej. reflexivity.
  - intros sha256 ms1 ms2 pub H1 H2. unfold thumbprint. rewrite H1, H2. reflexivity.
Qed.

Lemma jwkEncode_canonical_witness :
  thumbprint (fun b => b)
    [("kty", JString "EC"); ("crv", JString "P-256");
     ("y", JString (b64url_encode (be_fixed 32 2))); ("x", JString (b64url_encode (be_fixed 32 1)))]
  = thumbprint (fun b => b)
    [("crv", JString "P-256"); ("kty", JString "EC");
     ("x", JString (b64url_encode (be_fixed 32 1))); ("y", JString (b64url_encode (be_fixed 32 2)))].
Proof.
  destruct (jwkEncode_canonical P256 1 2 65537 3) as (_ & _ & _ & _ & _ & _ & _ & _ & _ & _ & _ & _ & Hp & _);
    [vm_compute; congruence | vm_compute; split; congruence | vm_compute; split; congruence|].
  apply (Hp (fun b => b)).
  - cbn. repeat constructor; cbn; intuition discriminate.
  - eapply perm_trans; [apply perm_swap|]. do 2 apply perm_skip. apply perm_swap.
Defined.


(** C6: for every key [jwsEncodeJSON] accepts, an ECDSA key on P-256,
    P-384 or P-521 of bit size [b], the [signature] member of the JWS is
    base64url of R and S, each big-endian and left-padded with zeros to
    exactly [ceil(b / 8)] bytes, so of [2 * ceil(b / 8)] bytes in all, from
    the [(r, s)] that [ecdsa.Sign] returned; no DER. The curve is known by
    its name, as [jwsHasher] knows it, and [ecdsa.Sign] returns [r] and [s]
    below [2 ^ b]. *)
Theorem jwsEncodeJSON_ecdsa_signature Claimset hashSum ecdsaSign rsaSign jsonMarshal cs
    c x y d kid nonce u jws :
  (forall c', In c' [P256; P384; P521] -> Name c = Name c' -> c = c') ->
  (forall digest r s, ecdsaSign (ECDSAPrivateKey c x y d) digest = Some (r, s) ->
     0 <= r < 2 ^ BitSize c /\ 0 <= s < 2 ^ BitSize c) ->
  jwsEncodeJSON Claimset hashSum ecdsaSign rsaSign jsonMarshal cs
    (ECDSAPrivateKey c x y d) kid nonce u = inr jws ->
  let n := Z.to_nat ((BitSize c + 7) / 8) in
  exists phead payload r s,
    parseJSON (string_of_list_byte jws)
    = Some (JObject [("protected", JString phead); ("payload", JString payload);
                     ("signature", JString (b64url_encode (be_fixed n r ++ be_fixed n s)))])
    /\ List.length (be_fixed n r ++ be_fixed n s) = (2 * n)%nat
    /\ SetBytes (be_fixed n r) = r /\ SetBytes (be_fixed n s) = s
    /\ exists digest, ecdsaSign (ECDSAPrivateKey c x y d) digest = Some (r, s).
Proof.
  intros Huniq Hbound Henc n.
  assert (Hc : c = P256 \/ c = P384 \/ c = P521).
  { revert Henc. unfold jwsEncodeJSON. cbn [Public jwsHasher].
    destruct (String.eqb_spec (Name c) "P-256") as [E|_];
      [intros _; left; apply Huniq; [left; reflexivity | exact E]|].
    destruct (String.eqb_spec (Name c) "P-384") as [E|_];
      [intros _; right; left; apply Huniq; [right; left; reflexivity | exact E]|].
    destruct (String.eqb_spec (Name c) "P-521") as [E|_];
      [intros _; right; right; apply Huniq; [right; right; left; reflexivity | exact E]|].
    cbn. discriminate. }
  assert (Hsz : sigSize c = (BitSize c + 7) / 8 /\ 2 ^ BitSize c <= 256 ^ sigSize c)
    by (destruct Hc as [-> | [-> | ->]]; split; vm_compute; congruence).
  destruct Hsz as [Hsz Hpow].
  assert (Hn : Z.to_nat (sigSize c) = n) by (unfold n; rewrite Hsz; reflexivity).
  assert (Hb : 0 <= BitSize c) by (destruct Hc as [-> | [-> | ->]]; vm_compute; congruence).
  assert (Hs0 : 0 <= sigSize c) by (destruct Hc as [-> | [-> | ->]]; vm_compute; congruence).
  destruct (jwsHasher (Public (ECDSAPrivateKey c x y d))) as [alg sha] eqn:Eh.
  unfold jwsEncodeJSON in Henc. rewrite Eh in Henc.
  destruct (String.eqb alg "" || negb (Available sha)); [discriminate|].
  destruct (jwsHead alg nonce u kid (ECDSAPrivateKey c x y d)) as [e|ph];
    cbn [gobind] in Henc; [discriminate|].
  match type of Henc with gobind ?m _ = _ => destruct m as [e|payload] end;
    cbn [gobind] in Henc; [discriminate|].
  cbv zeta in Henc.
  match type of Henc with context [jwsSign _ _ _ _ ?dg] =>
    destruct (ecdsaSign (ECDSAPrivateKey c x y d) dg) as [[r s]|] eqn:Es end.
  - destruct (Hbound _ _ _ Es) as [Hr Hs].
    rewrite (jwsSign_ecdsa _ _ _ _ _ _ _ _ _ _ Hs0 Es) in Henc by lia.
    cbn [gobind] in Henc. apply jwsFinal_parse in Henc. rewrite Hn in Henc.
    exists ph, payload, r, s. split; [exact Henc|].
    rewrite length_app, !be_fixed_length. split; [lia|].
    assert (Hk : Z.of_nat n = sigSize c) by (rewrite <- Hn; lia).
    rewrite !SetBytes_be_fixed, Hk by lia. rewrite !Z.mod_small by lia.
    split; [reflexivity|]. split; [reflexivity|]. eexists; exact Es.
  - unfold jwsSign in Henc. rewrite Es in Henc. discriminate.
Qed.

Lemma jwsEncodeJSON_ecdsa_signature_witness :
  exists phead payload r s,
    parseJSON (string_of_list_byte (JoseFixtures.jws "nonce"))
    = Some (JObject [("protected", JString phead); ("payload", JString payload);
                     ("signature", JString (b64url_encode (be_fixed 32 r ++ be_fixed 32 s)))])
    /\ List.length (be_fixed 32 r ++ be_fixed 32 s) = 64%nat
    /\ SetBytes (be_fixed 32 r) = r /\ SetBytes (be_fixed 32 s) = s
    /\ exists digest, JoseFixtures.ecdsaSign JoseFixtures.key digest = Some (r, s).
Proof.
  apply (jwsEncodeJSON_ecdsa_signature (list byte) JoseFixtures.hashSum JoseFixtures.ecdsaSign
           JoseFixtures.rsaSign JoseFixtures.jsonMarshal (Some JoseFixtures.payload)
           P256 1 2 3 "" "nonce" JoseFixtures.url).
  - intros c' Hin Hname. destruct Hin as [<- | [<- | [<- | []]]];
      [reflexivity | discriminate | discriminate].
  - intros digest r s H. cbn in H. injection H as <- <-. vm_compute. split; split; congruence.
  - vm_compute. reflexivity.
Defined.

Lemma copyAt_length dst off src dst' :
  copyAt dst off src = inr dst' -> List.length dst' = List.length dst.
Proof.
  unfold copyAt. destruct ((off <? 0) || (off >? Z.of_nat (List.length dst))) eqn:E;
    [discriminate|].
  intros H. injection H as <-. apply orb_false_elim in E as [E1 E2].
  rewrite Z.ltb_ge in E1. rewrite Z.gtb_ltb, Z.ltb_ge in E2.
  rewrite !length_app, length_firstn, length_firstn, length_skipn. lia.
Qed.

Lemma copyAt_inl dst off src e :
  copyAt dst off src = inl e <->
  (e = "panic: runtime error: slice bounds out of range"
   /\ (off < 0 \/ Z.of_nat (List.length dst) < off)).
Proof.
  unfold copyAt. destruct ((off <? 0) || (off >? Z.of_nat (List.length dst))) eqn:E.
  - apply orb_true_iff in E. rewrite Z.ltb_lt, Z.gtb_ltb, Z.ltb_lt in E.
    split; [intros H; injection H as <-; auto | intros [-> _]; reflexivity].
  - apply orb_false_elim in E as [E1 E2].
    rewrite Z.ltb_ge in E1. rewrite Z.gtb_ltb, Z.ltb_ge in E2.
    split; [discriminate | lia].
Qed.

Lemma copyAt_inr dst off src :
  0 <= off <= Z.of_nat (List.length dst) -> exists d, copyAt dst off src = inr d.
Proof.
  intros H. unfold copyAt.
  replace ((off <? 0) || (off >? Z.of_nat (List.length dst))) with false
    by (symmetry; apply orb_false_iff; rewrite Z.gtb_ltb, !Z.ltb_ge; lia).
  eexists; reflexivity.
Qed.

Lemma IntBytes_length z : List.length (IntBytes z) = byteLen (Z.abs z).
Proof. apply be_fixed_length. Qed.

Lemma jwsSign_err ecdsaSign rsaSign key hash digest e :
  jwsSign ecdsaSign rsaSign key hash digest = inl e ->
  In e ["ecdsa: signing failed"; "rsa: signing failed";
        "panic: runtime error: makeslice: len out of range";
        "panic: runtime error: slice bounds out of range"].
Proof.
  unfold jwsSign. destruct key as [n e' d | c x y d].
  - destruct (rsaSign _ _ _); intros H; [discriminate|]. injection H as <-. cbn; auto.
  - destruct (ecdsaSign _ _) as [[r s]|]; [|intros H; injection H as <-; cbn; auto].
    cbv zeta. destruct (_ <? 0); [intros H; injection H as <-; cbn; auto|].
    destruct (copyAt _ _ (IntBytes r)) as [e1|d1] eqn:E1; cbn [gobind].
    + intros H; injection H as <-. apply copyAt_inl in E1 as [-> _]. cbn; auto.
    + destruct (copyAt _ _ (IntBytes s)) as [e2|d2] eqn:E2; cbn [gobind]; [|discriminate].
      intros H; injection H as <-. apply copyAt_inl in E2 as [-> _]. cbn; auto.
Qed.

Lemma jwsHasher_supported pub :
  fst (jwsHasher pub) = "" <->
  exists c x y, pub = ECDSAPublicKey c x y /\ ~ In (Name c) ["P-256"; "P-384"; "P-521"].
Proof.
  destruct pub as [n e | c x y]; cbn.
  - split; [discriminate | intros (c & x & y & H & _); discriminate].
  - destruct (String.eqb_spec (Name c) "P-256") as [E1|E1]; cbn.
    { split; [discriminate | intros (c' & x' & y' & H & Hn); injection H as <- _ _;
      exfalso; apply Hn; left; congruence]. }
    destruct (String.eqb_spec (Name c) "P-384") as [E2|E2]; cbn.
    { split; [discriminate | intros (c' & x' & y' & H & Hn); injection H as <- _ _;
      exfalso; apply Hn; right; left; congruence]. }
    destruct (String.eqb_spec (Name c) "P-521") as [E3|E3]; cbn.
    { split; [discriminate | intros (c' & x' & y' & H & Hn); injection H as <- _ _;
      exfalso; apply Hn; right; right; left; congruence]. }
    split; [intros _ | reflexivity].
    exists c, x, y. split; [reflexivity|]. intros [H|[H|[H|[]]]]; congruence.
Qed.

(** [jwsEncodeJSON] fails with [errUnsupportedKey] exactly for an ECDSA key
    whose curve is not named P-256, P-384 or P-521, before it builds the
    header, marshals the claims or signs; no other failure returns that
    error. *)
Theorem jwsEncodeJSON_unsupported Claimset hashSum ecdsaSign rsaSign jsonMarshal
    cs key kid nonce u :
  jwsEncodeJSON Claimset hashSum ecdsaSign rsaSign jsonMarshal cs key kid nonce u
    = inl errUnsupportedKey
  <-> exists c x y d, key = ECDSAPrivateKey c x y d
                      /\ ~ In (Name c) ["P-256"; "P-384"; "P-521"].
Proof.
  unfold jwsEncodeJSON.
  assert (Hs : fst (jwsHasher (Public key)) = "" <->
               exists c x y d, key = ECDSAPrivateKey c x y d
                               /\ ~ In (Name c) ["P-256"; "P-384"; "P-521"]).
  { rewrite jwsHasher_supported. destruct key as [n e d | c x y d]; cbn.
    - split; [intros (c & x & y & H & _); discriminate
             | intros (c & x & y & d' & H & _); discriminate].
    - split; [intros (c' & x' & y' & H & Hn); injection H as <- <- <-; eauto 6
             | intros (c' & x' & y' & d' & H & Hn); injection H as <- <- <- <-; eauto]. }
  rewrite <- Hs. clear Hs.
  destruct (jwsHasher (Public key)) as [alg sha] eqn:Eh. cbn [fst].
  assert (Hav : String.eqb alg "" = false -> Available sha = true).
  { destruct key as [n e d | c x y d]; cbn in Eh;
      [injection Eh as <- <-; reflexivity|].
    repeat match type of Eh with context [if ?b then _ else _] => destruct b end;
      injection Eh as <- <-; try reflexivity; discriminate. }
  destruct (String.eqb_spec alg "") as [->|Ha].
  - cbn. split; reflexivity.
  - rewrite (Hav eq_refl). cbn [orb negb].
    split; [|intros H; contradiction].
    destruct (jwsHead_ok alg nonce u kid key) as [ph Eph]. rewrite Eph. cbn [gobind].
    intros H. exfalso.
    destruct cs as [c|]; [destruct (jsonMarshal c) as [b|]|]; cbn [gobind] in H;
      try (injection H; discriminate);
      (destruct (jwsSign _ _ _ _ _) as [e|sig] eqn:Es; cbn [gobind] in H;
       [injection H as ->; apply jwsSign_err in Es; unfold errUnsupportedKey in Es;
        repeat (destruct Es as [Es|Es]; [discriminate Es|]); exact Es
       | discriminate]).
Qed.

(** The layout of the protected header: decoded, it is a JSON object whose
    members are, in this order, [alg], then [jwk] (the parsed [jwkEncode]
    of the public key) when [kid] is empty or else [kid], then [nonce] only
    when it is not empty, then [url]. This holds when the quoted strings
    are printable ASCII or one of the escapes JSON shares with [%q]. *)
Theorem jwsHead_layout alg nonce u kid key ph :
  quotable alg = true -> quotable nonce = true -> quotable u = true -> quotable kid = true ->
  (match Public key with ECDSAPublicKey c _ _ => quotable (Name c) = true | _ => True end) ->
  jwsHead alg nonce u kid key = inr ph ->
  exists htext jv,
    b64url_decode ph = Some (list_byte_of_string htext)
    /\ parseJSON htext
       = Some (JObject (("alg", JString alg)
                        :: (if String.eqb kid "" then [("jwk", jv)] else [("kid", JString kid)])
                        ++ (if String.eqb nonce "" then [] else [("nonce", JString nonce)])
                        ++ [("url", JString u)]))
    /\ (kid = "" -> exists j, jwkEncode (Public key) = inr j /\ parseJSON j = Some jv).
Proof.
  intros Ha Hn Hu Hk Hc. unfold jwsHead.
  destruct (String.eqb kid "") eqn:Ekid.
  - destruct (jwkEncode (Public key)) as [e|jwk] eqn:Ej; cbn [gobind]; [discriminate|].
    destruct (jwk_parses _ _ Hc Ej) as [vj Hj].
    assert (Hjp : parseJSON jwk = Some vj).
    { rewrite <- (string_of_list_ascii_of_string jwk).
      apply (parseJSON_parses 6); [exact Hj|].
      destruct (Public key); cbn in Ej; injection Ej as <-;
        unfold fld, dq; rewrite ?list_ascii_of_string_app, ?length_app;
        cbn [list_ascii_of_string List.length]; lia. }
    destruct (String.eqb nonce "") eqn:En; intros H; injection H as <-;
      eexists; exists vj; (split; [apply b64_decode_encode|]);
      (split; [|intros _; exists jwk; split; [reflexivity | exact Hjp]]).
    + erewrite (parseJSON_object _
          [qmember "alg" alg; (list_ascii_of_string "jwk", list_ascii_of_string jwk, vj);
           qmember "url" u] 6).
      * reflexivity.
      * cbn [render_members qmember]. norm_text. reflexivity.
      * discriminate.
      * qmembers_ok.
      * cbn; lia.
    + erewrite (parseJSON_object _
          [qmember "alg" alg; (list_ascii_of_string "jwk", list_ascii_of_string jwk, vj);
           qmember "nonce" nonce; qmember "url" u] 6).
      * reflexivity.
      * cbn [render_members qmember]. norm_text. reflexivity.
      * discriminate.
      * qmembers_ok.
      * cbn; lia.
  - cbn [gobind].
    assert (Hne : kid <> "") by (intros ->; discriminate).
    destruct (String.eqb nonce "") eqn:En; intros H; injection H as <-;
      eexists; exists (JString ""); (split; [apply b64_decode_encode|]);
      (split; [|intros E; contradiction]).
    + erewrite (parseJSON_object _ [qmember "alg" alg; qmember "kid" kid; qmember "url" u] 6).
      * reflexivity.
      * cbn [render_members qmember]. norm_text. reflexivity.
      * discriminate.
      * qmembers_ok.
      * cbn; lia.
    + erewrite (parseJSON_object _
          [qmember "alg" alg; qmember "kid" kid; qmember "nonce" nonce; qmember "url" u] 6).
      * reflexivity.
      * cbn [render_members qmember]. norm_text. reflexivity.
      * discriminate.
      * qmembers_ok.
      * cbn; lia.
Qed.

Lemma jwsHead_layout_witness :
  exists htext jv,
    b64url_decode (match jwsHead "ES256" "nonce" JoseFixtures.url "" JoseFixtures.key with
                   | inr p => p | inl _ => "" end)
    = Some (list_byte_of_string htext)
    /\ parseJSON htext
       = Some (JObject (("alg", JString "ES256")
                        :: (if String.eqb "" "" then [("jwk", jv)] else [("kid", JString "")])
                        ++ (if String.eqb "nonce" "" then []
                            else [("nonce", JString "nonce")])
                        ++ [("url", JString JoseFixtures.url)]))
    /\ ("" = "" -> exists j, jwkEncode (Public JoseFixtures.key) = inr j
                             /\ parseJSON j = Some jv).
Proof.
  apply jwsHead_layout; try (vm_compute; reflexivity); exact I.
Defined.

(** What [jwsEncodeJSON] produces: its output parses as the JSON object
    with members [protected], [payload] and [signature], in this order; the
    header is [jwsHead] for the algorithm [jwsHasher] picks, the payload is
    the base64url of [json.Marshal(claimset)] or empty for a nil claim set,
    and the signature is the base64url of [jwsSign] over the digest, under
    that hash, of the header, a dot and the payload. *)
Theorem jwsEncodeJSON_structure Claimset hashSum ecdsaSign rsaSign jsonMarshal
    cs key kid nonce u jws :
  jwsEncodeJSON Claimset hashSum ecdsaSign rsaSign jsonMarshal cs key kid nonce u = inr jws ->
  exists alg sha phead payload sig,
    jwsHasher (Public key) = (alg, sha)
    /\ jwsHead alg nonce u kid key = inr phead
    /\ match cs with
       | None => payload = ""
       | Some c => exists b, jsonMarshal c = Some b /\ payload = b64url_encode b
       end
    /\ jwsSign ecdsaSign rsaSign key sha
         (hashSum sha (list_byte_of_string (phead ++ "." ++ payload))) = inr sig
    /\ parseJSON (string_of_list_byte jws)
       = Some (JObject [("protected", JString phead); ("payload", JString payload);
                        ("signature", JString (b64url_encode sig))]).
Proof.
  unfold jwsEncodeJSON.
  destruct (jwsHasher (Public key)) as [alg sha] eqn:Eh.
  destruct (String.eqb alg "" || negb (Available sha)); [discriminate|].
  destruct (jwsHead alg nonce u kid key) as [e|phead] eqn:Ehd; cbn [gobind]; [discriminate|].
  assert (K : forall payload,
    match cs with
    | None => payload = ""
    | Some c => exists b, jsonMarshal c = Some b /\ payload = b64url_encode b
    end ->
    gobind (jwsSign ecdsaSign rsaSign key sha
              (hashSum sha (list_byte_of_string (phead ++ "." ++ payload))))
           (fun sig => jwsFinal sha sig phead payload) = inr jws ->
    exists alg' sha' phead' payload' sig,
      (alg, sha) = (alg', sha') /\ jwsHead alg' nonce u kid key = inr phead'
      /\ match cs with
         | None => payload' = ""
         | Some c => exists b, jsonMarshal c = Some b /\ payload' = b64url_encode b
         end
      /\ jwsSign ecdsaSign rsaSign key sha'
           (hashSum sha' (list_byte_of_string (phead' ++ "." ++ payload'))) = inr sig
      /\ parseJSON (string_of_list_byte jws)
         = Some (JObject [("protected", JString phead'); ("payload", JString payload');
                          ("signature", JString (b64url_encode sig))])).
  { intros payload Hp H.
    destruct (jwsSign _ _ _ _ _) as [e|sig] eqn:Es; cbn [gobind] in H; [discriminate|].
    exists alg, sha, phead, payload, sig.
    repeat split; auto. apply (jwsFinal_parse sha); exact H. }
  destruct cs as [c|].
  - destruct (jsonMarshal c) as [b|] eqn:Em; cbn [gobind]; [|discriminate].
    apply K. exists b; auto.
  - cbn [gobind]. apply K. reflexivity.
Qed.

Lemma jwsEncodeJSON_structure_witness :
  exists alg sha phead payload sig,
    jwsHasher (Public JoseFixtures.key) = (alg, sha)
    /\ jwsHead alg "nonce" JoseFixtures.url "" JoseFixtures.key = inr phead
    /\ (exists b, JoseFixtures.jsonMarshal JoseFixtures.payload = Some b
                  /\ payload = b64url_encode b)
    /\ jwsSign JoseFixtures.ecdsaSign JoseFixtures.rsaSign JoseFixtures.key sha
         (JoseFixtures.hashSum sha (list_byte_of_string (phead ++ "." ++ payload))) = inr sig
    /\ parseJSON (string_of_list_byte (JoseFixtures.jws "nonce"))
       = Some (JObject [("protected", JString phead); ("payload", JString payload);
                        ("signature", JString (b64url_encode sig))]).
Proof.
  apply (jwsEncodeJSON_structure (list byte) JoseFixtures.hashSum JoseFixtures.ecdsaSign
           JoseFixtures.rsaSign JoseFixtures.jsonMarshal (Some JoseFixtures.payload)
           JoseFixtures.key "" "nonce" JoseFixtures.url (JoseFixtures.jws "nonce")).
  vm_compute. reflexivity.
Defined.

(** [jwsEncodeJSON] with a supported key and a claim set that [json.Marshal]
    rejects returns the marshalling error. *)
Theorem jwsEncodeJSON_marshal_error Claimset hashSum ecdsaSign rsaSign jsonMarshal
    c key kid nonce u :
  supportedKey key = true -> jsonMarshal c = None ->
  jwsEncodeJSON Claimset hashSum ecdsaSign rsaSign jsonMarshal (Some c) key kid nonce u
  = inl "json: unsupported value".
Proof.
  intros Hk Hm. unfold jwsEncodeJSON.
  destruct (jwsHead_ok (fst (jwsHasher (Public key))) nonce u kid key) as [ph Eph].
  destruct key as [n e d | cv x y d].
  - cbn [Public jwsHasher fst] in Eph |- *. cbn -[jwsHead].
    rewrite Eph. cbn [gobind]. rewrite Hm. reflexivity.
  - cbn [supportedKey] in Hk. apply supported_curve in Hk.
    destruct Hk as [-> | [-> | ->]]; cbn -[jwsHead] in Eph |- *; rewrite Eph; cbn [gobind];
      rewrite Hm; reflexivity.
Qed.

Lemma jwsEncodeJSON_marshal_error_witness :
  jwsEncodeJSON (list byte) JoseFixtures.hashSum JoseFixtures.ecdsaSign JoseFixtures.rsaSign
    (fun _ => None) (Some JoseFixtures.payload) JoseFixtures.key "" "nonce" JoseFixtures.url
  = inl "json: unsupported value".
Proof. apply jwsEncodeJSON_marshal_error; reflexivity. Defined.

(** On P-256, P-384 and P-521 [jwsSign] gives R and S big-endian, each
    left-padded with zeros to [ceil(bitSize / 8)] bytes (32, 48 and 66),
    whatever the hash, for signature values below [2^bitSize]. *)
Theorem jwsSign_supported_width ecdsaSign rsaSign c x y d hash digest r s :
  (c = P256 \/ c = P384 \/ c = P521) ->
  ecdsaSign (ECDSAPrivateKey c x y d) digest = Some (r, s) ->
  0 <= r < 2 ^ BitSize c -> 0 <= s < 2 ^ BitSize c ->
  let n := Z.to_nat ((BitSize c + 7) / 8) in
  jwsSign ecdsaSign rsaSign (ECDSAPrivateKey c x y d) hash digest
  = inr (be_fixed n r ++ be_fixed n s)
  /\ SetBytes (firstn n (be_fixed n r ++ be_fixed n s)) = r
  /\ SetBytes (skipn n (be_fixed n r ++ be_fixed n s)) = s.
Proof.
  intros Hc Hsig Hr Hs n.
  assert (Hn : sigSize c = (BitSize c + 7) / 8 /\ 0 <= BitSize c)
    by (destruct Hc as [-> | [-> | ->]]; split; [reflexivity | discriminate
                                                | reflexivity | discriminate
                                                | reflexivity | discriminate]).
  destruct Hn as [Hn Hb]. pose proof (pow2_le_256 _ Hb) as Hp.
  assert (H0 : 0 <= (BitSize c + 7) / 8) by (apply Z.div_pos; lia).
  assert (Hk : Z.of_nat n = (BitSize c + 7) / 8) by (unfold n; lia).
  destruct (firstn_skipn_len _ (be_fixed n r) (be_fixed n s) n (be_fixed_length _ _))
    as [-> ->].
  rewrite !SetBytes_be_fixed, Hk by lia.
  split; [|split; apply Z.mod_small; lia].
  unfold n. rewrite <- Hn. apply jwsSign_ecdsa; [lia | exact Hsig | rewrite Hn; lia | rewrite Hn; lia].
Qed.

Lemma jwsSign_supported_width_witness :
  let n := Z.to_nat ((BitSize P256 + 7) / 8) in
  jwsSign JoseFixtures.ecdsaSign JoseFixtures.rsaSign (ECDSAPrivateKey P256 1 2 3) SHA256 []
  = inr (be_fixed n 1 ++ be_fixed n 70000)
  /\ SetBytes (firstn n (be_fixed n 1 ++ be_fixed n 70000)) = 1
  /\ SetBytes (skipn n (be_fixed n 1 ++ be_fixed n 70000)) = 70000.
Proof.
  apply (jwsSign_supported_width JoseFixtures.ecdsaSign JoseFixtures.rsaSign P256 1 2 3
           SHA256 [] 1 70000);
    [left; reflexivity | reflexivity | vm_compute; split; congruence
    | vm_compute; split; congruence].
Defined.

(** [jwsSign] checks neither length: it panics exactly when the bytes of R
    are more than [size] or those of S more than [2 * size], where [size] is
    the half width it computes. An S of [size + 1] to [2 * size] bytes is
    copied over the end of R without an error. *)
Theorem jwsSign_panic ecdsaSign rsaSign c x y d hash digest r s :
  0 <= BitSize c ->
  ecdsaSign (ECDSAPrivateKey c x y d) digest = Some (r, s) ->
  (jwsSign ecdsaSign rsaSign (ECDSAPrivateKey c x y d) hash digest
   = inl "panic: runtime error: slice bounds out of range"
   <-> (sigSize c < Z.of_nat (List.length (IntBytes r))
        \/ 2 * sigSize c < Z.of_nat (List.length (IntBytes s)))).
Proof.
  intros Hb Hsig. unfold jwsSign. rewrite Hsig. fold (sigSize c). cbv zeta.
  assert (Hsz : 0 <= sigSize c).
  { unfold sigSize. rewrite Z.quot_div_nonneg by lia.
    destruct (_ >? 0); pose proof (Z.div_pos (BitSize c) 8); lia. }
  replace (sigSize c * 2 <? 0) with false by (symmetry; apply Z.ltb_ge; lia).
  set (dst := repeat Byte.x00 (Z.to_nat (sigSize c * 2))).
  assert (Hd : Z.of_nat (List.length dst) = sigSize c * 2)
    by (unfold dst; rewrite repeat_length; lia).
  destruct (copyAt dst (sigSize c - Z.of_nat (List.length (IntBytes r))) (IntBytes r))
    as [e1|d1] eqn:E1; cbn [gobind].
  - apply copyAt_inl in E1 as [-> Ho]. split; [intros _; left; lia | reflexivity].
  - pose proof (copyAt_length _ _ _ _ E1) as Hl1.
    assert (Hr : Z.of_nat (List.length (IntBytes r)) <= sigSize c).
    { destruct (Z.le_gt_cases (Z.of_nat (List.length (IntBytes r))) (sigSize c)); [auto|].
      exfalso. assert (Hx : copyAt dst (sigSize c - Z.of_nat (List.length (IntBytes r)))
                              (IntBytes r) = inl "panic: runtime error: slice bounds out of range")
        by (apply copyAt_inl; split; [reflexivity | left; lia]).
      congruence. }
    destruct (copyAt d1 (sigSize c * 2 - Z.of_nat (List.length (IntBytes s))) (IntBytes s))
      as [e2|d2] eqn:E2; cbn [gobind].
    + apply copyAt_inl in E2 as [-> Ho]. split; [intros _; right; lia | reflexivity].
    + split; [discriminate|]. intros [H|H]; [lia|].
      assert (Hx : copyAt d1 (sigSize c * 2 - Z.of_nat (List.length (IntBytes s)))
                     (IntBytes s) = inl "panic: runtime error: slice bounds out of range")
        by (apply copyAt_inl; split; [reflexivity | left; lia]).
      congruence.
Qed.

Lemma jwsSign_panic_witness :
  jwsSign JoseFixtures.ecdsaSign JoseFixtures.rsaSign (ECDSAPrivateKey P256 1 2 3) SHA256 []
  = inl "panic: runtime error: slice bounds out of range"
  <-> (sigSize P256 < Z.of_nat (List.length (IntBytes 1))
       \/ 2 * sigSize P256 < Z.of_nat (List.length (IntBytes 70000))).
Proof.
  apply (jwsSign_panic JoseFixtures.ecdsaSign JoseFixtures.rsaSign P256 1 2 3 SHA256 []);
    [discriminate | reflexivity].
Defined.

End JoseProofs.

Module SSHRevokeAPIProofs.
Import SSHRevoke SSHRevokeAPI.

Local Open Scope list_scope.
Local Open Scope Z_scope.

Lemma Validate_none_fields r :
  Validate r = None ->
  Serial r <> "" /\ 0 <= ReasonCode r <= 10 /\ Passive r = true /\ OTT r <> "".
Proof.
  unfold Validate, ocsp_Unspecified, ocsp_AACompromise.
  destruct (String.eqb_spec (Serial r) "") as [Hs|Hs]; [discriminate|].
  destruct (ReasonCode r <? 0) eqn:E1; cbn [orb]; [discriminate|].
  destruct (ReasonCode r >? 10) eqn:E2; [discriminate|].
  destruct (Passive r); [|discriminate]. cbn [negb].
  destruct (String.eqb_spec (OTT r) "") as [Ho|Ho]; [discriminate|].
  intros _. rewrite Z.ltb_ge in E1. rewrite Z.gtb_ltb, Z.ltb_ge in E2.
  repeat split; auto; lia.
Qed.

(** After a successful decoding, [SSHRevoke] answers 200 with status
    ["ok"] exactly when [Validate] accepts the body, [Authorize] accepts its
    token and the [Revoke] call the handler makes succeeds. *)
Theorem SSHRevoke_ok auth rj w b w' calls :
  SSHRevokeH auth rj w b = (w', calls) ->
  (WBody w' = JSONBody {| RStatus := "ok" |} /\ WCode w' = 200)
  <-> (exists body opts, rj b = Some body /\ Validate body = None
         /\ Authorize auth (OTT body) = None
         /\ In (CallRevoke opts) calls /\ Revoke auth opts = None).
Proof.
  unfold SSHRevokeH.
  destruct (rj b) as [body|] eqn:Hrj.
  2: { intros H; injection H as <- <-. cbn. split; [intros [H _]; discriminate|].
       intros (body & opts & H & _); discriminate. }
  destruct (Validate body) as [ve|] eqn:Hv.
  { intros H; injection H as <- <-. cbn. split; [intros [H _]; discriminate|].
    intros (body' & opts & H & _ & _ & Hin & _). contradiction. }
  destruct (Authorize auth (OTT body)) as [ae|] eqn:Ha.
  { intros H; injection H as <- <-. cbn. split; [intros [H _]; discriminate|].
    intros (body' & opts & H & _ & _ & Hin & _). destruct Hin as [Hin|[]]; discriminate. }
  match goal with |- context [Revoke auth ?o] => set (opts := o) end.
  destruct (Revoke auth opts) as [re|] eqn:Hr; intros H; injection H as <- <-; cbn.
  - split; [intros [H _]; discriminate|].
    intros (body' & opts' & H & _ & _ & Hin & Hr').
    injection H as <-. destruct Hin as [Hin|[Hin|[]]]; [discriminate|].
    injection Hin as <-. congruence.
  - split; [|split; reflexivity]. intros _.
    exists body, opts. repeat split; auto; right; left; reflexivity.
Qed.

(** [SSHRevoke] contacts the [Authority] only for a body it decoded and
    that [Validate] accepted: a request with an empty serial or token, a
    reason code outside [0, 10] or [passive = false] never reaches
    [Authorize] or [Revoke]. *)
Theorem SSHRevoke_validates_first auth rj w b w' calls :
  SSHRevokeH auth rj w b = (w', calls) -> calls <> [] ->
  exists body, rj b = Some body /\ Validate body = None
    /\ Serial body <> "" /\ OTT body <> "" /\ Passive body = true
    /\ 0 <= ReasonCode body <= 10.
Proof.
  unfold SSHRevokeH.
  destruct (rj b) as [body|] eqn:Hrj; [|intros H; injection H as _ <-; congruence].
  destruct (Validate body) as [ve|] eqn:Hv; [intros H; injection H as _ <-; congruence|].
  intros _ _. destruct (Validate_none_fields _ Hv) as (H1 & H2 & H3 & H4).
  exists body. repeat split; auto; lia.
Qed.

(** [Revoke] is called at most once, right after [Authorize] accepted the
    request's token, and with the options built from the body: its serial,
    reason and reason code, [PassiveOnly] set, [OTT] the authorized token,
    and neither [MTLS] nor [ACME] nor a certificate. *)
Theorem SSHRevoke_revoke_call auth rj w b w' calls opts :
  SSHRevokeH auth rj w b = (w', calls) -> In (CallRevoke opts) calls ->
  exists body, rj b = Some body
    /\ calls = [CallAuthorize (OTT body); CallRevoke opts]
    /\ Authorize auth (OTT body) = None
    /\ opts = {| AcmeRevoke.Serial := Serial body; AcmeRevoke.Reason := Reason body;
                 AcmeRevoke.ReasonCode := ReasonCode body; AcmeRevoke.PassiveOnly := true;
                 AcmeRevoke.MTLS := false; AcmeRevoke.Crt := None;
                 AcmeRevoke.OTT := OTT body; AcmeRevoke.ACME := false |}.
Proof.
  unfold SSHRevokeH.
  destruct (rj b) as [body|] eqn:Hrj; [|intros H; injection H as _ <-; intros []].
  destruct (Validate body) as [ve|] eqn:Hv; [intros H; injection H as _ <-; intros []|].
  destruct (Validate_none_fields _ Hv) as (_ & _ & Hp & _).
  destruct (Authorize auth (OTT body)) as [ae|] eqn:Ha.
  { intros H; injection H as _ <-. intros [H|[]]; discriminate. }
  destruct (Revoke auth _) as [re|] eqn:Hr; intros H; injection H as _ <-;
    intros [H|[H|[]]]; try discriminate; injection H as <-;
    exists body; rewrite Hp; repeat split; first [reflexivity | assumption].
Qed.

(** The statuses of [SSHRevoke]: 200, 400, 401, 403 or 501, never a 500;
    401 when [Authorize] rejected the token, after which nothing else is
    called; 403 with ["error revoking ssh certificate"] when [Revoke]
    failed. *)
Theorem SSHRevoke_status auth rj w b w' calls :
  SSHRevokeH auth rj w b = (w', calls) ->
  In (WCode w') [200; 400; 401; 403; 501]
  /\ (WCode w' = 401 -> exists t e, calls = [CallAuthorize t] /\ Authorize auth t = Some e)
  /\ (WCode w' = 403 -> exists t o e, calls = [CallAuthorize t; CallRevoke o]
        /\ Revoke auth o = Some e
        /\ WBody w' = ErrorBody {| Status := 403; Msg := "error revoking ssh certificate" |}).
Proof.
  unfold SSHRevokeH.
  destruct (rj b) as [body|] eqn:Hrj.
  2: { intros H; injection H as <- <-. cbn. split; [tauto|split; discriminate]. }
  destruct (Validate body) as [ve|] eqn:Hv.
  { intros H; injection H as <- <-. cbn.
    unfold Validate in Hv.
    repeat match type of Hv with
           | context [if ?c then _ else _] => destruct c; cbn in Hv
           end;
      first [ discriminate Hv
            | injection Hv as <-; cbn; (split; [tauto|split; discriminate]) ]. }
  destruct (Authorize auth (OTT body)) as [ae|] eqn:Ha.
  { intros H; injection H as <- <-. cbn. split; [tauto|].
    split; [intros _; exists (OTT body), ae; auto | discriminate]. }
  destruct (Revoke auth _) as [re|] eqn:Hr; intros H; injection H as <- <-.
  - cbn. split; [tauto|]. split; [discriminate|].
    intros _. do 3 eexists. split; [reflexivity|]. split; [exact Hr|reflexivity].
  - unfold logSSHRevoke, addLog. destruct (IsLogger _); cbn; (split; [tauto|split; discriminate]).
Qed.

(** On success, a logging response writer receives the token, then the
    fields of the revocation with [passiveOnly] set, [mTLS] unset and
    [ssh] set; any other writer logs nothing. *)
Theorem SSHRevoke_log auth rj w b w' calls body :
  SSHRevokeH auth rj w b = (w', calls) -> rj b = Some body ->
  WBody w' = JSONBody {| RStatus := "ok" |} ->
  WLog w' = WLog w ++
    (if IsLogger w
     then [LogOTT (OTT body);
           LogSSHRevoke (Serial body) (ReasonCode body) (Reason body) true false true]
     else []).
Proof.
  unfold SSHRevokeH. intros H Hrj. rewrite Hrj in H.
  destruct (Validate body) as [ve|] eqn:Hv; [injection H as <- <-; discriminate|].
  destruct (Validate_none_fields _ Hv) as (_ & _ & Hp & _).
  destruct (Authorize auth (OTT body)) as [ae|] eqn:Ha; [injection H as <- <-; discriminate|].
  destruct (Revoke auth _) as [re|] eqn:Hr; injection H as <- <-; [discriminate|].
  intros _. unfold logSSHRevoke, logOtt, addLog.
  destruct (IsLogger w) eqn:El; cbn; rewrite ?El; cbn; rewrite ?Hp, ?app_nil_r, <- ?app_assoc;
    reflexivity.
Qed.

Lemma SSHRevoke_ok_witness :
  WBody (fst (SSHRevokeFixtures.run SSHRevokeFixtures.okAuth SSHRevokeFixtures.passiveReq))
  = JSONBody {| RStatus := "ok" |}
  /\ WCode (fst (SSHRevokeFixtures.run SSHRevokeFixtures.okAuth SSHRevokeFixtures.passiveReq))
     = 200.
Proof.
  apply (proj2 (SSHRevoke_ok SSHRevokeFixtures.okAuth (fun _ => Some SSHRevokeFixtures.passiveReq)
                  (NewRecorder true) []
                  (fst (SSHRevokeFixtures.run SSHRevokeFixtures.okAuth SSHRevokeFixtures.passiveReq))
                  (snd (SSHRevokeFixtures.run SSHRevokeFixtures.okAuth SSHRevokeFixtures.passiveReq))
                  eq_refl)).
  eexists; eexists; split; [reflexivity|]. split; [reflexivity|]. split; [reflexivity|].
  split; [simpl; right; left; reflexivity | reflexivity].
Defined.

Lemma SSHRevoke_validates_first_witness :
  exists body, Some SSHRevokeFixtures.passiveReq = Some body /\ Validate body = None
    /\ Serial body <> "" /\ OTT body <> "" /\ Passive body = true
    /\ 0 <= ReasonCode body <= 10.
Proof.
  apply (SSHRevoke_validates_first SSHRevokeFixtures.denyAuth
           (fun _ => Some SSHRevokeFixtures.passiveReq) (NewRecorder true) []
           (fst (SSHRevokeFixtures.run SSHRevokeFixtures.denyAuth SSHRevokeFixtures.passiveReq))
           (snd (SSHRevokeFixtures.run SSHRevokeFixtures.denyAuth SSHRevokeFixtures.passiveReq))
           eq_refl).
  discriminate.
Defined.

Lemma SSHRevoke_revoke_call_witness :
  exists body, Some SSHRevokeFixtures.passiveReq = Some body
    /\ snd (SSHRevokeFixtures.run SSHRevokeFixtures.okAuth SSHRevokeFixtures.passiveReq)
       = [CallAuthorize (OTT body);
          CallRevoke (setOTT {| AcmeRevoke.Serial := "1234"; AcmeRevoke.Reason := "key compromised";
                                AcmeRevoke.ReasonCode := 1; AcmeRevoke.PassiveOnly := true;
                                AcmeRevoke.MTLS := false; AcmeRevoke.Crt := None;
                                AcmeRevoke.OTT := ""; AcmeRevoke.ACME := false |} "token")]
    /\ Authorize SSHRevokeFixtures.okAuth (OTT body) = None
    /\ setOTT {| AcmeRevoke.Serial := "1234"; AcmeRevoke.Reason := "key compromised";
                 AcmeRevoke.ReasonCode := 1; AcmeRevoke.PassiveOnly := true;
                 AcmeRevoke.MTLS := false; AcmeRevoke.Crt := None;
                 AcmeRevoke.OTT := ""; AcmeRevoke.ACME := false |} "token"
       = {| AcmeRevoke.Serial := Serial body; AcmeRevoke.Reason := Reason body;
            AcmeRevoke.ReasonCode := ReasonCode body; AcmeRevoke.PassiveOnly := true;
            AcmeRevoke.MTLS := false; AcmeRevoke.Crt := None;
            AcmeRevoke.OTT := OTT body; AcmeRevoke.ACME := false |}.
Proof.
  apply (SSHRevoke_revoke_call SSHRevokeFixtures.okAuth
           (fun _ => Some SSHRevokeFixtures.passiveReq) (NewRecorder true) []
           (fst (SSHRevokeFixtures.run SSHRevokeFixtures.okAuth SSHRevokeFixtures.passiveReq))
           (snd (SSHRevokeFixtures.run SSHRevokeFixtures.okAuth SSHRevokeFixtures.passiveReq))).
  - reflexivity.
  - simpl. right; left; reflexivity.
Defined.

Lemma SSHRevoke_status_witness :
  In (WCode (fst (SSHRevokeFixtures.run SSHRevokeFixtures.failAuth SSHRevokeFixtures.passiveReq)))
     [200; 400; 401; 403; 501]
  /\ (WCode (fst (SSHRevokeFixtures.run SSHRevokeFixtures.failAuth SSHRevokeFixtures.passiveReq))
        = 401 ->
      exists t e, snd (SSHRevokeFixtures.run SSHRevokeFixtures.failAuth SSHRevokeFixtures.passiveReq)
                  = [CallAuthorize t] /\ Authorize SSHRevokeFixtures.failAuth t = Some e)
  /\ (WCode (fst (SSHRevokeFixtures.run SSHRevokeFixtures.failAuth SSHRevokeFixtures.passiveReq))
        = 403 ->
      exists t o e,
        snd (SSHRevokeFixtures.run SSHRevokeFixtures.failAuth SSHRevokeFixtures.passiveReq)
        = [CallAuthorize t; CallRevoke o]
        /\ Revoke SSHRevokeFixtures.failAuth o = Some e
        /\ WBody (fst (SSHRevokeFixtures.run SSHRevokeFixtures.failAuth SSHRevokeFixtures.passiveReq))
           = ErrorBody {| Status := 403; Msg := "error revoking ssh certificate" |}).
Proof.
  apply (SSHRevoke_status SSHRevokeFixtures.failAuth
           (fun _ => Some SSHRevokeFixtures.passiveReq) (NewRecorder true) []).
  reflexivity.
Defined.

Lemma SSHRevoke_log_witness :
  WLog (fst (SSHRevokeFixtures.run SSHRevokeFixtures.okAuth SSHRevokeFixtures.passiveReq))
  = [LogOTT "token"; LogSSHRevoke "1234" 1 "key compromised" true false true].
Proof.
  apply (SSHRevoke_log SSHRevokeFixtures.okAuth (fun _ => Some SSHRevokeFixtures.passiveReq)
           (NewRecorder true) []
           (fst (SSHRevokeFixtures.run SSHRevokeFixtures.okAuth SSHRevokeFixtures.passiveReq))
           (snd (SSHRevokeFixtures.run SSHRevokeFixtures.okAuth SSHRevokeFixtures.passiveReq))
           SSHRevokeFixtures.passiveReq); reflexivity.
Defined.

End SSHRevokeAPIProofs.
